(** * Quanta Chat plugin: the signaling + persistence hub, embedded in Rocq

    A shallow embedding of the parts of the chat plugin that the
    specification's testable properties talk about:

    - [DBRoom] and [DBMessages] (server/db): the relational store, its four
      tables and the message operations;
    - [WebRTCServer] (server): the signaling hub, its fan-out loops and the
      broadcast pipeline;
    - [ChatService] (server): the HTTP handlers for message deletion and
      user blocking;
    - [AppRooms] and [AppMessages] (client): retention cleaning and the
      history synchronisation pass.

    Asynchronous code is modelled as explicit state passing: every [await]
    is taken to run to completion before the next statement, and a call
    that is not awaited is split into what it does at once and the rest it
    leaves running ([DBMessages.Detached]).  A [runTrans] block is the
    function from the database before it to the database after it, which
    has the tables of the database before it when a statement of the block
    was rejected.  The statements of the message operations are rejected as
    the schema has it: for a number outside the type of its column
    ([INTEGER], [BIGINT]) and for a row without the row its foreign key
    names.  Strings are taken to be text the store holds (no NUL
    character), and the sequences not to run out of ids.  Connectivity
    exceptions of the database are outside the model except where a
    handler's behaviour on them is what a property is about
    ([ChatService.blockUser]). *)

From Stdlib Require Import ZArith Ascii String.
From Stdlib.Strings Require Import Byte.
From stdpp Require Import gmap strings list sorting.

Local Open Scope string_scope.
Local Open Scope list_scope.
Local Open Scope Z_scope.

(** ** Common types (common/types/CommonTypes) *)

Inductive MessageStates := SENT | SAVED | FAILED.

#[global] Instance MessageStates_eq_dec : EqDecision MessageStates.
Proof. solve_decision. Defined.

(** An attachment as it travels on the wire: [data] is a data URL. *)
Record FileBase64 := mkFileBase64 {
  fb_name : string;
  fb_type : string;
  fb_size : Z;
  fb_data : string
}.

(** [ChatMessageIntf].  The optional fields of the TypeScript interface are
    options; [msg_id] is the field [id], and so on for the other fields. *)
Record ChatMessage := mkChatMessage {
  msg_id : string;
  msg_timestamp : Z;
  msg_sender : string;
  msg_content : string;
  msg_publicKey : option string;
  msg_signature : option string;
  msg_state : option MessageStates;
  msg_attachments : list FileBase64
}.

Definition set_state (s : MessageStates) (m : ChatMessage) : ChatMessage :=
  mkChatMessage (msg_id m) (msg_timestamp m) (msg_sender m) (msg_content m)
    (msg_publicKey m) (msg_signature m) (Some s) (msg_attachments m).

Record User := mkUser {
  user_name : string;
  user_publicKey : string
}.

#[global] Instance User_eq_dec : EqDecision User.
Proof. solve_decision. Defined.

(** ** The runtime the code relies on

    [crypt.verifySignature] is a black box for the hub (a boolean verdict
    on a chat message), and so is the decoder behind
    [Buffer.from(s, 'base64')], whose treatment of malformed input is the
    runtime's business. *)

Class Crypto := {
  verifySignature : ChatMessage → bool
}.

Class BufferDecoder := {
  Buffer_from_base64 : string → list byte
}.

(** [Buffer.toString('base64')] is the standard alphabet with padding. *)
Module Base64.

Definition alphabet : string :=
  "ABCDEFGHIJKLMNOPQRSTUVWXYZabcdefghijklmnopqrstuvwxyz0123456789+/".

Definition digit (n : N) : ascii :=
  match String.get (N.to_nat n) alphabet with
  | Some c => c
  | None => "="%char
  end.

Fixpoint encode (bs : list byte) : string :=
  match bs with
  | [] => ""
  | [a] =>
      let x := Byte.to_N a in
      String (digit (N.shiftr x 2))
        (String (digit (N.shiftl (N.land x 3) 4)) "==")
  | [a; b] =>
      let x := Byte.to_N a in
      let y := Byte.to_N b in
      String (digit (N.shiftr x 2))
        (String (digit (N.lor (N.shiftl (N.land x 3) 4) (N.shiftr y 4)))
           (String (digit (N.shiftl (N.land y 15) 2)) "="))
  | a :: b :: c :: rest =>
      let x := Byte.to_N a in
      let y := Byte.to_N b in
      let z := Byte.to_N c in
      String (digit (N.shiftr x 2))
        (String (digit (N.lor (N.shiftl (N.land x 3) 4) (N.shiftr y 4)))
           (String (digit (N.lor (N.shiftl (N.land y 15) 2) (N.shiftr z 6)))
              (String (digit (N.land z 63)) (encode rest))))
  end.

End Base64.

(** The pattern [/^data:([A-Za-z-+/]+);base64,(.+)$/] of
    [persistMessageToRoomId]; the result is the second group. *)
Module DataUrl.

Definition is_mime_char (c : ascii) : bool :=
  let n := nat_of_ascii c in
  ((65 <=? n) && (n <=? 90))%nat || ((97 <=? n) && (n <=? 122))%nat
  || bool_decide (c = "-"%char) || bool_decide (c = "+"%char)
  || bool_decide (c = "/"%char).

Fixpoint strip_prefix (p s : string) : option string :=
  match p with
  | EmptyString => Some s
  | String a p' =>
      match s with
      | String b s' => if bool_decide (a = b) then strip_prefix p' s' else None
      | EmptyString => None
      end
  end.

Fixpoint drop_while (f : ascii → bool) (s : string) : string :=
  match s with
  | String c s' => if f c then drop_while f s' else s
  | EmptyString => s
  end.

Fixpoint all_chars (f : ascii → bool) (s : string) : bool :=
  match s with
  | String c s' => f c && all_chars f s'
  | EmptyString => true
  end.

Definition starts_with (p s : string) : bool :=
  match strip_prefix p s with
  | Some _ => true
  | None => false
  end.

(** The line terminators that [.] does not match: LF, CR, U+2028 and
    U+2029.  A string is held as its UTF-8 bytes, in which the last two are
    E2 80 A8 and E2 80 A9. *)
Definition line_terminators : list string :=
  [String "010" EmptyString;
   String "013" EmptyString;
   String "226" (String "128" (String "168" EmptyString));
   String "226" (String "128" (String "169" EmptyString))].

(** [.+] to the end of the input: no line terminator starts anywhere. *)
Fixpoint no_line_terminator (s : string) : bool :=
  match s with
  | EmptyString => true
  | String c s' =>
      negb (existsb (λ t, starts_with t (String c s')) line_terminators)
      && no_line_terminator s'
  end.

Definition payload (url : string) : option string :=
  match strip_prefix "data:" url with
  | None => None
  | Some s1 =>
      match s1 with
      | String c _ =>
          if is_mime_char c then
            match strip_prefix ";base64," (drop_while is_mime_char s1) with
            | Some (String d rest) =>
                if no_line_terminator (String d rest)
                then Some (String d rest) else None
            | _ => None
            end
          else None
      | EmptyString => None
      end
  end.

End DataUrl.

(** ** The store: the four tables of the schema *)

Record RoomRow := mkRoomRow {
  room_pk : Z;
  room_name : string
}.

Record MessageRow := mkMessageRow {
  m_id : string;
  m_room_id : Z;
  m_timestamp : Z;
  m_sender : string;
  m_content : string;
  m_public_key : option string;
  m_signature : option string;
  m_state : option MessageStates
}.

Record AttachmentRow := mkAttachmentRow {
  a_id : Z;
  a_message_id : string;
  a_name : string;
  a_type : string;
  a_size : Z;
  a_data : option (list byte)
}.

(** Rows are kept in insertion order; [rooms_seq] and [attachments_seq] are
    the last values handed out by the two [SERIAL] sequences. *)
Record DB := mkDB {
  rooms : list RoomRow;
  rooms_seq : Z;
  messages : list MessageRow;
  attachments : list AttachmentRow;
  attachments_seq : Z;
  blocked_keys : list string
}.

Definition emptyDB : DB := mkDB [] 0 [] [] 0 [].

(** The result of a call that may throw instead of returning. *)
Inductive Try (A : Type) :=
| Returns (a : A)
| Throws.

Arguments Returns {A} a.
Arguments Throws {A}.

(** The number types of the schema: [INTEGER] (room ids, attachment sizes)
    and [BIGINT] (timestamps).  A number outside the type of its column is
    rejected when the statement is bound, and the statement throws. *)
Definition int4 (z : Z) : Prop := -2147483648 ≤ z ≤ 2147483647.

Definition int8 (z : Z) : Prop :=
  -9223372036854775808 ≤ z ≤ 9223372036854775807.

#[global] Instance int4_dec (z : Z) : Decision (int4 z).
Proof. unfold int4. apply _. Defined.

#[global] Instance int8_dec (z : Z) : Decision (int8 z).
Proof. unfold int8. apply _. Defined.

(** What a transaction that does not commit leaves.  The contract of the
    host's transaction primitive is that the operations issued within a
    block either all commit or all roll back: the tables are as they were
    at its start, [before]; the sequences stay where the statements of the
    transaction took them, in [now] (a sequence is not rolled back). *)
Definition rolled_back (before now : DB) : DB :=
  mkDB (rooms before) (rooms_seq now) (messages before) (attachments before)
    (attachments_seq now) (blocked_keys before).

(** The part of the host platform's [DBUsers] that the plugin calls.  The
    two mutators can fail: they return the store they leave behind and an
    error when they threw. *)
Class DBUsers := {
  isUserBlocked : option string → DB → bool;
  deleteUserContent : string → DB → DB * option string;
  blockUser : string → DB → DB * option string
}.

(** A stable insertion sort: [ORDER BY] over rows in storage order, and
    [Array.prototype.sort] (stable since ES2019). *)
Section StableSort.
Context {A : Type} (le : A → A → bool).

Fixpoint insert_by (x : A) (l : list A) : list A :=
  match l with
  | [] => [x]
  | y :: l' => if le x y then x :: y :: l' else y :: insert_by x l'
  end.

Definition sort_by (l : list A) : list A := foldr insert_by [] l.
End StableSort.

(** JS truthiness of a string, and [s || null]. *)
Definition truthy (s : string) : bool := negb (bool_decide (s = "")).

Definition or_null (o : option string) : option string :=
  match o with
  | Some s => if truthy s then Some s else None
  | None => None
  end.


(** ** server/db/DBRoom.ts *)
Module DBRoom.

(** [SELECT id FROM rooms WHERE name = $1], first row. *)
Definition select_room_by_name (name : string) (db : DB) : option RoomRow :=
  head (filter (λ r, room_name r = name) (rooms db)).

(** [SELECT id FROM rooms WHERE id = $1], first row. *)
Definition select_room_by_id (rid : Z) (db : DB) : option RoomRow :=
  head (filter (λ r, room_pk r = rid) (rooms db)).

(** [INSERT INTO rooms (name) VALUES ($1) RETURNING id]. *)
Definition insert_room (name : string) (db : DB) : DB * Z :=
  let rid := rooms_seq db + 1 in
  (mkDB (rooms db ++ [mkRoomRow rid name]) rid (messages db)
     (attachments db) (attachments_seq db) (blocked_keys db), rid).

Definition getOrCreateRoom (roomName : string) (db : DB) : DB * Z :=
  match select_room_by_name roomName db with
  | Some r => (db, room_pk r)
  | None => insert_room roomName db
  end.

(** [SELECT id FROM messages WHERE room_id = $1]. *)
Definition select_message_ids_of_room (rid : Z) (db : DB) : list string :=
  m_id <$> filter (λ r, m_room_id r = rid) (messages db).

(** [DELETE FROM attachments WHERE message_id IN (...)]. *)
Definition delete_attachments_in (messageIds : list string) (db : DB) : DB * Z :=
  (mkDB (rooms db) (rooms_seq db) (messages db)
     (filter (λ a, a_message_id a ∉ messageIds) (attachments db))
     (attachments_seq db) (blocked_keys db),
   Z.of_nat (length (filter (λ a, a_message_id a ∈ messageIds) (attachments db)))).

(** [DELETE FROM messages WHERE room_id = $1]. *)
Definition delete_messages_of_room (rid : Z) (db : DB) : DB * Z :=
  (mkDB (rooms db) (rooms_seq db)
     (filter (λ r, m_room_id r ≠ rid) (messages db))
     (attachments db) (attachments_seq db) (blocked_keys db),
   Z.of_nat (length (filter (λ r, m_room_id r = rid) (messages db)))).

(** [DELETE FROM rooms WHERE id = $1]. *)
Definition delete_room_by_id (rid : Z) (db : DB) : DB * Z :=
  (mkDB (filter (λ r, room_pk r ≠ rid) (rooms db)) (rooms_seq db)
     (messages db) (attachments db) (attachments_seq db) (blocked_keys db),
   Z.of_nat (length (filter (λ r, room_pk r = rid) (rooms db)))).

(** The two deletes that [deleteRoom] and [wipeRoom] share: the
    attachments of the room's messages (when there are messages), then the
    messages. *)
Definition delete_room_content (roomId : Z) (db : DB) : DB * Z :=
  let messageIds := select_message_ids_of_room roomId db in
  let db1 :=
    match messageIds with
    | [] => db
    | _ => (delete_attachments_in messageIds db).1
    end in
  delete_messages_of_room roomId db1.

Definition deleteRoom (roomName : string) (db : DB) : DB * bool :=
  match select_room_by_name roomName db with
  | None => (db, false)
  | Some room =>
      let roomId := room_pk room in
      let '(db2, _) := delete_room_content roomId db in
      let '(db3, rowCount) := delete_room_by_id roomId db2 in
      (db3, bool_decide (0 < rowCount))
  end.

Definition wipeRoom (roomName : string) (db : DB) : DB :=
  match select_room_by_name roomName db with
  | None => db
  | Some room => (delete_room_content (room_pk room) db).1
  end.

End DBRoom.

(** ** server/db/DBMessages.ts *)
Module DBMessages.

(** [SELECT ... FROM messages WHERE id = $1]. *)
Definition select_messages_by_id (mid : string) (db : DB) : list MessageRow :=
  filter (λ r, m_id r = mid) (messages db).

(** [INSERT INTO messages ... ON CONFLICT (id) DO NOTHING]; the second
    component of what it returns is [rowCount].  The store rejects the
    statement for a room id outside [INTEGER] or a timestamp outside
    [BIGINT], whether or not the id is taken, and a row that is to be
    inserted for a room id that no room has (the foreign key). *)
Definition insert_message (row : MessageRow) (db : DB) : Try (DB * Z) :=
  if negb (bool_decide (int4 (m_room_id row))
           && bool_decide (int8 (m_timestamp row)))
  then Throws
  else if bool_decide (m_id row ∈ (m_id <$> messages db)) then Returns (db, 0)
  else if bool_decide (m_room_id row ∈ (room_pk <$> rooms db))
  then Returns (mkDB (rooms db) (rooms_seq db) (messages db ++ [row])
                  (attachments db) (attachments_seq db) (blocked_keys db), 1)
  else Throws.

(** [DELETE FROM attachments WHERE message_id = $1]. *)
Definition delete_attachments_of (mid : string) (db : DB) : DB * Z :=
  (mkDB (rooms db) (rooms_seq db) (messages db)
     (filter (λ a, a_message_id a ≠ mid) (attachments db))
     (attachments_seq db) (blocked_keys db),
   Z.of_nat (length (filter (λ a, a_message_id a = mid) (attachments db)))).

(** [DELETE FROM messages WHERE id = $1]. *)
Definition delete_messages_by_id (mid : string) (db : DB) : DB * Z :=
  (mkDB (rooms db) (rooms_seq db)
     (filter (λ r, m_id r ≠ mid) (messages db))
     (attachments db) (attachments_seq db) (blocked_keys db),
   Z.of_nat (length (filter (λ r, m_id r = mid) (messages db)))).

Definition row_of_message (roomId : Z) (message : ChatMessage) : MessageRow :=
  mkMessageRow (msg_id message) roomId (msg_timestamp message)
    (msg_sender message) (msg_content message)
    (or_null (msg_publicKey message)) (or_null (msg_signature message))
    (msg_state message).

Section Persist.
Context `{BufferDecoder}.

(** The bytes stored for an attachment: the decoded payload of its data
    URL, or [null] when there is no data or the pattern does not match. *)
Definition binaryData (attachment : FileBase64) : option (list byte) :=
  if truthy (fb_data attachment) then
    match DataUrl.payload (fb_data attachment) with
    | Some p => Some (Buffer_from_base64 p)
    | None => None
    end
  else None.

(** [INSERT INTO attachments (message_id, name, type, size, data)]: the
    store after the statement and whether it was accepted.  A size outside
    [INTEGER] is rejected when the statement is bound; a message id that no
    message has is rejected by the foreign key, after the sequence has
    given the row its id. *)
Definition insert_attachment (mid : string) (attachment : FileBase64)
    (db : DB) : DB * bool :=
  if negb (bool_decide (int4 (fb_size attachment))) then (db, false)
  else
    let aid := attachments_seq db + 1 in
    if bool_decide (mid ∈ (m_id <$> messages db))
    then
      (mkDB (rooms db) (rooms_seq db) (messages db)
         (attachments db ++
            [mkAttachmentRow aid mid (fb_name attachment) (fb_type attachment)
               (fb_size attachment) (binaryData attachment)])
         aid (blocked_keys db),
       true)
    else
      (mkDB (rooms db) (rooms_seq db) (messages db) (attachments db) aid
         (blocked_keys db),
       false).

(** The loop over the attachments of [persistMessageToRoomId]: one insert
    after the other, up to the first one the store rejects.  The result is
    the store after the inserts that ran and whether the loop came to its
    end. *)
Fixpoint insert_attachments (mid : string) (atts : list FileBase64)
    (db : DB) : DB * bool :=
  match atts with
  | [] => (db, true)
  | attachment :: rest =>
      let '(db1, accepted) := insert_attachment mid attachment db in
      if accepted then insert_attachments mid rest db1 else (db1, false)
  end.

(** The message is mutated to state [SAVED] before the insert, so the
    caller sees the updated message whatever the insert does.  The result
    is the store after the statements that ran, the message, and what the
    call returns, or that it threw on a statement the store rejected. *)
Definition persistMessageToRoomId (roomId : Z) (message : ChatMessage)
    (db : DB) : DB * ChatMessage * Try bool :=
  let message := set_state SAVED message in
  match insert_message (row_of_message roomId message) db with
  | Throws => (db, message, Throws)
  | Returns (db1, rowCount) =>
      if bool_decide (rowCount = 0) then (db1, message, Returns true)
      else
        let '(db2, stored) :=
          insert_attachments (msg_id message) (msg_attachments message) db1 in
        (db2, message, if stored then Returns true else Throws)
  end.

(** What a call that was not awaited has still to do when its caller
    returns: the attachment inserts of [persistMessageToRoomId] for the
    message with id [detached_id]. *)
Record Detached := mkDetached {
  detached_id : string;
  detached_attachments : list FileBase64
}.

(** What [persistMessageToRoomName] leaves when its promise resolves: the
    store, the message as the call mutated it, the value returned, and
    the rest of the call it did not await. *)
Record Persisted := mkPersisted {
  persisted_store : DB;
  persisted_message : ChatMessage;
  persisted_result : bool;
  persisted_detached : option Detached
}.

(** [persistMessageToRoomName] calls [persistMessageToRoomId] and does not
    await it.  The callee runs up to its first [await] at once: it sets the
    state and issues the insert of the message row on the client of the
    transaction, before the callback of the transaction returns, so that
    statement belongs to the transaction; when the store rejects it the
    transaction does not commit (nothing handles the rejection, and [true]
    is returned all the same).  The attachment inserts are issued only
    when that statement has been answered, after the callback has
    returned: they are the [Detached] rest. *)
Definition persistMessageToRoomName (roomName : string)
    (message : ChatMessage) (db : DB) : Persisted :=
  match select_messages_by_id (msg_id message) db with
  | _ :: _ => mkPersisted db message true None
  | [] =>
      let '(db1, roomId) := DBRoom.getOrCreateRoom roomName db in
      let message := set_state SAVED message in
      match insert_message (row_of_message roomId message) db1 with
      | Throws => mkPersisted (rolled_back db db1) message true None
      | Returns (db2, rowCount) =>
          mkPersisted db2 message true
            (if bool_decide (rowCount = 0) then None
             else Some (mkDetached (msg_id message) (msg_attachments message)))
      end
  end.

(** The rest of a call that was not awaited, run to its end: the store
    afterwards and whether every insert was accepted (a rejected one ends
    the rest, unhandled). *)
Definition settle (detached : option Detached) (db : DB) : DB * bool :=
  match detached with
  | Some d => insert_attachments (detached_id d) (detached_attachments d) db
  | None => (db, true)
  end.

(** One iteration of the loop of [saveMessages]; nothing runs after a
    throw. *)
Definition saveMessages_step (roomId : Z) (acc : DB * Try Z)
    (message : ChatMessage) : DB * Try Z :=
  match acc with
  | (db, Throws) => (db, Throws)
  | (db, Returns numSaved) =>
      let '(db', _, save) := persistMessageToRoomId roomId message db in
      match save with
      | Throws => (db', Throws)
      | Returns save =>
          if negb save then (db', Returns numSaved)
          else (db', Returns (numSaved + 1))
      end
  end.

(** The whole of [saveMessages] is one transaction: when a statement
    throws, the transaction is rolled back and [saveMessages] throws. *)
Definition saveMessages (roomName : string) (msgs : list ChatMessage)
    (db : DB) : DB * Try Z :=
  let '(db1, roomId) := DBRoom.getOrCreateRoom roomName db in
  let '(db2, numSaved) :=
    foldl (saveMessages_step roomId) (db1, Returns 0) msgs in
  match numSaved with
  | Returns _ => (db2, numSaved)
  | Throws => (rolled_back db db2, Throws)
  end.

End Persist.

(** [data:${type};base64,${Buffer.from(data).toString('base64')}], or the
    empty string when the column is [NULL]. *)
Definition dataUrl (type : string) (data : option (list byte)) : string :=
  match data with
  | Some bs => "data:" +:+ type +:+ ";base64," +:+ Base64.encode bs
  | None => ""
  end.

Definition attachment_of_row (att : AttachmentRow) : FileBase64 :=
  mkFileBase64 (a_name att) (a_type att) (a_size att)
    (dataUrl (a_type att) (a_data att)).

(** [SELECT name, type, size, data FROM attachments WHERE message_id = $1]. *)
Definition select_attachments_of (mid : string) (db : DB) : list AttachmentRow :=
  filter (λ a, a_message_id a = mid) (attachments db).

(** [ORDER BY m.timestamp DESC]: newest first, no further key. *)
Definition newer_first (a b : MessageRow) : bool :=
  m_timestamp b <=? m_timestamp a.

(** [... WHERE m.room_id = $1 ORDER BY m.timestamp DESC LIMIT $2 OFFSET $3];
    [None] is the error the database raises on a negative bound. *)
Definition select_room_page (rid limit offset : Z) (db : DB)
    : option (list MessageRow) :=
  if bool_decide (limit < 0) || bool_decide (offset < 0) then None
  else
    Some (take (Z.to_nat limit) (drop (Z.to_nat offset)
            (sort_by newer_first
               (filter (λ r, m_room_id r = rid) (messages db))))).

Definition hydrate (db : DB) (r : MessageRow) : ChatMessage :=
  mkChatMessage (m_id r) (m_timestamp r) (m_sender r) (m_content r)
    (m_public_key r) (m_signature r) (Some SAVED)
    (attachment_of_row <$> select_attachments_of (m_id r) db).

Definition getMessagesForRoom (roomName : string) (limit offset : Z)
    (db : DB) : list ChatMessage :=
  match DBRoom.select_room_by_name roomName db with
  | None => []
  | Some room =>
      match select_room_page (room_pk room) limit offset db with
      | None => []
      | Some rows => hydrate db <$> rows
      end
  end.

(** [/^\d+$/.test(roomId)]. *)
Definition is_digit (c : ascii) : bool :=
  ((48 <=? nat_of_ascii c) && (nat_of_ascii c <=? 57))%nat.

Definition isNumeric (roomId : string) : bool :=
  truthy roomId && DataUrl.all_chars is_digit roomId.

(** [parseInt(roomId, 10)] on a string of digits, exact: JS rounds above
    2^53, where the number is far outside [INTEGER] with or without the
    rounding. *)
Fixpoint parseInt_from (acc : Z) (s : string) : Z :=
  match s with
  | String c s' => parseInt_from (10 * acc + (Z.of_nat (nat_of_ascii c) - 48)) s'
  | EmptyString => acc
  end.

Definition parseInt (s : string) : Z := parseInt_from 0 s.

(** The room a key denotes: a key made of digits is a room id, any other
    key is a room name.  The id is compared with an [INTEGER] column: the
    query throws for a number outside that type. *)
Definition resolve_room (roomId : string) (db : DB)
    : Try (option RoomRow) :=
  if isNumeric roomId then
    if bool_decide (int4 (parseInt roomId))
    then Returns (DBRoom.select_room_by_id (parseInt roomId) db)
    else Throws
  else Returns (DBRoom.select_room_by_name roomId db).

(** A row of [messages m LEFT JOIN attachments a ON m.id = a.message_id]. *)
Definition JoinRow : Type := MessageRow * option AttachmentRow.

Definition left_join_attachments (db : DB) (m : MessageRow) : list JoinRow :=
  match select_attachments_of (m_id m) db with
  | [] => [(m, None)]
  | atts => (λ a, (m, Some a)) <$> atts
  end.

(** [ORDER BY m.timestamp, a.id], ascending, [NULL] attachment ids last. *)
Definition attachment_id_le (a b : option AttachmentRow) : bool :=
  match a, b with
  | Some x, Some y => a_id x <=? a_id y
  | Some _, None => true
  | None, Some _ => false
  | None, None => true
  end.

Definition join_row_le (x y : JoinRow) : bool :=
  (m_timestamp x.1 <? m_timestamp y.1)
  || ((m_timestamp x.1 =? m_timestamp y.1) && attachment_id_le x.2 y.2).

Definition select_by_ids_joined (rid : Z) (messageIds : list string) (db : DB)
    : list JoinRow :=
  sort_by join_row_le
    (mbind (left_join_attachments db)
       (filter (λ r, m_id r ∈ messageIds ∧ m_room_id r = rid) (messages db))).

(** [messageMap]: a JS [Map] keeps its keys in insertion order, so it is a
    list of messages with distinct ids. *)
Definition map_has (mid : string) (messageMap : list ChatMessage) : bool :=
  bool_decide (mid ∈ (msg_id <$> messageMap)).

Definition push_attachment (att : FileBase64) (m : ChatMessage) : ChatMessage :=
  mkChatMessage (msg_id m) (msg_timestamp m) (msg_sender m) (msg_content m)
    (msg_publicKey m) (msg_signature m) (msg_state m)
    (msg_attachments m ++ [att]).

(** [messageMap.get(row.id)!.attachments!.push(...)]. *)
Fixpoint map_push (mid : string) (att : FileBase64)
    (messageMap : list ChatMessage) : list ChatMessage :=
  match messageMap with
  | [] => []
  | m :: rest =>
      if bool_decide (msg_id m = mid) then push_attachment att m :: rest
      else m :: map_push mid att rest
  end.

Definition message_of_row (r : MessageRow) : ChatMessage :=
  mkChatMessage (m_id r) (m_timestamp r) (m_sender r) (m_content r)
    (or_null (m_public_key r)) (m_signature r) (Some SAVED) [].

(** One iteration of the loop over the joined rows. *)
Definition collect_row (messageMap : list ChatMessage) (row : JoinRow)
    : list ChatMessage :=
  let messageMap1 :=
    if map_has (m_id row.1) messageMap then messageMap
    else messageMap ++ [message_of_row row.1] in
  match row.2 with
  | Some a =>
      if bool_decide (a_id a ≠ 0)
      then map_push (m_id row.1) (attachment_of_row a) messageMap1
      else messageMap1
  | None => messageMap1
  end.

Definition getMessagesByIds (messageIds : list string) (roomId : string)
    (db : DB) : Try (list ChatMessage) :=
  match messageIds with
  | [] => Returns []
  | _ =>
      match resolve_room roomId db with
      | Throws => Throws
      | Returns None => Returns []
      | Returns (Some room) =>
          Returns (foldl collect_row []
                     (select_by_ids_joined (room_pk room) messageIds db))
      end
  end.

(** [results[0].public_key !== publicKey && publicKey !== adminPubKey]. *)
Definition unauthorized (stored : option string) (publicKey : string)
    (adminPubKey : option string) : bool :=
  bool_decide (stored ≠ Some publicKey)
  && bool_decide (Some publicKey ≠ adminPubKey).

Definition deleteMessage (messageId publicKey : string)
    (adminPubKey : option string) (db : DB) : DB * bool :=
  match select_messages_by_id messageId db with
  | [] => (db, false)
  | r :: _ =>
      if unauthorized (m_public_key r) publicKey adminPubKey then (db, false)
      else
        let '(db1, _) := delete_attachments_of messageId db in
        let '(db2, rowCount) := delete_messages_by_id messageId db1 in
        (db2, bool_decide (0 < rowCount))
  end.

(** [SELECT id FROM messages WHERE room_id = $1], for a room given by id
    or by name. *)
Definition getMessageIdsForRoom (roomId : string) (db : DB)
    : Try (list string) :=
  match resolve_room roomId db with
  | Throws => Throws
  | Returns None => Returns []
  | Returns (Some room) =>
      Returns (m_id <$> filter (λ r, m_room_id r = room_pk room) (messages db))
  end.

(** [... WHERE room_id = $1 AND timestamp >= $2], run when the room was
    found; the cutoff is compared with a [BIGINT] column, and the query
    throws for a number outside that type. *)
Definition getMessageIdsForRoomWithDateFilter (roomId : string)
    (cutoffTimestamp : Z) (db : DB) : Try (list string) :=
  match resolve_room roomId db with
  | Throws => Throws
  | Returns None => Returns []
  | Returns (Some room) =>
      if bool_decide (int8 cutoffTimestamp)
      then
        Returns
          (m_id <$> filter (λ r, m_room_id r = room_pk room
                                 ∧ cutoffTimestamp ≤ m_timestamp r)
                      (messages db))
      else Throws
  end.

End DBMessages.


(** ** server/db/DBAttachments.ts *)
Module DBAttachments.

Record FileBlob := mkFileBlob {
  blob_data : option (list byte);
  blob_type : string;
  blob_name : string;
  blob_size : Z
}.

Record AttachmentInfo := mkAttachmentInfo {
  ai_id : Z;
  ai_name : string;
  ai_type : string;
  ai_size : Z;
  ai_messageId : string;
  ai_sender : string;
  ai_publicKey : string;
  ai_timestamp : Z;
  ai_roomName : string
}.

(** [SELECT ... FROM attachments WHERE id = $1], first row. *)
Definition select_attachment_by_id (id : Z) (db : DB) : option AttachmentRow :=
  head (filter (λ a, a_id a = id) (attachments db)).

Definition getAttachmentById (id : Z) (db : DB) : option FileBlob :=
  match select_attachment_by_id id db with
  | None => None
  | Some attachment =>
      Some (mkFileBlob (a_data attachment) (a_type attachment)
              (a_name attachment) (a_size attachment))
  end.

(** [DELETE FROM attachments WHERE id = $1]. *)
Definition delete_attachment_row (id : Z) (db : DB) : DB * Z :=
  (mkDB (rooms db) (rooms_seq db) (messages db)
     (filter (λ a, a_id a ≠ id) (attachments db))
     (attachments_seq db) (blocked_keys db),
   Z.of_nat (length (filter (λ a, a_id a = id) (attachments db)))).

(** The id is a number that passed the caller's [isNaN] test. *)
Definition deleteAttachmentById (id : Z) (db : DB) : DB * bool :=
  if bool_decide (id ≤ 0) then (db, false)
  else
    match select_attachment_by_id id db with
    | None => (db, false)
    | Some _ =>
        let '(db', rowCount) := delete_attachment_row id db in
        (db', bool_decide (0 < rowCount))
    end.

(** A row of [attachments a JOIN messages m ON a.message_id = m.id JOIN
    rooms r ON m.room_id = r.id]. *)
Definition RecentRow : Type := AttachmentRow * MessageRow * RoomRow.

Definition join_attachment (db : DB) (a : AttachmentRow) : list RecentRow :=
  m ← filter (λ m, m_id m = a_message_id a) (messages db);
  r ← filter (λ r, room_pk r = m_room_id m) (rooms db);
  [(a, m, r)].

(** [ORDER BY m.timestamp DESC]. *)
Definition recent_first (x y : RecentRow) : bool :=
  m_timestamp y.1.2 <=? m_timestamp x.1.2.

(** The mapping of a row to [AttachmentInfo]; of its [||] defaults only
    the one on the nullable [public_key] can apply to a number or a text
    column here. *)
Definition info_of_row (row : RecentRow) : AttachmentInfo :=
  let '(a, m, r) := row in
  mkAttachmentInfo (a_id a) (a_name a) (a_type a) (a_size a) (a_message_id a)
    (m_sender m) (default "" (m_public_key m)) (m_timestamp m) (room_name r).

(** A negative limit is the database error the [catch] turns into the
    empty list. *)
Definition getRecentAttachments (limit : Z) (db : DB) : list AttachmentInfo :=
  if bool_decide (limit < 0) then []
  else
    info_of_row
      <$> take (Z.to_nat limit)
            (sort_by recent_first (attachments db ≫= join_attachment db)).

End DBAttachments.

(** ** server/WebRTCServer.ts *)
Module WebRTCServer.

Inductive ReadyState := CONNECTING | OPEN | CLOSING | CLOSED.

#[global] Instance ReadyState_eq_dec : EqDecision ReadyState.
Proof. solve_decision. Defined.

(** A connection: its identity (what [===] compares) and its state. *)
Record WebSocket := mkWebSocket {
  ws_id : nat;
  readyState : ReadyState
}.

Record ClientInfo := mkClientInfo {
  ci_room : string;
  ci_user : User
}.

(** The hub: [wss.clients] in insertion order, [clientsMap] keyed by the
    connection, and [roomsMap] with each room's participants in the order
    their keys were first set. *)
Record Hub := mkHub {
  wss_clients : list WebSocket;
  clientsMap : gmap nat ClientInfo;
  roomsMap : gmap string (list User)
}.

Definition emptyHub : Hub := mkHub [] ∅ ∅.

Inductive SignalType := offer | answer | ice_candidate.

(** [WebRTCSignal]: [sig_body] is the offer, answer or candidate. *)
Record WebRTCSignal := mkSignal {
  sig_type : SignalType;
  sig_id : string;
  sig_body : string;
  sig_target : option User;
  sig_room : string;
  sig_sender : option User;
  sig_publicKey : option string;
  sig_signature : option string
}.

Record WebRTCBroadcast := mkBroadcast {
  bc_room : string;
  bc_message : ChatMessage;
  bc_sender : option User
}.

Record WebRTCJoin := mkJoin {
  join_room : string;
  join_user : User;
  join_signature : option string
}.

(** What the hub writes to a connection. *)
Inductive Frame :=
| FSignal (msg : WebRTCSignal)
| FBroadcast (msg : WebRTCBroadcast)
| FAck (id : string)
| FRoomInfo (room : string) (participants : list User)
| FDeleteMsg (messageId room : string).

(** The [send] calls of one handler, in order: connection and frame. *)
Definition Sent : Type := list (nat * Frame).

(** [crypt.verifySignature(msg, canon.canonical_WebRTCJoin)]. *)
Class JoinCrypto := {
  verifyJoinSignature : WebRTCJoin → bool
}.

(** The [connection] event: the socket enters [wss.clients], open. *)
Definition connect (ws : nat) (hub : Hub) : Hub :=
  mkHub (wss_clients hub ++ [mkWebSocket ws OPEN]) (clientsMap hub)
    (roomsMap hub).

(** [participants.set(key, user)] on a JS [Map]: an existing key keeps its
    place. *)
Fixpoint participants_set (u : User) (ps : list User) : list User :=
  match ps with
  | [] => [u]
  | p :: rest =>
      if bool_decide (user_publicKey p = user_publicKey u) then u :: rest
      else p :: participants_set u rest
  end.

Definition getOrCreateRoom (name : string) (hub : Hub) : Hub * list User :=
  match roomsMap hub !! name with
  | Some room => (hub, room)
  | None =>
      (mkHub (wss_clients hub) (clientsMap hub) (<[name := []]> (roomsMap hub)),
       [])
  end.

Definition onJoin `{JoinCrypto} (ws : nat) (msg : WebRTCJoin) (hub : Hub)
    : Hub * Sent :=
  if negb (truthy (user_publicKey (join_user msg))) then (hub, [])
  else if negb (verifyJoinSignature msg) then (hub, [])
  else
    let hub1 :=
      mkHub (wss_clients hub)
        (<[ws := mkClientInfo (join_room msg) (join_user msg)]> (clientsMap hub))
        (roomsMap hub) in
    let '(hub2, roomInfo) := getOrCreateRoom (join_room msg) hub1 in
    let roomInfo' := participants_set (join_user msg) roomInfo in
    let hub3 :=
      mkHub (wss_clients hub2) (clientsMap hub2)
        (<[join_room msg := roomInfo']> (roomsMap hub2)) in
    let participants :=
      filter (λ p, user_publicKey p ≠ user_publicKey (join_user msg)) roomInfo' in
    (hub3, [(ws, FRoomInfo (join_room msg) participants)]).

(** The condition of the forwarding loop of [onSignaling], for a
    connection that has a [clientsMap] entry. *)
Definition signaling_match (clientInfo : ClientInfo) (target : User) : bool :=
  bool_decide (ci_room clientInfo = ci_room clientInfo)
  && bool_decide (user_publicKey (ci_user clientInfo) = user_publicKey target).

Definition is_open (cws : WebSocket) : bool :=
  bool_decide (readyState cws = OPEN).

Definition onSignaling (ws : nat) (msg : WebRTCSignal) (hub : Hub) : Sent :=
  match sig_target msg with
  | None => []
  | Some target =>
      match clientsMap hub !! ws with
      | Some fromClientInfo =>
          let payload :=
            FSignal (mkSignal (sig_type msg) (sig_id msg) (sig_body msg)
                       (sig_target msg) (ci_room fromClientInfo)
                       (Some (ci_user fromClientInfo))
                       (sig_publicKey msg) (sig_signature msg)) in
          omap (λ cws,
                  match clientsMap hub !! ws_id cws with
                  | Some clientInfo =>
                      if is_open cws && signaling_match clientInfo target
                      then Some (ws_id cws, payload) else None
                  | None => None
                  end)
            (wss_clients hub)
      | None => []
      end
  end.

(** The callback of the loop of [onBroadcast] over [wss.clients]: the
    originator gets the ack, the other members of the room the payload. *)
Definition onBroadcast_each (hub : Hub) (ws : nat) (room : string)
    (ack payload : Frame) (cws : WebSocket) : option (nat * Frame) :=
  match clientsMap hub !! ws_id cws with
  | Some clientInfo =>
      if is_open cws && bool_decide (ci_room clientInfo = room)
      then
        if bool_decide (ws_id cws = ws)
        then Some (ws_id cws, ack)
        else Some (ws_id cws, payload)
      else None
  | None => None
  end.

Section Broadcast.
Context `{Crypto} `{BufferDecoder} `{DBUsers}.

(** The result is the store, the message as the handler left it (its
    state is set to [SAVED] by the insert path only), and what
    [persistMessageToRoomName] left running. *)
Definition persist (data : WebRTCBroadcast) (db : DB)
    : DB * ChatMessage * option DBMessages.Detached :=
  if truthy (bc_room data) then
    if negb (verifySignature (bc_message data)) then (db, bc_message data, None)
    else if isUserBlocked (msg_publicKey (bc_message data)) db
    then (db, bc_message data, None)
    else
      let persisted :=
        DBMessages.persistMessageToRoomName (bc_room data) (bc_message data) db in
      (DBMessages.persisted_store persisted,
       DBMessages.persisted_message persisted,
       DBMessages.persisted_detached persisted)
  else (db, bc_message data, None).

(** The frames the handler sends, and the store once the attachment
    inserts that [persist] left running have come to their end; the
    frames are sent without waiting for them. *)
Definition onBroadcast (ws : nat) (msg : WebRTCBroadcast) (hub : Hub) (db : DB)
    : DB * Sent :=
  if negb (truthy (bc_room msg)) then (db, [])
  else
    let '(db1, message', detached) := persist msg db in
    let db' := (DBMessages.settle detached db1).1 in
    match clientsMap hub !! ws with
    | Some senderClientInfo =>
        let payload :=
          FBroadcast (mkBroadcast (bc_room msg) message'
                        (Some (ci_user senderClientInfo))) in
        (db',
         omap (onBroadcast_each hub ws (bc_room msg)
                 (FAck (msg_id message')) payload)
           (wss_clients hub))
    | None => (db', [])
    end.

End Broadcast.

Definition sendDeleteMessage (roomName messageId publicKey : string)
    (hub : Hub) : Sent :=
  let payload := FDeleteMsg messageId roomName in
  omap (λ cws,
          match clientsMap hub !! ws_id cws with
          | Some clientInfo =>
              if bool_decide (user_publicKey (ci_user clientInfo) ≠ publicKey)
                 && is_open cws
                 && bool_decide (ci_room clientInfo = roomName)
              then Some (ws_id cws, payload) else None
          | None => None
          end)
    (wss_clients hub).

(** The [user-left] frame. *)
Record WebRTCUserLeft := mkUserLeft {
  ul_user : User;
  ul_room : string
}.

(** [participants.delete(key)]. *)
Definition participants_delete (key : string) (ps : list User) : list User :=
  filter (λ p, user_publicKey p ≠ key) ps.

(** The callback of the notification loop of [onClose]. *)
Definition onClose_each (hub : Hub) (room : string) (payload : WebRTCUserLeft)
    (cws : WebSocket) : option (nat * WebRTCUserLeft) :=
  match clientsMap hub !! ws_id cws with
  | Some clientInfo =>
      if is_open cws && bool_decide (ci_room clientInfo = room)
      then Some (ws_id cws, payload) else None
  | None => None
  end.

(** The handler of the [close] event: the hub afterwards and the
    [user-left] frames it sent. *)
Definition onClose (ws : nat) (hub : Hub) : Hub * list (nat * WebRTCUserLeft) :=
  match clientsMap hub !! ws with
  | Some msgClientInfo =>
      let room := ci_room msgClientInfo in
      let user := ci_user msgClientInfo in
      let '(roomsMap', sent) :=
        match roomsMap hub !! room with
        | Some roomInfo =>
            match participants_delete (user_publicKey user) roomInfo with
            | [] => (delete room (roomsMap hub), [])
            | remaining =>
                (<[room := remaining]> (roomsMap hub),
                 omap (onClose_each hub room (mkUserLeft user room))
                   (wss_clients hub))
            end
        | None => (roomsMap hub, [])
        end in
      (mkHub (wss_clients hub) (delete ws (clientsMap hub)) roomsMap', sent)
  | None => (hub, [])
  end.

(** The socket's side of a close: its [readyState] is [CLOSED] by the time
    the handler runs. *)
Definition mark_closed (ws : nat) (hub : Hub) : Hub :=
  mkHub
    ((λ cws, if bool_decide (ws_id cws = ws) then mkWebSocket ws CLOSED else cws)
       <$> wss_clients hub)
    (clientsMap hub) (roomsMap hub).

(** What reaches the hub from one socket: the [connection] event, the
    frames that [onMessage] routes by their type, and the [close] event. *)
Inductive Event :=
| Connection (ws : nat)
| JoinFrame (ws : nat) (msg : WebRTCJoin)
| SignalingFrame (ws : nat) (msg : WebRTCSignal)
| BroadcastFrame (ws : nat) (msg : WebRTCBroadcast)
| CloseEvent (ws : nat).

(** The hub after an event.  Only [onJoin] and [onClose] write to the two
    maps; [onSignaling] and [onBroadcast] read them. *)
Definition hub_after `{JoinCrypto} (hub : Hub) (e : Event) : Hub :=
  match e with
  | Connection ws => connect ws hub
  | JoinFrame ws msg => (onJoin ws msg hub).1
  | SignalingFrame _ _ | BroadcastFrame _ _ => hub
  | CloseEvent ws => (onClose ws (mark_closed ws hub)).1
  end.

End WebRTCServer.

(** ** server/ChatService.ts *)
Module ChatService.

Inductive Response :=
| Json (message : string)
| Status (code : Z) (error : string).

(** [handleError] of the host platform: a 5xx response with a short
    message. *)
Definition handleError (error : string) (message : string) : Response :=
  Status 500 message.

(** [ADMIN_PUBLIC_KEY] is read from the configuration and may be unset.
    The response texts leave out the quotes the source puts around the
    message id. *)
Definition deleteMessage (ADMIN_PUBLIC_KEY : option string)
    (messageId roomName publicKey : string)
    (hub : WebRTCServer.Hub) (db : DB)
    : DB * WebRTCServer.Sent * Response :=
  if negb (truthy messageId) then
    (db, [], Status 400 "Message ID is required")
  else
    let '(db', success) :=
      DBMessages.deleteMessage messageId publicKey ADMIN_PUBLIC_KEY db in
    let sent := WebRTCServer.sendDeleteMessage roomName messageId publicKey hub in
    if success
    then (db', sent, Json ("Message " +:+ messageId +:+ " deleted successfully"))
    else (db', sent,
          Status 404 ("Message " +:+ messageId +:+ " not found or could not be deleted")).

(** [dbUsers.blockUser], as opposed to the handler of the same name. *)
Definition DBUsers_blockUser `{DBUsers} : string → DB → DB * option string :=
  blockUser.

Definition blockUser `{DBUsers} (publicKey : string) (db : DB)
    : DB * Response :=
  if negb (truthy publicKey) then (db, Status 400 "Missing pub_key parameter")
  else
    let '(db1, failure1) := deleteUserContent publicKey db in
    match failure1 with
    | Some error =>
        (db1, handleError error "Server error while attempting to block user")
    | None =>
        let '(db2, failure2) := DBUsers_blockUser publicKey db1 in
        match failure2 with
        | Some error =>
            (db2, handleError error "Server error while attempting to block user")
        | None => (db2, Json "User was blocked successfully.")
        end
    end.

(** The answer of a handler that returns data. *)
Inductive Reply (A : Type) :=
| Ok (body : A)
| Fail (code : Z) (error : string).

Arguments Ok {A} body.
Arguments Fail {A} code error.

Definition MAX_SAFE_INTEGER : Z := 9007199254740991.

(** [parseInt(daysOfHistory) || Number.MAX_SAFE_INTEGER], at least 2; the
    argument is the result of [parseInt], [None] for [NaN]. *)
Definition historyDays (parsed : option Z) : Z :=
  let days :=
    match parsed with
    | Some n => if bool_decide (n = 0) then MAX_SAFE_INTEGER else n
    | None => MAX_SAFE_INTEGER
    end in
  if bool_decide (days < 2) then 2 else days.

(** [currentTime] is [Date.now()].  The arithmetic is exact, as it is in
    JS as long as the products stay below 2^53.  A throw of the query (the
    default of [MAX_SAFE_INTEGER] days gives a cutoff the store rejects) is
    answered by [handleError] with status 500. *)
Definition getMessageIdsForRoom (currentTime : Z) (roomId : string)
    (daysOfHistory : option Z) (db : DB) : Reply (list string) :=
  if negb (truthy roomId) then Fail 400 "Room ID is required"
  else
    let millisecondsPerDay := 24 * 60 * 60 * 1000 in
    let cutoffTimestamp :=
      currentTime - historyDays daysOfHistory * millisecondsPerDay in
    match DBMessages.getMessageIdsForRoomWithDateFilter roomId cutoffTimestamp db
    with
    | Returns messageIds => Ok messageIds
    | Throws => Fail 500 "Failed to retrieve message IDs"
    end.

(** The body of the answer is [allOk]; a throw of [saveMessages] is
    answered by [handleError] with status 500. *)
Definition sendMessages `{BufferDecoder} (roomId : string)
    (msgs : list ChatMessage) (db : DB) : DB * Reply bool :=
  match msgs with
  | [] => (db, Fail 400 "Invalid or empty messages array")
  | _ =>
      match DBMessages.saveMessages roomId msgs db with
      | (db', Returns numSaved) =>
          (db', Ok (bool_decide (Z.of_nat (length msgs) = numSaved)))
      | (db', Throws) => (db', Fail 500 "Failed to save messages")
      end
  end.

End ChatService.

(** ** client/AppRooms.ts and client/AppMessages.ts *)

(** The part of the global state [gs()] that the sync pass reads;
    [chatDaysOfHistory] is [0] when unset. *)
Record ChatGlobalState := mkGlobalState {
  chatSaveToServer : bool;
  chatDaysOfHistory : Z
}.

Module AppRooms.

(** [gs().chatDaysOfHistory || 30], at least 2. *)
Definition retention_days (gs : ChatGlobalState) : Z :=
  let days := if bool_decide (chatDaysOfHistory gs = 0) then 30
              else chatDaysOfHistory gs in
  if bool_decide (days < 2) then 2 else days.

(** The cleaned message list and whether anything was removed. *)
Definition cleanRoomMessages (gs : ChatGlobalState) (now : Z)
    (roomMessages : list ChatMessage) : list ChatMessage * bool :=
  let daysInMs := retention_days gs * 24 * 60 * 60 * 1000 in
  let hadOldMessages :=
    bool_decide (Exists (λ msg, daysInMs ≤ now - msg_timestamp msg) roomMessages) in
  if hadOldMessages
  then (filter (λ msg, now - msg_timestamp msg < daysInMs) roomMessages, true)
  else (roomMessages, false).

(** [updateRoomHistory] on the stored list of visited room names. *)
Definition updateRoomHistory (roomName : string) (chatRoomHistory : list string)
    : list string :=
  if bool_decide (Exists (λ item, item = roomName) chatRoomHistory)
  then chatRoomHistory
  else chatRoomHistory ++ [roomName].

(** [findIndex] then [splice(index, 1)]: the first match goes. *)
Fixpoint splice_first {A} (test : A → bool) (l : list A) : list A :=
  match l with
  | [] => []
  | x :: rest => if test x then rest else x :: splice_first test rest
  end.

(** The part of [forgetRoom] after the confirmation, on the history list
    and on the stored rooms. *)
Definition forgetRoom (roomName : string) (chatRoomHistory : list string)
    (idb : gmap string (list ChatMessage))
    : list string * gmap string (list ChatMessage) :=
  (splice_first (λ item, bool_decide (item = roomName)) chatRoomHistory,
   delete roomName idb).

(** [runRoomCleanup]: every stored room is cleaned and written back. *)
Definition runRoomCleanup (gs : ChatGlobalState) (now : Z)
    (idb : gmap string (list ChatMessage)) : gmap string (list ChatMessage) :=
  (λ roomMessages, (cleanRoomMessages gs now roomMessages).1) <$> idb.

End AppRooms.

Module AppMessages.

(** What the server answers to the two requests of the sync pass; [None]
    is a request that threw.  A response without the list
    ([respIds.messageIds || []], [respMessages.messages] unset) is the
    empty list. *)
Record Http := mkHttp {
  get_message_ids : option (list string);
  get_messages_by_id : list string → option (list ChatMessage)
}.

(** The callback of [messages.filter] together with the mutation it
    performs: [None] drops the message, [Some] keeps it, promoted to
    [SAVED] when the server has its id. *)
Definition sync_one (serverMessageIds : list string) (msg : ChatMessage)
    : option ChatMessage :=
  if bool_decide (msg_id msg ∈ serverMessageIds) then
    if bool_decide (msg_state msg ≠ Some SAVED) then Some (set_state SAVED msg)
    else Some msg
  else
    if bool_decide (msg_state msg = Some SAVED) then None else Some msg.

(** Whether the callback sets [messagesDirty] for this message. *)
Definition sync_dirty (serverMessageIds : list string) (msg : ChatMessage)
    : bool :=
  if bool_decide (msg_id msg ∈ serverMessageIds)
  then bool_decide (msg_state msg ≠ Some SAVED)
  else bool_decide (msg_state msg = Some SAVED).

(** [(a, b) => a.timestamp - b.timestamp]. *)
Definition older_first (a b : ChatMessage) : bool :=
  msg_timestamp a <=? msg_timestamp b.

(** [saveMessages(roomName, messages)] writes the room's entry of the local
    store unless the room name is empty. *)
Definition saveMessages (roomName : string) (msgs : list ChatMessage)
    (stored : option (list ChatMessage)) : option (list ChatMessage) :=
  if truthy roomName then Some msgs else stored.

(** The server half of [loadRoomMessages], after the early return on an
    empty id list: [messages] is the cleaned local list, [stored] the
    room's entry in the local store. *)
Definition synchronize (http : Http) (roomId : string)
    (serverMessageIds : list string)
    (messages : list ChatMessage) (stored : option (list ChatMessage))
    : list ChatMessage * option (list ChatMessage) :=
  let messagesDirty := existsb (sync_dirty serverMessageIds) messages in
  let messages1 := omap (sync_one serverMessageIds) messages in
  let missingIds :=
    filter (λ id, id ∉ (msg_id <$> messages1)) serverMessageIds in
  match missingIds with
  | [] =>
      if messagesDirty then (messages1, saveMessages roomId messages1 stored)
      else (messages1, stored)
  | _ =>
      match get_messages_by_id http missingIds with
      | None => (messages1, stored)
      | Some [] =>
          if messagesDirty then (messages1, saveMessages roomId messages1 stored)
          else (messages1, stored)
      | Some fetched =>
          let messages2 := sort_by older_first (messages1 ++ fetched) in
          (messages2, saveMessages roomId messages2 stored)
      end
  end.

(** The returned list and the room's entry in the local store afterwards.
    [roomData] is the entry before ([None] when the room was never
    stored). *)
Definition loadRoomMessages (gs : ChatGlobalState) (now : Z) (http : Http)
    (roomId : string) (roomData : option (list ChatMessage))
    : list ChatMessage * option (list ChatMessage) :=
  let '(messages, stored) :=
    match roomData with
    | Some roomMessages =>
        let '(cleaned, _) := AppRooms.cleanRoomMessages gs now roomMessages in
        (cleaned, Some cleaned)
    | None => ([], None)
    end in
  if chatSaveToServer gs then
    match get_message_ids http with
    | None => (messages, stored)
    | Some [] => (messages, stored)
    | Some serverMessageIds =>
        synchronize http roomId serverMessageIds messages stored
    end
  else (messages, stored).

(** The current room and its messages in the global state; [chatMessages]
    may be unset. *)
Record ChatView := mkChatView {
  chatRoom : string;
  chatMessages : option (list ChatMessage)
}.

(** [saveMessages] on the local store, keyed by room name. *)
Definition saveMessages_idb (roomName : string) (msgs : list ChatMessage)
    (idb : gmap string (list ChatMessage)) : gmap string (list ChatMessage) :=
  partial_alter (saveMessages roomName msgs) roomName idb.

(** [find] the first message with the id and set its state to [SAVED];
    [None] when there is none. *)
Fixpoint mark_saved (id : string) (msgs : list ChatMessage)
    : option (list ChatMessage) :=
  match msgs with
  | [] => None
  | m :: rest =>
      if bool_decide (msg_id m = id) then Some (set_state SAVED m :: rest)
      else (m ::.) <$> mark_saved id rest
  end.

Definition acknowledgeMessage (id : string) (view : ChatView)
    (idb : gmap string (list ChatMessage))
    : ChatView * gmap string (list ChatMessage) :=
  match chatMessages view with
  | None => (view, idb)
  | Some msgs =>
      match mark_saved id msgs with
      | Some msgs' =>
          (mkChatView (chatRoom view) (Some msgs'),
           saveMessages_idb (chatRoom view) msgs' idb)
      | None => (view, idb)
      end
  end.

(** [findIndex] the first message with the id and [splice] it out;
    [None] when the index is [-1]. *)
Fixpoint remove_message (id : string) (msgs : list ChatMessage)
    : option (list ChatMessage) :=
  match msgs with
  | [] => None
  | m :: rest =>
      if bool_decide (msg_id m = id) then Some rest
      else (m ::.) <$> remove_message id rest
  end.

Definition inboundDeleteMessage (roomName messageId : string) (view : ChatView)
    (idb : gmap string (list ChatMessage))
    : ChatView * gmap string (list ChatMessage) :=
  if bool_decide (roomName = chatRoom view) then
    match chatMessages view with
    | None => (view, idb)
    | Some msgs =>
        match remove_message messageId msgs with
        | Some msgs' =>
            (mkChatView (chatRoom view) (Some msgs'),
             saveMessages_idb roomName msgs' idb)
        | None => (view, idb)
        end
    end
  else
    match idb !! roomName with
    | None => (view, idb)
    | Some msgs =>
        match remove_message messageId msgs with
        | Some msgs' => (view, saveMessages_idb roomName msgs' idb)
        | None => (view, idb)
        end
    end.

(** The messages [resendFailedMessages] picks: the user's own that are not
    [SAVED]; [myKey] is [gs().keyPair?.publicKey]. *)
Definition messagesToSend (myKey : option string) (msgs : list ChatMessage)
    : list ChatMessage :=
  filter (λ message, msg_publicKey message = myKey
                     ∧ msg_state message ≠ Some SAVED) msgs.

(** The loop after a good answer: for each message sent, the first message
    with its id is marked [SAVED]. *)
Definition mark_all_saved (sent : list ChatMessage) (msgs : list ChatMessage)
    : list ChatMessage :=
  foldl (λ acc m, default acc (mark_saved (msg_id m) acc)) msgs sent.

(** [post] is the send-messages request: [None] when it threw or gave no
    answer, otherwise the [allOk] of the answer.  The result is the
    returned list and the local store. *)
Definition resendFailedMessages (gs : ChatGlobalState) (myKey : option string)
    (post : list ChatMessage → option bool) (roomName : string)
    (msgs : list ChatMessage) (idb : gmap string (list ChatMessage))
    : list ChatMessage * gmap string (list ChatMessage) :=
  if negb (chatSaveToServer gs) then (msgs, idb)
  else if negb (truthy roomName) then (msgs, idb)
  else
    match messagesToSend myKey msgs with
    | [] => (msgs, idb)
    | toSend =>
        match post toSend with
        | Some true =>
            let msgs' := mark_all_saved toSend msgs in
            (msgs', saveMessages_idb roomName msgs' idb)
        | _ => (msgs, idb)
        end
    end.

End AppMessages.

(** ** Vocabulary of the properties *)

(** The connection is registered (has joined) in [room]. *)
Definition registered_in (hub : WebRTCServer.Hub) (room : string)
    (cws : WebRTCServer.WebSocket) : bool :=
  match WebRTCServer.clientsMap hub !! WebRTCServer.ws_id cws with
  | Some clientInfo => bool_decide (WebRTCServer.ci_room clientInfo = room)
  | None => false
  end.

(** A live member of [room]: an open connection registered in it. *)
Definition live_member (hub : WebRTCServer.Hub) (room : string)
    (cws : WebRTCServer.WebSocket) : bool :=
  WebRTCServer.is_open cws && registered_in hub room cws.

(** The public key a connection joined with. *)
Definition key_of (hub : WebRTCServer.Hub) (cws : WebRTCServer.WebSocket)
    : option string :=
  (λ clientInfo, user_publicKey (WebRTCServer.ci_user clientInfo))
    <$> WebRTCServer.clientsMap hub !! WebRTCServer.ws_id cws.

(** The participants the hub lists for a room; none for a room it does
    not have. *)
Definition participants_of (hub : WebRTCServer.Hub) (room : string)
    : list User :=
  default [] (WebRTCServer.roomsMap hub !! room).

(** The room registry is well formed: no room is kept without
    participants, no room lists a key twice, and no listed or registered
    key is empty. *)
Definition registry_well_formed (hub : WebRTCServer.Hub) : Prop :=
  (∀ room ps, WebRTCServer.roomsMap hub !! room = Some ps →
     ps ≠ [] ∧ NoDup (user_publicKey <$> ps)
     ∧ ∀ p, p ∈ ps → user_publicKey p ≠ "")
  ∧ (∀ ws clientInfo, WebRTCServer.clientsMap hub !! ws = Some clientInfo →
       user_publicKey (WebRTCServer.ci_user clientInfo) ≠ "").


(** The connections a handler wrote to. *)
Definition recipients (sent : WebRTCServer.Sent) : list nat := fst <$> sent.

(** Newest first, and oldest first, by timestamp alone. *)
Definition newest_first (rows : list MessageRow) : Prop :=
  StronglySorted (λ a b, m_timestamp b ≤ m_timestamp a) rows.

Definition oldest_first (msgs : list ChatMessage) : Prop :=
  StronglySorted (λ a b, msg_timestamp a ≤ msg_timestamp b) msgs.

(** The attachments of a returned message against the rows they are read
    from: same name, type and size, and the bytes as a data URL. *)
Definition hydrated_from (fb : FileBase64) (att : AttachmentRow) : Prop :=
  fb_name fb = a_name att ∧ fb_type fb = a_type att ∧ fb_size fb = a_size att
  ∧ fb_data fb
    = match a_data att with
      | Some bytes => "data:" +:+ a_type att +:+ ";base64," +:+ Base64.encode bytes
      | None => ""
      end.

(** The locally cached messages of a room once the retention window has
    been enforced: what the sync pass starts from. *)
Definition retained (gs : ChatGlobalState) (now : Z)
    (roomData : option (list ChatMessage)) : list ChatMessage :=
  match roomData with
  | Some roomMessages => (AppRooms.cleanRoomMessages gs now roomMessages).1
  | None => []
  end.

(** The constraints the schema declares on the four tables: the primary
    keys, the unique room name, the two foreign keys, and ids handed out
    by the sequences (which start at 1). *)
Record store_consistent (db : DB) : Prop := mk_store_consistent {
  messages_pk : NoDup (m_id <$> messages db);
  rooms_pk : NoDup (room_pk <$> rooms db);
  rooms_unique_name : NoDup (room_name <$> rooms db);
  attachments_pk : NoDup (a_id <$> attachments db);
  messages_fk : ∀ r, r ∈ messages db → m_room_id r ∈ (room_pk <$> rooms db);
  attachments_fk :
    ∀ a, a ∈ attachments db → a_message_id a ∈ (m_id <$> messages db);
  rooms_serial : ∀ room, room ∈ rooms db → room_pk room ≤ rooms_seq db;
  attachments_serial :
    ∀ a, a ∈ attachments db → 0 < a_id a ∧ a_id a ≤ attachments_seq db;
  sequences_started : 0 ≤ rooms_seq db ∧ 0 ≤ attachments_seq db
}.

(** An attachment as it comes back from the store: its data URL is built
    again from the bytes that were stored for it. *)
Definition as_stored `{BufferDecoder} (att : FileBase64) : FileBase64 :=
  mkFileBase64 (fb_name att) (fb_type att) (fb_size att)
    (DBMessages.dataUrl (fb_type att) (DBMessages.binaryData att)).









(** [t] occurs in [s]. *)
Definition occurs_in (t s : string) : Prop :=
  ∃ before after, s = before +:+ t +:+ after.

(** ** Fixtures: a concrete runtime and concrete scenarios *)
Module Fixtures.

(** A decoder for payloads in the standard alphabet: characters outside
    it are skipped and decoding stops at the padding. *)
Fixpoint index_of (c : ascii) (s : string) (i : N) : option N :=
  match s with
  | String d s' => if bool_decide (c = d) then Some i else index_of c s' (i + 1)%N
  | EmptyString => None
  end.

Fixpoint sextets (s : string) : list N :=
  match s with
  | String c s' =>
      if bool_decide (c = "="%char) then []
      else
        match index_of c Base64.alphabet 0 with
        | Some n => n :: sextets s'
        | None => sextets s'
        end
  | EmptyString => []
  end.

Definition byte_of (n : N) : byte :=
  match Byte.of_N (N.land n 255) with
  | Some b => b
  | None => x00
  end.

Fixpoint bytes_of_sextets (l : list N) : list byte :=
  match l with
  | a :: b :: c :: d :: rest =>
      byte_of (N.lor (N.shiftl a 2) (N.shiftr b 4))
      :: byte_of (N.lor (N.shiftl b 4) (N.shiftr c 2))
      :: byte_of (N.lor (N.shiftl c 6) d)
      :: bytes_of_sextets rest
  | [a; b; c] =>
      [byte_of (N.lor (N.shiftl a 2) (N.shiftr b 4));
       byte_of (N.lor (N.shiftl b 4) (N.shiftr c 2))]
  | [a; b] => [byte_of (N.lor (N.shiftl a 2) (N.shiftr b 4))]
  | _ => []
  end.

Definition decoder : BufferDecoder :=
  {| Buffer_from_base64 := λ s, bytes_of_sextets (sextets s) |}.

(** A signature oracle for the scenarios: the signature [sig:<id>] is the
    valid one for the message with that id. *)
Definition crypto : Crypto :=
  {| verifySignature := λ m, bool_decide (msg_signature m = Some ("sig:" +:+ msg_id m)) |}.

Definition joinCrypto : WebRTCServer.JoinCrypto :=
  {| WebRTCServer.verifyJoinSignature :=
       λ j, bool_decide (WebRTCServer.join_signature j = Some "sig:join") |}.

(** Modelled from the spec: [isUserBlocked] of the host platform's
    [DBUsers], membership of the key in the [blocked_keys] table. *)
Definition store_isUserBlocked (key : option string) (db : DB) : bool :=
  match key with
  | Some k => bool_decide (k ∈ blocked_keys db)
  | None => false
  end.

(** Modelled from the spec: [blockUser] of the host platform's [DBUsers],
    an idempotent insert into [blocked_keys]. *)
Definition store_blockUser (key : string) (db : DB) : DB * option string :=
  if bool_decide (key ∈ blocked_keys db) then (db, None)
  else (mkDB (rooms db) (rooms_seq db) (messages db) (attachments db)
          (attachments_seq db) (blocked_keys db ++ [key]), None).

(** Modelled from the spec: [deleteUserContent] of the host platform's
    [DBUsers], which removes all of the key's messages and their
    attachments across all rooms. *)
Definition store_deleteUserContent (key : string) (db : DB)
    : DB * option string :=
  let owned := m_id <$> filter (λ r, m_public_key r = Some key) (messages db) in
  (mkDB (rooms db) (rooms_seq db)
     (filter (λ r, m_public_key r ≠ Some key) (messages db))
     (filter (λ a, a_message_id a ∉ owned) (attachments db))
     (attachments_seq db) (blocked_keys db), None).

Definition users : DBUsers :=
  {| isUserBlocked := store_isUserBlocked;
     deleteUserContent := store_deleteUserContent;
     blockUser := store_blockUser |}.

(** The same store on a day the content deletion throws. *)
Definition users_deletion_fails : DBUsers :=
  {| isUserBlocked := store_isUserBlocked;
     deleteUserContent := λ _ db, (db, Some "connection terminated");
     blockUser := store_blockUser |}.

Definition alice : User := mkUser "alice" "keyA".
Definition bob : User := mkUser "bob" "keyB".
Definition carol : User := mkUser "carol" "keyC".

Definition join (ws : nat) (room : string) (u : User)
    (hub : WebRTCServer.Hub) : WebRTCServer.Hub :=
  (@WebRTCServer.onJoin joinCrypto ws
     (WebRTCServer.mkJoin room u (Some "sig:join"))
     (WebRTCServer.connect ws hub)).1.

(** Alice (connection 1) and Bob (connection 2) in room r1. *)
Definition hub_r1 : WebRTCServer.Hub :=
  join 2 "r1" bob (join 1 "r1" alice WebRTCServer.emptyHub).

(** Alice and Carol in r1; a connection with Bob's key in r2. *)
Definition hub_two_rooms : WebRTCServer.Hub :=
  join 3 "r1" carol (join 2 "r2" bob (join 1 "r1" alice WebRTCServer.emptyHub)).

Definition message (id : string) (ts : Z) (u : User) (text : string)
    : ChatMessage :=
  mkChatMessage id ts (user_name u) text (Some (user_publicKey u))
    (Some ("sig:" +:+ id)) None [].

Definition forged (id : string) (ts : Z) (u : User) (text : string)
    : ChatMessage :=
  mkChatMessage id ts (user_name u) text (Some (user_publicKey u))
    (Some "sig:forged") None [].

Definition picture : FileBase64 :=
  mkFileBase64 "hi.txt" "text/plain" 2 "data:text/plain;base64,aGk=".

Definition with_attachments (atts : list FileBase64) (m : ChatMessage)
    : ChatMessage :=
  mkChatMessage (msg_id m) (msg_timestamp m) (msg_sender m) (msg_content m)
    (msg_publicKey m) (msg_signature m) (msg_state m) atts.

Definition saved (m : ChatMessage) : ChatMessage := set_state SAVED m.

(** A store holding Alice's message m3, with one attachment, in r1. *)
Definition db_m3 : DB :=
  (@DBMessages.saveMessages decoder "r1"
     [with_attachments [picture] (message "m3" 1000 alice "mine")] emptyDB).1.

(** Two rooms: Alice's m1 in r1 (room id 1), Bob's m2 in r2 (room id 2). *)
Definition db_two_rooms : DB :=
  (@DBMessages.saveMessages decoder "r2" [message "m2" 2000 bob "in r2"]
     (@DBMessages.saveMessages decoder "r1"
        [with_attachments [picture] (message "m1" 1000 alice "in r1")]
        emptyDB).1).1.

(** Three messages of r1 with the same timestamp, stored in the order
    b, a, c; b carries an attachment. *)
Definition db_ties : DB :=
  (@DBMessages.saveMessages decoder "r1"
     [with_attachments [picture] (message "b" 5000 alice "one");
      message "a" 5000 bob "two";
      message "c" 5000 alice "three"] emptyDB).1.

(** The store after the admin blocked Alice's key. *)
Definition db_alice_blocked : DB :=
  (@ChatService.blockUser users "keyA" emptyDB).1.

Definition offer_to_bob : WebRTCServer.WebRTCSignal :=
  WebRTCServer.mkSignal WebRTCServer.offer "o1" "sdp" (Some bob) "r1" None
    (Some "keyA") (Some "sig:o1").

(** The client of scenario 5: server mode on, default retention. *)
Definition gs_server_mode : ChatGlobalState := mkGlobalState true 0.

Definition m10 : ChatMessage := saved (message "m10" 1000 bob "ten").
Definition m11 : ChatMessage := saved (message "m11" 2000 bob "eleven").
Definition m12 : ChatMessage := set_state SENT (message "m12" 4000 alice "twelve").
Definition m13 : ChatMessage := saved (message "m13" 3000 bob "thirteen").

(** A server that knows m10 and m13. *)
Definition http_m10_m13 : AppMessages.Http :=
  AppMessages.mkHttp (Some ["m10"; "m13"])
    (λ ids, Some (filter (λ m, msg_id m ∈ ids) [m10; m13])).

(** A server whose id list for the room is empty. *)
Definition http_empty : AppMessages.Http :=
  AppMessages.mkHttp (Some []) (λ _, Some []).

(** A server that knows m10 and m11. *)
Definition http_m10_m11 : AppMessages.Http :=
  AppMessages.mkHttp (Some ["m10"; "m11"])
    (λ ids, Some (filter (λ m, msg_id m ∈ ids) [m10; m11])).

End Fixtures.


(** * Properties *)

(** Settles the [bool_decide] guards of a loop body once the facts they
    test have been case-split. *)
Ltac settle_guards :=
  repeat first
    [ rewrite bool_decide_eq_true_2 by (cbn; intuition congruence)
    | rewrite bool_decide_eq_false_2 by (cbn; intuition congruence) ];
  cbn; try done.

(** ** The stable sort *)
Section StableSortFacts.
Context {A : Type} (le : A → A → bool) (R : relation A).
Hypothesis le_sound : ∀ a b, le a b = true → R a b.
Hypothesis le_total : ∀ a b, le a b = false → R b a.
Hypothesis R_trans : Transitive R.

Lemma insert_by_Permutation (x : A) (l : list A) : insert_by le x l ≡ₚ x :: l.
Proof.
  induction l as [|y l IH]; simpl; [done|].
  destruct (le x y); [done|].
  rewrite IH. apply Permutation_swap.
Qed.

Lemma sort_by_Permutation (l : list A) : sort_by le l ≡ₚ l.
Proof.
  induction l as [|x l IH]; simpl; [done|].
  rewrite insert_by_Permutation. by f_equiv.
Qed.

Lemma insert_by_sorted (x : A) (l : list A) :
  StronglySorted R l → StronglySorted R (insert_by le x l).
Proof.
  induction 1 as [|y l Hl IH Hy]; simpl.
  - repeat constructor.
  - destruct (le x y) eqn:Hxy.
    + constructor; [by constructor|].
      constructor; [by apply le_sound|].
      eapply Forall_impl; [exact Hy|]. intros z Hz.
      by transitivity y; [apply le_sound|].
    + constructor; [done|].
      rewrite insert_by_Permutation. constructor; [by apply le_total|done].
Qed.

Lemma sort_by_sorted (l : list A) : StronglySorted R (sort_by le l).
Proof.
  induction l as [|x l IH]; simpl; [constructor|].
  by apply insert_by_sorted.
Qed.

End StableSortFacts.

Lemma sort_by_elem_of {A} (le : A → A → bool) (l : list A) (x : A) :
  x ∈ sort_by le l ↔ x ∈ l.
Proof. by rewrite sort_by_Permutation. Qed.

(** ** The store operations *)
Section PersistFacts.
Context `{BufferDecoder}.

Lemma insert_attachment_frame (mid : string) (att : FileBase64) (db : DB) :
  rooms (DBMessages.insert_attachment mid att db).1 = rooms db
  ∧ rooms_seq (DBMessages.insert_attachment mid att db).1 = rooms_seq db
  ∧ messages (DBMessages.insert_attachment mid att db).1 = messages db
  ∧ blocked_keys (DBMessages.insert_attachment mid att db).1 = blocked_keys db
  ∧ attachments_seq db
    ≤ attachments_seq (DBMessages.insert_attachment mid att db).1.
Proof.
  unfold DBMessages.insert_attachment.
  destruct (negb _); [cbn; by repeat split; try lia|].
  cbn zeta. case_bool_decide; cbn; repeat split; try done; lia.
Qed.

Lemma insert_attachments_frame (mid : string) (atts : list FileBase64) (db : DB) :
  rooms (DBMessages.insert_attachments mid atts db).1 = rooms db
  ∧ rooms_seq (DBMessages.insert_attachments mid atts db).1 = rooms_seq db
  ∧ messages (DBMessages.insert_attachments mid atts db).1 = messages db
  ∧ blocked_keys (DBMessages.insert_attachments mid atts db).1 = blocked_keys db
  ∧ attachments_seq db
    ≤ attachments_seq (DBMessages.insert_attachments mid atts db).1.
Proof.
  revert db. induction atts as [|a atts IH]; intros db;
    [cbn; by repeat split; try lia|].
  cbn [DBMessages.insert_attachments].
  destruct (insert_attachment_frame mid a db) as (Hr & Hs & Hm & Hb & Hq).
  destruct (DBMessages.insert_attachment mid a db) as [db1 accepted].
  cbn [fst] in *. destruct accepted; [|cbn [fst]; by repeat split].
  destruct (IH db1) as (-> & -> & -> & -> & Hq'). repeat split; try done. lia.
Qed.





(** The message row insert: what it does when it returns. *)
Lemma insert_message_returns (row : MessageRow) (db db1 : DB) (rowCount : Z) :
  DBMessages.insert_message row db = Returns (db1, rowCount) →
  int4 (m_room_id row) ∧ int8 (m_timestamp row)
  ∧ ((rowCount = 0 ∧ db1 = db ∧ m_id row ∈ (m_id <$> messages db))
     ∨ (rowCount = 1 ∧ (m_id row ∉ (m_id <$> messages db))
        ∧ m_room_id row ∈ (room_pk <$> rooms db)
        ∧ db1 = mkDB (rooms db) (rooms_seq db) (messages db ++ [row])
                  (attachments db) (attachments_seq db) (blocked_keys db))).
Proof.
  unfold DBMessages.insert_message.
  destruct (bool_decide (int4 (m_room_id row))) eqn:Hroom; [|done].
  destruct (bool_decide (int8 (m_timestamp row))) eqn:Hts; [|done].
  apply bool_decide_eq_true in Hroom, Hts. cbn [andb negb].
  case_bool_decide as Hin.
  - intros [= <- <-]. split; [done|]. split; [done|]. by left.
  - case_bool_decide as Hfk; [|done]. intros [= <- <-].
    split; [done|]. split; [done|]. by right.
Qed.


(** What one [persistMessageToRoomId] leaves, whether it returned or
    threw: the message is SAVED, rooms and block list are as before, and
    the messages table has gained at most the row of the message. *)
Lemma persistMessageToRoomId_messages (roomId : Z) (m : ChatMessage)
    (db db' : DB) (m' : ChatMessage) (r : Try bool) :
  DBMessages.persistMessageToRoomId roomId m db = (db', m', r) →
  m' = set_state SAVED m
  ∧ (r = Returns true ∨ r = Throws)
  ∧ rooms db' = rooms db ∧ rooms_seq db' = rooms_seq db
  ∧ blocked_keys db' = blocked_keys db
  ∧ attachments_seq db ≤ attachments_seq db'
  ∧ (messages db' = messages db
     ∨ ((msg_id m ∉ (m_id <$> messages db))
        ∧ messages db'
          = messages db ++ [DBMessages.row_of_message roomId (set_state SAVED m)])).
Proof.
  unfold DBMessages.persistMessageToRoomId. cbn zeta.
  destruct (DBMessages.insert_message _ db) as [[db1 rowCount]|] eqn:Hins.
  2:{ intros [= <- <- <-].
      repeat split; first [done|lia|by left|by right]. }
  apply insert_message_returns in Hins
    as (_ & _ & [(-> & -> & Hin)|(-> & Hnew & _ & ->)]).
  - rewrite bool_decide_eq_true_2 by done. intros [= <- <- <-].
    repeat split; first [done|lia|by left|by right].
  - rewrite bool_decide_eq_false_2 by done.
    match goal with
    | |- context [DBMessages.insert_attachments ?i ?a ?d] =>
        destruct (insert_attachments_frame i a d) as (Hr & Hs & Hm & Hb & Hq);
        destruct (DBMessages.insert_attachments i a d) as [db2 stored]
    end.
    cbn [fst rooms rooms_seq messages blocked_keys attachments_seq] in *.
    intros [= <- <- <-]. split; [done|].
    split; [by destruct stored; [left|right]|].
    do 4 (split; [done|]). right. done.
Qed.



Lemma getOrCreateRoom_room (roomName : string) (db db' : DB) (rid : Z) :
  DBRoom.getOrCreateRoom roomName db = (db', rid) →
  (∃ room, room ∈ rooms db' ∧ room_name room = roomName ∧ room_pk room = rid)
  ∧ messages db' = messages db ∧ attachments db' = attachments db
  ∧ blocked_keys db' = blocked_keys db.
Proof.
  unfold DBRoom.getOrCreateRoom, DBRoom.select_room_by_name, DBRoom.insert_room.
  destruct (head _) as [room|] eqn:Hhd; intros [= <- <-]; cbn.
  - split; [|by repeat split]. exists room.
    apply head_Some_elem_of in Hhd as Hin.
    apply list_elem_of_filter in Hin as [? ?]. done.
  - split; [|by repeat split]. eexists. split.
    + apply elem_of_app. right. by apply list_elem_of_singleton.
    + by split.
Qed.

(** After a throw the loop of [saveMessages] does nothing more. *)
Lemma saveMessages_loop_thrown (roomId : Z) (msgs : list ChatMessage) (db : DB) :
  foldl (DBMessages.saveMessages_step roomId) (db, Throws) msgs = (db, Throws).
Proof. induction msgs as [|m msgs IH]; [done|]. cbn [foldl]. apply IH. Qed.

(** What the loop leaves in any case: rooms and block list as they were,
    the earlier message rows in place, sequences no lower. *)
Lemma saveMessages_loop_frame (roomId : Z) (msgs : list ChatMessage)
    (db : DB) (n : Try Z) (db' : DB) (k : Try Z) :
  foldl (DBMessages.saveMessages_step roomId) (db, n) msgs = (db', k) →
  rooms db' = rooms db ∧ rooms_seq db' = rooms_seq db
  ∧ blocked_keys db' = blocked_keys db
  ∧ attachments_seq db ≤ attachments_seq db'
  ∧ ∃ new, messages db' = messages db ++ new
       ∧ ∀ row, row ∈ new →
           ∃ m, m ∈ msgs
             ∧ row = DBMessages.row_of_message roomId (set_state SAVED m).
Proof.
  revert db n. induction msgs as [|m msgs IH]; intros db n Hfold.
  - cbn in Hfold. injection Hfold as <- <-.
    do 3 (split; [done|]). split; [lia|].
    exists []. rewrite app_nil_r. split; [done|].
    by intros row Hrow; apply elem_of_nil in Hrow.
  - cbn [foldl] in Hfold. destruct n as [n|].
    2:{ cbn in Hfold. rewrite saveMessages_loop_thrown in Hfold.
        injection Hfold as <- <-. do 3 (split; [done|]). split; [lia|].
        exists []. rewrite app_nil_r. split; [done|].
        by intros row Hrow; apply elem_of_nil in Hrow. }
    cbn [DBMessages.saveMessages_step] in Hfold.
    destruct (DBMessages.persistMessageToRoomId roomId m db)
      as [[db1 m1] r] eqn:Hp.
    apply persistMessageToRoomId_messages in Hp
      as (_ & _ & Hr & Hs & Hb & Hq & Hcase).
    assert (∃ n1, foldl (DBMessages.saveMessages_step roomId) (db1, n1) msgs
                  = (db', k)) as [n1 Hrest].
    { destruct r as [b|]; [destruct (negb b)|]; by eexists. }
    apply IH in Hrest as (Hr2 & Hs2 & Hb2 & Hq2 & new & Hnew & Hrows).
    split; [congruence|]. split; [congruence|]. split; [congruence|].
    split; [lia|].
    destruct Hcase as [Hsame|[_ Hadd]].
    + exists new. split; [by rewrite Hnew, Hsame|].
      intros row Hrow. destruct (Hrows row Hrow) as (m' & ? & ?).
      exists m'. split; [by apply elem_of_cons; right|done].
    + exists (DBMessages.row_of_message roomId (set_state SAVED m) :: new).
      split; [by rewrite Hnew, Hadd, <- app_assoc|].
      intros row [->|Hrow]%elem_of_cons.
      * exists m. split; [by apply elem_of_cons; left|done].
      * destruct (Hrows row Hrow) as (m' & ? & ?).
        exists m'. split; [by apply elem_of_cons; right|done].
Qed.




(** The messages table that [persistMessageToRoomName] leaves: as it was,
    or with the row of the message added when its id was new. *)
Lemma persistMessageToRoomName_messages (roomName : string) (m : ChatMessage)
    (db : DB) :
  messages (DBMessages.persisted_store
              (DBMessages.persistMessageToRoomName roomName m db))
  = messages db
  ∨ ((msg_id m ∉ (m_id <$> messages db))
     ∧ ∃ roomId,
         messages (DBMessages.persisted_store
                     (DBMessages.persistMessageToRoomName roomName m db))
         = messages db
           ++ [DBMessages.row_of_message roomId (set_state SAVED m)]).
Proof.
  unfold DBMessages.persistMessageToRoomName.
  destruct (DBMessages.select_messages_by_id _ db); [|by left].
  destruct (DBRoom.getOrCreateRoom roomName db) as [db1 roomId] eqn:Hroom.
  apply getOrCreateRoom_room in Hroom as (_ & Hmsgs & _).
  destruct (DBMessages.insert_message _ db1) as [[db2 rowCount]|] eqn:Hins;
    [|by left].
  apply insert_message_returns in Hins
    as (_ & _ & [(-> & -> & Hin)|(-> & Hnew & _ & ->)]); cbn.
  - by left.
  - right. rewrite Hmsgs in Hnew |- *. split; [done|]. by exists roomId.
Qed.

End PersistFacts.

(** ** saveMessages *)




(** ** deleteMessage *)

Lemma deleteMessage_missing (messageId publicKey : string)
    (adminPubKey : option string) (db : DB) :
  head (DBMessages.select_messages_by_id messageId db) = None →
  DBMessages.deleteMessage messageId publicKey adminPubKey db = (db, false).
Proof.
  intros Hnone%head_None. unfold DBMessages.deleteMessage. by rewrite Hnone.
Qed.

Lemma deleteMessage_refused (messageId publicKey : string)
    (adminPubKey : option string) (db : DB) (r : MessageRow) :
  head (DBMessages.select_messages_by_id messageId db) = Some r →
  m_public_key r ≠ Some publicKey → Some publicKey ≠ adminPubKey →
  DBMessages.deleteMessage messageId publicKey adminPubKey db = (db, false).
Proof.
  intros [rest Hsel]%head_Some Hkey Hadmin.
  unfold DBMessages.deleteMessage, DBMessages.unauthorized. rewrite Hsel.
  by rewrite !bool_decide_eq_true_2.
Qed.

Lemma deleteMessage_granted (messageId publicKey : string)
    (adminPubKey : option string) (db : DB) (r : MessageRow) :
  head (DBMessages.select_messages_by_id messageId db) = Some r →
  m_public_key r = Some publicKey ∨ Some publicKey = adminPubKey →
  DBMessages.deleteMessage messageId publicKey adminPubKey db
  = ((DBMessages.delete_messages_by_id messageId
        (DBMessages.delete_attachments_of messageId db).1).1, true).
Proof.
  intros Hhd Hauth. pose proof Hhd as [rest Hsel]%head_Some.
  unfold DBMessages.deleteMessage, DBMessages.unauthorized. rewrite Hsel.
  assert (bool_decide (m_public_key r ≠ Some publicKey)
          && bool_decide (Some publicKey ≠ adminPubKey) = false) as ->.
  { apply andb_false_iff. destruct Hauth as [Hk|Hk].
    - left. by apply bool_decide_eq_false_2; intros ?.
    - right. by apply bool_decide_eq_false_2; intros ?. }
  cbn. f_equal. apply bool_decide_eq_true_2.
  change (filter _ (messages db)) with (DBMessages.select_messages_by_id messageId db).
  rewrite Hsel. cbn [length]. lia.
Qed.

(** C5.  [deleteMessage] refuses, returning false and leaving the database
    as it is, unless the requester key is the stored public key of the
    message or is the admin key; when the message exists and the requester
    is authorized, the attachments of the message are deleted, then the
    message row, and nothing else changes; the result says whether a
    message row was removed. *)
Theorem deleteMessage_owner_or_admin (messageId publicKey : string)
    (adminPubKey : option string) (db : DB) :
  let db' := (DBMessages.deleteMessage messageId publicKey adminPubKey db).1 in
  let removed := (DBMessages.deleteMessage messageId publicKey adminPubKey db).2 in
  ((∀ r, head (DBMessages.select_messages_by_id messageId db) = Some r →
         m_public_key r ≠ Some publicKey) →
   Some publicKey ≠ adminPubKey →
   removed = false ∧ db' = db)
  ∧ (∀ r, head (DBMessages.select_messages_by_id messageId db) = Some r →
       m_public_key r = Some publicKey ∨ Some publicKey = adminPubKey →
       removed = true
       ∧ db' = (DBMessages.delete_messages_by_id messageId
                  (DBMessages.delete_attachments_of messageId db).1).1
       ∧ (∀ a, a ∈ attachments db' ↔ a ∈ attachments db ∧ a_message_id a ≠ messageId)
       ∧ (∀ row, row ∈ messages db' ↔ row ∈ messages db ∧ m_id row ≠ messageId)
       ∧ rooms db' = rooms db ∧ blocked_keys db' = blocked_keys db)
  ∧ (removed = true ↔ (length (messages db') < length (messages db))%nat)
  ∧ (removed = false → db' = db).
Proof.
  cbn zeta.
  destruct (head (DBMessages.select_messages_by_id messageId db)) as [r|] eqn:Hhd.
  - destruct (decide (m_public_key r = Some publicKey ∨ Some publicKey = adminPubKey))
      as [Hauth|Hno].
    + rewrite (deleteMessage_granted _ _ _ _ r Hhd Hauth). cbn [fst snd].
      split; [intros Hk Ha; exfalso; destruct Hauth; [by eapply Hk|done]|].
      split.
      { intros r' [= <-] _. split; [done|]. split; [done|]. cbn.
        split; [intros a; rewrite list_elem_of_filter; tauto|].
        split; [intros row; rewrite list_elem_of_filter; tauto|]. done. }
      split; [|done]. split; [|done]. intros _. cbn.
      apply head_Some_elem_of in Hhd as Hin.
      apply list_elem_of_filter in Hin as [Hid Hin].
      apply (length_filter_lt _ _ r); [done|]. by intros ?.
    + assert (m_public_key r ≠ Some publicKey ∧ Some publicKey ≠ adminPubKey)
        as [Hk Ha] by (split; intros ?; apply Hno; auto).
      rewrite (deleteMessage_refused _ _ _ _ r Hhd Hk Ha). cbn [fst snd].
      split; [done|]. split; [intros r' [= <-] ?; by exfalso; apply Hno|].
      split; [|done]. split; [done|lia].
  - rewrite (deleteMessage_missing _ _ _ _ Hhd). cbn [fst snd].
    split; [done|]. split; [done|]. split; [|done]. split; [done|lia].
Qed.

(** C5, witness: Bob (not the owner, not the admin) is refused; Alice, the
    owner, deletes her message and its attachment. *)
Lemma deleteMessage_owner_or_admin_witness :
  ((DBMessages.deleteMessage "m3" "keyB" (Some "keyAdmin") Fixtures.db_m3).2 = false
   ∧ (DBMessages.deleteMessage "m3" "keyB" (Some "keyAdmin") Fixtures.db_m3).1
     = Fixtures.db_m3)
  ∧ ((DBMessages.deleteMessage "m3" "keyA" (Some "keyAdmin") Fixtures.db_m3).2 = true
     ∧ attachments
         (DBMessages.deleteMessage "m3" "keyA" (Some "keyAdmin") Fixtures.db_m3).1
       = []).
Proof.
  split.
  - destruct (deleteMessage_owner_or_admin "m3" "keyB" (Some "keyAdmin")
                Fixtures.db_m3) as (Hrefused & _).
    apply Hrefused; [|done].
    intros r. vm_compute. by intros [= <-].
  - destruct (deleteMessage_owner_or_admin "m3" "keyA" (Some "keyAdmin")
                Fixtures.db_m3) as (_ & Hgranted & _).
    edestruct Hgranted as (Hremoved & Hdb & _).
    + vm_compute. reflexivity.
    + left. reflexivity.
    + split; [exact Hremoved|]. rewrite Hdb. reflexivity.
Defined.

(** ** getMessagesByIds *)









(** ** getMessagesForRoom *)

Lemma newest_first_window (n k : nat) (rows : list MessageRow) :
  newest_first rows → newest_first (take n (drop k rows)).
Proof.
  unfold newest_first. intros Hs.
  rewrite <- (take_drop k rows) in Hs. apply StronglySorted_app_1_r in Hs.
  rewrite <- (take_drop n (drop k rows)) in Hs.
  by apply StronglySorted_app_1_l in Hs.
Qed.

Lemma sort_newer_first_sorted (rows : list MessageRow) :
  newest_first (sort_by DBMessages.newer_first rows).
Proof.
  apply sort_by_sorted; unfold DBMessages.newer_first.
  - intros a b Hle. by apply Z.leb_le in Hle.
  - intros a b Hle. apply Z.leb_gt in Hle. lia.
  - intros a b c ? ?. lia.
Qed.

Lemma hydrate_attachments (db : DB) (r : MessageRow) :
  Forall2 hydrated_from (msg_attachments (DBMessages.hydrate db r))
    (filter (λ a, a_message_id a = m_id r) (attachments db)).
Proof.
  cbn. apply Forall2_fmap_l, Forall_Forall2_diag, Forall_forall.
  intros att _. unfold hydrated_from, DBMessages.attachment_of_row. cbn.
  by destruct (a_data att).
Qed.

(** C7, as amended.  [getMessagesForRoom] returns a window (offset, then
    limit) of the room's messages ordered newest first by timestamp; the
    query has no second sort key, so nothing is promised about the order
    of messages with equal timestamps.  Every returned message is in state
    SAVED and carries the attachments stored for it, the bytes of each
    re-encoded as an inline data URL (the empty string when no bytes are
    stored). *)
Theorem getMessagesForRoom_newest_first (roomName : string)
    (limit offset : Z) (db : DB) :
  let result := DBMessages.getMessagesForRoom roomName limit offset db in
  StronglySorted (λ a b, msg_timestamp b ≤ msg_timestamp a) result
  ∧ (∀ room, DBRoom.select_room_by_name roomName db = Some room →
       0 ≤ limit → 0 ≤ offset →
       ∃ ordered,
         ordered ≡ₚ filter (λ r, m_room_id r = room_pk room) (messages db)
         ∧ newest_first ordered
         ∧ result
           = DBMessages.hydrate db
               <$> take (Z.to_nat limit) (drop (Z.to_nat offset) ordered))
  ∧ (∀ m, m ∈ result →
       ∃ r, r ∈ messages db
         ∧ msg_id m = m_id r ∧ msg_timestamp m = m_timestamp r
         ∧ msg_sender m = m_sender r ∧ msg_content m = m_content r
         ∧ msg_state m = Some SAVED
         ∧ Forall2 hydrated_from (msg_attachments m)
             (filter (λ a, a_message_id a = msg_id m) (attachments db))).
Proof.
  cbn zeta. unfold DBMessages.getMessagesForRoom.
  destruct (DBRoom.select_room_by_name roomName db) as [room|].
  2:{ split; [constructor|]. split; [done|].
      by intros m Hm; apply elem_of_nil in Hm. }
  unfold DBMessages.select_room_page.
  destruct (bool_decide (limit < 0) || bool_decide (offset < 0)) eqn:Hneg.
  { split; [constructor|]. split.
    - intros room' _ Hl Ho. exfalso.
      apply orb_true_iff in Hneg as [Hn|Hn]; apply bool_decide_eq_true in Hn; lia.
    - by intros m Hm; apply elem_of_nil in Hm. }
  set (base := filter (λ r, m_room_id r = room_pk room) (messages db)).
  set (ordered := sort_by DBMessages.newer_first base).
  assert (Hsorted : newest_first ordered) by apply sort_newer_first_sorted.
  split.
  { apply (StronglySorted_fmap _ (λ a b, m_timestamp b ≤ m_timestamp a));
      [done|]. by apply newest_first_window. }
  split.
  { intros room' [= <-] _ _. exists ordered.
    split; [apply sort_by_Permutation|]. done. }
  intros m Hm. apply list_elem_of_fmap in Hm as (r & -> & Hr).
  exists r. split.
  { apply subseteq_take, subseteq_drop in Hr.
    apply sort_by_elem_of in Hr.
    by apply list_elem_of_filter in Hr as [_ ?]. }
  do 5 (split; [done|]). apply hydrate_attachments.
Qed.

(** C7, counterexample.  Three messages with the same timestamp, stored in
    the order b, a, c, come back in that order, which is neither ascending
    nor descending by id. *)
Lemma getMessagesForRoom_ties_not_by_id :
  let result := DBMessages.getMessagesForRoom "r1" 100 0 Fixtures.db_ties in
  msg_timestamp <$> result = [5000; 5000; 5000]
  ∧ msg_id <$> result = ["b"; "a"; "c"]
  ∧ String.ltb "a" "b" = true ∧ String.ltb "a" "c" = true.
Proof. vm_compute. done. Qed.

(** ** The fan-out loops of the hub *)
Section FanOut.
Import WebRTCServer.

(** A loop that sends one payload to the connections passing a test. *)
Lemma omap_guard {A B} (f : A → option B) (g : A → bool) (h : A → B)
    (l : list A) :
  (∀ x, f x = if g x then Some (h x) else None) →
  omap f l = h <$> filter (λ x, g x) l.
Proof.
  intros Hf. induction l as [|x l IH]; [done|].
  cbn [omap list_omap]. rewrite Hf, filter_cons.
  destruct (g x); cbn; by rewrite IH.
Qed.

Lemma sendDeleteMessage_targets (roomName messageId publicKey : string)
    (hub : Hub) :
  sendDeleteMessage roomName messageId publicKey hub
  = (λ cws, (ws_id cws, FDeleteMsg messageId roomName))
      <$> filter (λ cws, live_member hub roomName cws
                         ∧ key_of hub cws ≠ Some publicKey)
            (wss_clients hub).
Proof.
  unfold sendDeleteMessage.
  rewrite (omap_guard _
    (λ cws, bool_decide (live_member hub roomName cws
                         ∧ key_of hub cws ≠ Some publicKey))
    (λ cws, (ws_id cws, FDeleteMsg messageId roomName))).
  - f_equal. apply list_filter_iff. intros cws.
    by rewrite bool_decide_spec.
  - intros cws. unfold live_member, registered_in, key_of.
    destruct (clientsMap hub !! ws_id cws) as [clientInfo|]; cbn.
    + destruct (is_open cws),
        (decide (ci_room clientInfo = roomName)),
        (decide (user_publicKey (ci_user clientInfo) = publicKey));
        by settle_guards.
    + rewrite andb_false_r. by settle_guards.
Qed.

(** The forwarding loop of [onSignaling] never looks at the room: the
    frame goes to every open connection registered under the target's
    key. *)
Lemma onSignaling_targets (ws : nat) (msg : WebRTCSignal) (hub : Hub)
    (target : User) (fromClientInfo : ClientInfo) :
  sig_target msg = Some target →
  clientsMap hub !! ws = Some fromClientInfo →
  recipients (onSignaling ws msg hub)
  = ws_id <$> filter (λ cws, is_open cws
                             ∧ key_of hub cws = Some (user_publicKey target))
                (wss_clients hub).
Proof.
  intros Htarget Hfrom. unfold onSignaling, recipients.
  rewrite Htarget, Hfrom.
  rewrite (omap_guard _
    (λ cws, bool_decide (is_open cws
                         ∧ key_of hub cws = Some (user_publicKey target)))
    (λ cws, (ws_id cws,
             FSignal (mkSignal (sig_type msg) (sig_id msg) (sig_body msg)
                        (Some target) (ci_room fromClientInfo)
                        (Some (ci_user fromClientInfo))
                        (sig_publicKey msg) (sig_signature msg))))).
  - rewrite <- list_fmap_compose. f_equal. apply list_filter_iff.
    intros cws. by rewrite bool_decide_spec.
  - intros cws. unfold key_of, signaling_match.
    destruct (clientsMap hub !! ws_id cws) as [clientInfo|]; cbn.
    + destruct (is_open cws),
        (decide (user_publicKey (ci_user clientInfo) = user_publicKey target));
        by settle_guards.
    + by settle_guards.
Qed.

Lemma onBroadcast_each_live (hub : Hub) (ws : nat) (room : string)
    (ack payload : Frame) (cws : WebSocket) :
  onBroadcast_each hub ws room ack payload cws
  = if live_member hub room cws
    then Some (ws_id cws, if bool_decide (ws_id cws = ws) then ack else payload)
    else None.
Proof.
  unfold onBroadcast_each, live_member, registered_in.
  destruct (clientsMap hub !! ws_id cws) as [clientInfo|].
  - destruct (is_open cws && _); [|done]. by case_bool_decide.
  - by rewrite andb_false_r.
Qed.

(** The loop of [onBroadcast], seen from the connections other than the
    originator: each live member of the room gets the payload. *)
Lemma broadcast_loop_others (hub : Hub) (ws : nat) (room : string)
    (ack payload : Frame) (l : list WebSocket) :
  filter (λ p, p.1 ≠ ws) (omap (onBroadcast_each hub ws room ack payload) l)
  = (λ cws, (ws_id cws, payload))
      <$> filter (λ cws, live_member hub room cws ∧ ws_id cws ≠ ws) l.
Proof.
  induction l as [|cws l IH]; [done|].
  cbn [omap list_omap]. rewrite onBroadcast_each_live, (filter_cons _ cws).
  destruct (live_member hub room cws) eqn:Hlive.
  - case_bool_decide as Hself.
    + rewrite filter_cons_False by (cbn; tauto).
      rewrite decide_False by tauto. apply IH.
    + rewrite filter_cons_True by done.
      rewrite decide_True by done. cbn. by rewrite <- IH.
  - rewrite decide_False by (by intros [[] _]). apply IH.
Qed.


End FanOut.

(** ** Signaling *)

(** C3, the failing input.  Alice, in r1, sends an offer targeted at Bob's
    key; the only connection registered under that key is in r2, and it
    receives the frame: the loop compares the candidate's room with itself
    instead of with the sender's room. *)
Theorem onSignaling_reaches_other_room :
  registered_in Fixtures.hub_two_rooms "r2" (WebRTCServer.mkWebSocket 2 WebRTCServer.OPEN)
  = true
  ∧ registered_in Fixtures.hub_two_rooms "r1" (WebRTCServer.mkWebSocket 1 WebRTCServer.OPEN)
    = true
  ∧ WebRTCServer.onSignaling 1 Fixtures.offer_to_bob Fixtures.hub_two_rooms
    = [(2%nat,
        WebRTCServer.FSignal
          (WebRTCServer.mkSignal WebRTCServer.offer "o1" "sdp"
             (Some Fixtures.bob) "r1" (Some Fixtures.alice)
             (Some "keyA") (Some "sig:o1")))].
Proof. vm_compute. done. Qed.

(** ** The broadcast pipeline *)
Section BroadcastFacts.
Context `{Crypto} `{BufferDecoder} `{DBUsers}.
Import WebRTCServer.

Lemma persist_rejected (data : WebRTCBroadcast) (db : DB) :
  verifySignature (bc_message data) = false
  ∨ isUserBlocked (msg_publicKey (bc_message data)) db = true →
  persist data db = (db, bc_message data, None).
Proof.
  intros Hrej. unfold persist. destruct (truthy (bc_room data)); [|done].
  destruct (verifySignature (bc_message data)); cbn; [|done].
  destruct Hrej as [?| ->]; done.
Qed.

(** Whatever [persist] adds to the messages table is a row for the
    message of the frame, and that message passed both checks. *)
Lemma persist_inserts_checked (data : WebRTCBroadcast) (db : DB)
    (row : MessageRow) :
  row ∈ messages (persist data db).1.1 → row ∉ messages db →
  verifySignature (bc_message data) = true
  ∧ isUserBlocked (msg_publicKey (bc_message data)) db = false
  ∧ m_id row = msg_id (bc_message data).
Proof.
  unfold persist. destruct (truthy (bc_room data)); [|done].
  destruct (verifySignature (bc_message data)); cbn [negb]; [|done].
  destruct (isUserBlocked _ db); [done|]. cbn [fst].
  intros Hin Hnew. split; [done|]. split; [done|].
  destruct (persistMessageToRoomName_messages (bc_room data) (bc_message data) db)
    as [Hsame|(_ & roomId & Hadd)].
  - by rewrite Hsame in Hin.
  - rewrite Hadd in Hin. apply elem_of_app in Hin as [?|Hin]; [done|].
    by apply list_elem_of_singleton in Hin as ->.
Qed.

(** The store that [onBroadcast] leaves has the messages table that
    [persist] left. *)
Lemma onBroadcast_messages (ws : nat) (msg : WebRTCBroadcast) (hub : Hub)
    (db : DB) :
  messages (onBroadcast ws msg hub db).1 = messages (persist msg db).1.1
  ∨ (onBroadcast ws msg hub db).1 = db.
Proof.
  unfold onBroadcast.
  destruct (truthy (bc_room msg)); cbn [negb]; [|by right].
  destruct (persist msg db) as [[db1 m'] detached]. left.
  assert (messages (DBMessages.settle detached db1).1 = messages db1) as Hm.
  { destruct detached as [d|]; [|done]. cbn [DBMessages.settle].
    by destruct (insert_attachments_frame (DBMessages.detached_id d)
                   (DBMessages.detached_attachments d) db1) as (_ & _ & ? & _). }
  by destruct (clientsMap hub !! ws).
Qed.

(** A frame that [persist] turns away leaves the store as it was and is
    still relayed, annotated with the sender, to the other live members
    of its room. *)
Lemma onBroadcast_rejected (ws : nat) (msg : WebRTCBroadcast) (hub : Hub)
    (db : DB) :
  verifySignature (bc_message msg) = false
  ∨ isUserBlocked (msg_publicKey (bc_message msg)) db = true →
  (onBroadcast ws msg hub db).1 = db
  ∧ ∀ senderClientInfo,
      bc_room msg ≠ "" → clientsMap hub !! ws = Some senderClientInfo →
      filter (λ p, p.1 ≠ ws) (onBroadcast ws msg hub db).2
      = (λ cws, (ws_id cws,
                 FBroadcast (mkBroadcast (bc_room msg) (bc_message msg)
                               (Some (ci_user senderClientInfo)))))
          <$> filter (λ cws, live_member hub (bc_room msg) cws ∧ ws_id cws ≠ ws)
                (wss_clients hub).
Proof.
  intros Hrej. unfold onBroadcast. rewrite (persist_rejected _ _ Hrej).
  split.
  - destruct (truthy (bc_room msg)); [|done]. cbn [negb].
    by destruct (clientsMap hub !! ws).
  - intros senderClientInfo Hroom ->. unfold truthy.
    rewrite bool_decide_eq_false_2 by done. cbn [negb snd].
    apply broadcast_loop_others.
Qed.

End BroadcastFacts.

(** C1, as amended.  When the inner message of a broadcast frame carries a
    key that is blocked at persist time, the pipeline inserts no row (the
    store is left as it was); the frame, annotated with the sender, is
    still sent to every other live member of its room. *)
Theorem onBroadcast_blocked_key_not_persisted `{Crypto} `{BufferDecoder}
    `{DBUsers} (ws : nat) (msg : WebRTCServer.WebRTCBroadcast)
    (hub : WebRTCServer.Hub) (db : DB) :
  isUserBlocked (msg_publicKey (WebRTCServer.bc_message msg)) db = true →
  (WebRTCServer.onBroadcast ws msg hub db).1 = db
  ∧ ∀ senderClientInfo,
      WebRTCServer.bc_room msg ≠ "" →
      WebRTCServer.clientsMap hub !! ws = Some senderClientInfo →
      filter (λ p, p.1 ≠ ws) (WebRTCServer.onBroadcast ws msg hub db).2
      = (λ cws, (WebRTCServer.ws_id cws,
                 WebRTCServer.FBroadcast
                   (WebRTCServer.mkBroadcast (WebRTCServer.bc_room msg)
                      (WebRTCServer.bc_message msg)
                      (Some (WebRTCServer.ci_user senderClientInfo)))))
          <$> filter (λ cws, live_member hub (WebRTCServer.bc_room msg) cws
                             ∧ WebRTCServer.ws_id cws ≠ ws)
                (WebRTCServer.wss_clients hub).
Proof. intros Hblocked. apply onBroadcast_rejected. by right. Qed.

(** C1, witness: Alice's key is blocked and she broadcasts m2 in r1. *)
Lemma onBroadcast_blocked_key_not_persisted_witness :
  Fixtures.store_isUserBlocked (Some "keyA") Fixtures.db_alice_blocked = true
  ∧ (@WebRTCServer.onBroadcast Fixtures.crypto Fixtures.decoder Fixtures.users 1
       (WebRTCServer.mkBroadcast "r1"
          (Fixtures.message "m2" 2000 Fixtures.alice "again") None)
       Fixtures.hub_r1 Fixtures.db_alice_blocked).1
    = Fixtures.db_alice_blocked.
Proof.
  split; [reflexivity|].
  apply (@onBroadcast_blocked_key_not_persisted Fixtures.crypto Fixtures.decoder
           Fixtures.users).
  reflexivity.
Defined.

(** C1, counterexample.  With Alice's key blocked, her broadcast of m2
    stores nothing, but Alice is sent the ack for m2 and Bob the full
    frame. *)
Lemma onBroadcast_blocked_sender_acked_and_relayed :
  Fixtures.store_isUserBlocked (Some "keyA") Fixtures.db_alice_blocked = true
  ∧ @WebRTCServer.onBroadcast Fixtures.crypto Fixtures.decoder Fixtures.users 1
      (WebRTCServer.mkBroadcast "r1"
         (Fixtures.message "m2" 2000 Fixtures.alice "again") None)
      Fixtures.hub_r1 Fixtures.db_alice_blocked
    = (Fixtures.db_alice_blocked,
       [(1%nat, WebRTCServer.FAck "m2");
        (2%nat,
         WebRTCServer.FBroadcast
           (WebRTCServer.mkBroadcast "r1"
              (Fixtures.message "m2" 2000 Fixtures.alice "again")
              (Some Fixtures.alice)))]).
Proof. vm_compute. done. Qed.

(** C2, as amended.  A broadcast frame whose inner message fails signature
    verification is not persisted (the store is left as it was), so every
    row the pipeline adds to the messages table is the row of a message
    that passed verification at persist time; the frame, annotated with
    the sender, is still sent to every other live member of its room. *)
Theorem onBroadcast_bad_signature_not_persisted `{Crypto} `{BufferDecoder}
    `{DBUsers} (ws : nat) (msg : WebRTCServer.WebRTCBroadcast)
    (hub : WebRTCServer.Hub) (db : DB) :
  (verifySignature (WebRTCServer.bc_message msg) = false →
   (WebRTCServer.onBroadcast ws msg hub db).1 = db
   ∧ ∀ senderClientInfo,
       WebRTCServer.bc_room msg ≠ "" →
       WebRTCServer.clientsMap hub !! ws = Some senderClientInfo →
       filter (λ p, p.1 ≠ ws) (WebRTCServer.onBroadcast ws msg hub db).2
       = (λ cws, (WebRTCServer.ws_id cws,
                  WebRTCServer.FBroadcast
                    (WebRTCServer.mkBroadcast (WebRTCServer.bc_room msg)
                       (WebRTCServer.bc_message msg)
                       (Some (WebRTCServer.ci_user senderClientInfo)))))
           <$> filter (λ cws, live_member hub (WebRTCServer.bc_room msg) cws
                              ∧ WebRTCServer.ws_id cws ≠ ws)
                 (WebRTCServer.wss_clients hub))
  ∧ (∀ row,
       row ∈ messages (WebRTCServer.onBroadcast ws msg hub db).1 →
       row ∉ messages db →
       verifySignature (WebRTCServer.bc_message msg) = true
       ∧ m_id row = msg_id (WebRTCServer.bc_message msg)).
Proof.
  split.
  - intros Hbad. apply onBroadcast_rejected. by left.
  - intros row Hin Hnew.
    destruct (onBroadcast_messages ws msg hub db) as [Hdb|Hdb];
      rewrite Hdb in Hin; [|done].
    destruct (persist_inserts_checked msg db row Hin Hnew)
      as (? & _ & ?).
    done.
Qed.

(** C2, witness: a forged signature on Alice's message. *)
Lemma onBroadcast_bad_signature_not_persisted_witness :
  @verifySignature Fixtures.crypto (Fixtures.forged "m5" 3000 Fixtures.alice "hi")
  = false
  ∧ (@WebRTCServer.onBroadcast Fixtures.crypto Fixtures.decoder Fixtures.users 1
       (WebRTCServer.mkBroadcast "r1"
          (Fixtures.forged "m5" 3000 Fixtures.alice "hi") None)
       Fixtures.hub_r1 emptyDB).1
    = emptyDB.
Proof.
  split; [reflexivity|].
  destruct (@onBroadcast_bad_signature_not_persisted Fixtures.crypto
              Fixtures.decoder Fixtures.users 1
              (WebRTCServer.mkBroadcast "r1"
                 (Fixtures.forged "m5" 3000 Fixtures.alice "hi") None)
              Fixtures.hub_r1 emptyDB) as (Hbad & _).
  apply Hbad. reflexivity.
Defined.

(** C2, counterexample.  Alice's frame with a forged signature stores
    nothing, but Alice is sent the ack and Bob the full frame. *)
Lemma onBroadcast_bad_signature_acked_and_relayed :
  @verifySignature Fixtures.crypto (Fixtures.forged "m5" 3000 Fixtures.alice "hi")
  = false
  ∧ @WebRTCServer.onBroadcast Fixtures.crypto Fixtures.decoder Fixtures.users 1
      (WebRTCServer.mkBroadcast "r1"
         (Fixtures.forged "m5" 3000 Fixtures.alice "hi") None)
      Fixtures.hub_r1 emptyDB
    = (emptyDB,
       [(1%nat, WebRTCServer.FAck "m5");
        (2%nat,
         WebRTCServer.FBroadcast
           (WebRTCServer.mkBroadcast "r1"
              (Fixtures.forged "m5" 3000 Fixtures.alice "hi")
              (Some Fixtures.alice)))]).
Proof. vm_compute. done. Qed.

(** ** The delete-message request *)

(** C10.  A delete-message request that carries a message id fans a
    delete-msg frame out to the live members of the named room, except
    those registered under the requester's key, whatever the database
    deletion did: when the message does not exist or the requester is
    neither its owner nor the admin, nothing is deleted, the response is
    the 404 error, and the frames are sent all the same. *)
Theorem deleteMessage_request_always_notifies (ADMIN_PUBLIC_KEY : option string)
    (messageId roomName publicKey : string) (hub : WebRTCServer.Hub) (db : DB) :
  messageId ≠ "" →
  let r := ChatService.deleteMessage ADMIN_PUBLIC_KEY messageId roomName
             publicKey hub db in
  r.1.2
  = (λ cws, (WebRTCServer.ws_id cws, WebRTCServer.FDeleteMsg messageId roomName))
      <$> filter (λ cws, live_member hub roomName cws
                         ∧ key_of hub cws ≠ Some publicKey)
            (WebRTCServer.wss_clients hub)
  ∧ (head (DBMessages.select_messages_by_id messageId db) = None
     ∨ (∃ row, head (DBMessages.select_messages_by_id messageId db) = Some row
               ∧ m_public_key row ≠ Some publicKey
               ∧ Some publicKey ≠ ADMIN_PUBLIC_KEY) →
     r.1.1 = db ∧ ∃ text, r.2 = ChatService.Status 404 text)
  ∧ ((DBMessages.deleteMessage messageId publicKey ADMIN_PUBLIC_KEY db).2 = true →
     r.1.1 = (DBMessages.deleteMessage messageId publicKey ADMIN_PUBLIC_KEY db).1
     ∧ ∃ text, r.2 = ChatService.Json text).
Proof.
  intros Hid. cbn zeta. unfold ChatService.deleteMessage, truthy.
  rewrite bool_decide_eq_false_2 by done. cbn [negb].
  split; [|split].
  - destruct (DBMessages.deleteMessage _ _ _ db) as [db' []]; cbn;
      apply sendDeleteMessage_targets.
  - intros Hfail.
    assert (DBMessages.deleteMessage messageId publicKey ADMIN_PUBLIC_KEY db
            = (db, false)) as ->.
    { destruct Hfail as [Hnone|(row & Hrow & Hkey & Hadmin)].
      - by apply deleteMessage_missing.
      - by apply (deleteMessage_refused _ _ _ _ row). }
    cbn. split; [done|]. by eexists.
  - destruct (DBMessages.deleteMessage _ _ _ db) as [db' ok]; cbn.
    intros ->. split; [done|]. by eexists.
Qed.

(** C10, witness: Bob asks for Alice's m3 to be deleted; he is refused
    with a 404, the row stays, and Alice's connection is sent the
    delete-msg frame. *)
Lemma deleteMessage_request_always_notifies_witness :
  "m3" ≠ ""
  ∧ (ChatService.deleteMessage (Some "keyAdmin") "m3" "r1" "keyB"
       Fixtures.hub_r1 Fixtures.db_m3).1.2
    = [(1%nat, WebRTCServer.FDeleteMsg "m3" "r1")]
  ∧ (ChatService.deleteMessage (Some "keyAdmin") "m3" "r1" "keyB"
       Fixtures.hub_r1 Fixtures.db_m3).1.1
    = Fixtures.db_m3.
Proof.
  assert (Hid : "m3" ≠ "") by discriminate.
  split; [exact Hid|].
  destruct (deleteMessage_request_always_notifies (Some "keyAdmin") "m3" "r1"
              "keyB" Fixtures.hub_r1 Fixtures.db_m3 Hid) as (Hsent & Hrefused & _).
  split.
  - rewrite Hsent. vm_compute. reflexivity.
  - apply Hrefused. right. eexists. split; [vm_compute; reflexivity|].
    split; discriminate.
Defined.

(** ** The block-user request *)

(** C9, as amended.  For a non-empty key, the handler runs
    [deleteUserContent] and then, on the store that left, [blockUser], and
    answers with the success message; when the content deletion fails,
    [blockUser] is not run (the store stays as the failed deletion left
    it) and the error is surfaced as a 500 response. *)
Theorem blockUser_deletes_then_blocks `{DBUsers} (publicKey : string) (db : DB) :
  publicKey ≠ "" →
  (∀ db1 error,
     deleteUserContent publicKey db = (db1, Some error) →
     ChatService.blockUser publicKey db
     = (db1, ChatService.Status 500 "Server error while attempting to block user"))
  ∧ (∀ db1 db2,
       deleteUserContent publicKey db = (db1, None) →
       blockUser publicKey db1 = (db2, None) →
       ChatService.blockUser publicKey db
       = (db2, ChatService.Json "User was blocked successfully."))
  ∧ (∀ db1 db2 error,
       deleteUserContent publicKey db = (db1, None) →
       blockUser publicKey db1 = (db2, Some error) →
       ChatService.blockUser publicKey db
       = (db2, ChatService.Status 500 "Server error while attempting to block user")).
Proof.
  intros Hkey. unfold ChatService.blockUser, truthy.
  rewrite bool_decide_eq_false_2 by done. cbn [negb].
  split; [|split].
  - intros db1 error ->. done.
  - intros db1 db2 ->. unfold ChatService.DBUsers_blockUser. by intros ->.
  - intros db1 db2 error ->. unfold ChatService.DBUsers_blockUser. by intros ->.
Qed.

(** C9, witness: with a working store the key's messages are gone and the
    key is blocked; on a day the deletion throws, the 500 is returned. *)
Lemma blockUser_deletes_then_blocks_witness :
  "keyA" ≠ ""
  ∧ @ChatService.blockUser Fixtures.users "keyA" Fixtures.db_m3
    = ((Fixtures.store_blockUser "keyA"
          (Fixtures.store_deleteUserContent "keyA" Fixtures.db_m3).1).1,
       ChatService.Json "User was blocked successfully.")
  ∧ @ChatService.blockUser Fixtures.users_deletion_fails "keyA" Fixtures.db_m3
    = (Fixtures.db_m3,
       ChatService.Status 500 "Server error while attempting to block user").
Proof.
  assert (Hkey : "keyA" ≠ "") by discriminate.
  split; [exact Hkey|]. split.
  - destruct (@blockUser_deletes_then_blocks Fixtures.users "keyA"
                Fixtures.db_m3 Hkey) as (_ & Hok & _).
    eapply Hok; reflexivity.
  - destruct (@blockUser_deletes_then_blocks Fixtures.users_deletion_fails
                "keyA" Fixtures.db_m3 Hkey) as (Hfail & _).
    apply (Hfail _ "connection terminated"). reflexivity.
Defined.

(** C9, counterexample.  The content deletion fails for Alice's key: the
    requester gets the error, and afterwards the key is not blocked. *)
Lemma blockUser_failed_deletion_leaves_key_unblocked :
  let r := @ChatService.blockUser Fixtures.users_deletion_fails "keyA"
             Fixtures.db_m3 in
  @deleteUserContent Fixtures.users_deletion_fails "keyA" Fixtures.db_m3
  = (Fixtures.db_m3, Some "connection terminated")
  ∧ r.2 = ChatService.Status 500 "Server error while attempting to block user"
  ∧ @isUserBlocked Fixtures.users_deletion_fails (Some "keyA") r.1 = false
  ∧ blocked_keys r.1 = [].
Proof. vm_compute. done. Qed.

(** ** The client sync pass *)
Section SyncFacts.
Import AppMessages.

Lemma set_state_saved_id (m : ChatMessage) :
  msg_state m = Some SAVED → set_state SAVED m = m.
Proof. destruct m; cbn. by intros ->. Qed.

(** The callback keeps a message the server knows, in state SAVED. *)
Lemma sync_one_known (ids : list string) (m : ChatMessage) :
  msg_id m ∈ ids → sync_one ids m = Some (set_state SAVED m).
Proof.
  intros Hin. unfold sync_one. rewrite bool_decide_eq_true_2 by done.
  case_bool_decide as Hst; [done|].
  rewrite set_state_saved_id; [done|]. by destruct (decide (msg_state m = Some SAVED)).
Qed.

(** It drops a SAVED message the server does not know, and keeps the
    others the server does not know as they are. *)
Lemma sync_one_unknown (ids : list string) (m : ChatMessage) :
  msg_id m ∉ ids →
  sync_one ids m = if bool_decide (msg_state m = Some SAVED) then None else Some m.
Proof. intros Hin. unfold sync_one. by rewrite bool_decide_eq_false_2. Qed.

Lemma sync_one_id (ids : list string) (m m' : ChatMessage) :
  sync_one ids m = Some m' → msg_id m' = msg_id m.
Proof.
  unfold sync_one. repeat case_bool_decide; intros [= <-]; done.
Qed.

Lemma sync_clean (ids : list string) (l : list ChatMessage) :
  existsb (sync_dirty ids) l = false → omap (sync_one ids) l = l.
Proof.
  induction l as [|m l IH]; [done|]. cbn [existsb].
  intros [Hm Hl]%orb_false_iff. cbn [omap list_omap].
  rewrite (IH Hl). unfold sync_dirty in Hm. unfold sync_one.
  case_bool_decide.
  - rewrite Hm. done.
  - rewrite Hm. done.
Qed.

Lemma filter_ext_Forall {A} (P Q : A → Prop)
    `{!∀ x, Decision (P x), !∀ x, Decision (Q x)} (l : list A) :
  Forall (λ x, P x ↔ Q x) l → filter P l = filter Q l.
Proof.
  induction 1 as [|x l Hx _ IH]; [done|].
  rewrite !filter_cons.
  destruct (decide (P x)), (decide (Q x)); try tauto; by rewrite IH.
Qed.

(** The ids the pass asks the server for: those of the server's list that
    no cached message has. *)
Lemma missing_ids_local (ids : list string) (l : list ChatMessage) :
  filter (λ id, id ∉ (msg_id <$> omap (sync_one ids) l)) ids
  = filter (λ id, id ∉ (msg_id <$> l)) ids.
Proof.
  apply filter_ext_Forall, Forall_forall. intros id Hid.
  apply not_iff_compat.
  { rewrite !list_elem_of_fmap. split.
    - intros (m' & -> & Hm'). apply list_elem_of_omap in Hm' as (m & Hm & Hsync).
      exists m. split; [by apply sync_one_id in Hsync|done].
    - intros (m & -> & Hm). exists (set_state SAVED m). split; [done|].
      apply list_elem_of_omap. exists m. split; [done|]. by apply sync_one_known. }
Qed.

(** What [synchronize] computes when the server answers: the kept
    messages, to which the fetched ones are added and the whole sorted
    when something was fetched. *)
Lemma synchronize_outcome (http : Http) (roomId : string) (ids : list string)
    (l : list ChatMessage) (stored : option (list ChatMessage))
    (fetched : list ChatMessage) :
  let missingIds := filter (λ id, id ∉ (msg_id <$> l)) ids in
  (missingIds ≠ [] → get_messages_by_id http missingIds = Some fetched) →
  (missingIds = [] → fetched = []) →
  synchronize http roomId ids l stored
  = match fetched with
    | [] =>
        (omap (sync_one ids) l,
         if existsb (sync_dirty ids) l
         then saveMessages roomId (omap (sync_one ids) l) stored else stored)
    | _ =>
        (sort_by older_first (omap (sync_one ids) l ++ fetched),
         saveMessages roomId
           (sort_by older_first (omap (sync_one ids) l ++ fetched)) stored)
    end.
Proof.
  cbn zeta. intros Hfetch Hnone. unfold synchronize.
  rewrite missing_ids_local.
  destruct (filter _ ids) as [|i missing] eqn:Hmissing.
  - rewrite (Hnone eq_refl). by destruct (existsb _ l).
  - rewrite Hfetch by done. destruct fetched; [|done].
    by destruct (existsb _ l).
Qed.

End SyncFacts.

(** C8, as amended.  In server mode, when the server's id list for the
    window is not empty and the server answers the fetch: a cached message
    whose id is in the list is in the result in state SAVED; a cached
    message in state SAVED whose id is not in the list is removed; the
    other cached messages are kept; the messages of the ids that no cached
    message has are fetched and merged; the list is sorted ascending by
    timestamp whenever something was fetched; and the cache entry of the
    room holds the resulting list. *)
Theorem loadRoomMessages_reconciles (gs : ChatGlobalState) (now : Z)
    (http : AppMessages.Http) (roomId : string)
    (roomData : option (list ChatMessage))
    (serverMessageIds : list string) (fetched : list ChatMessage) :
  chatSaveToServer gs = true →
  AppMessages.get_message_ids http = Some serverMessageIds →
  serverMessageIds ≠ [] →
  let cached := retained gs now roomData in
  let missingIds := filter (λ id, id ∉ (msg_id <$> cached)) serverMessageIds in
  (missingIds ≠ [] → AppMessages.get_messages_by_id http missingIds = Some fetched) →
  (missingIds = [] → fetched = []) →
  let result := (AppMessages.loadRoomMessages gs now http roomId roomData).1 in
  let stored := (AppMessages.loadRoomMessages gs now http roomId roomData).2 in
  (∀ m, m ∈ cached → msg_id m ∈ serverMessageIds → set_state SAVED m ∈ result)
  ∧ (∀ m, m ∈ cached → msg_id m ∉ serverMessageIds →
       msg_state m = Some SAVED →
       (∀ f, f ∈ fetched → msg_id f ∈ serverMessageIds) → m ∉ result)
  ∧ (∀ m, m ∈ cached → msg_id m ∉ serverMessageIds →
       msg_state m ≠ Some SAVED → m ∈ result)
  ∧ (∀ f, f ∈ fetched → f ∈ result)
  ∧ (fetched ≠ [] → oldest_first result)
  ∧ (roomId ≠ "" → default [] stored = result).
Proof.
  intros Hmode Hids Hnonempty cached missingIds Hfetch Hnone.
  set (kept := omap (AppMessages.sync_one serverMessageIds) cached).
  assert (Hload :
    AppMessages.loadRoomMessages gs now http roomId roomData
    = AppMessages.synchronize http roomId serverMessageIds cached
        (match roomData with Some _ => Some cached | None => None end)).
  { unfold AppMessages.loadRoomMessages, cached, retained.
    destruct roomData as [roomMessages|].
    - destruct (AppRooms.cleanRoomMessages gs now roomMessages) as [cleaned ?].
      rewrite Hmode, Hids. cbn [fst]. by destruct serverMessageIds.
    - rewrite Hmode, Hids. by destruct serverMessageIds. }
  cbn zeta. rewrite Hload.
  rewrite (synchronize_outcome _ _ _ _ _ fetched Hfetch Hnone). fold kept.
  assert (Hresult : ∀ x,
    x ∈ (match fetched with
         | [] => (kept,
                  if existsb (AppMessages.sync_dirty serverMessageIds) cached
                  then AppMessages.saveMessages roomId kept
                         match roomData with Some _ => Some cached | None => None end
                  else match roomData with Some _ => Some cached | None => None end)
         | _ => (sort_by AppMessages.older_first (kept ++ fetched),
                 AppMessages.saveMessages roomId
                   (sort_by AppMessages.older_first (kept ++ fetched))
                   match roomData with Some _ => Some cached | None => None end)
         end).1
    ↔ x ∈ kept ∨ x ∈ fetched).
  { intros x. destruct fetched as [|f fetched'].
    - cbn [fst]. split; [by left|]. intros [?|Hx]; [done|].
      by apply elem_of_nil in Hx.
    - cbn [fst]. by rewrite sort_by_elem_of, elem_of_app. }
  split.
  { intros m Hm Hknown. apply Hresult. left. apply list_elem_of_omap.
    exists m. split; [done|]. by apply sync_one_known. }
  split.
  { intros m Hm Hunknown Hsaved Hfetched [Hkept|Hnew]%Hresult.
    - apply list_elem_of_omap in Hkept as (m0 & Hm0 & Hsync).
      destruct (decide (msg_id m0 ∈ serverMessageIds)) as [Hin|Hout].
      + apply sync_one_id in Hsync. rewrite Hsync in Hunknown. done.
      + rewrite (sync_one_unknown _ _ Hout) in Hsync.
        case_bool_decide as Hst; [done|]. injection Hsync as ->. done.
    - by apply Hunknown, Hfetched. }
  split.
  { intros m Hm Hunknown Hstate. apply Hresult. left. apply list_elem_of_omap.
    exists m. split; [done|]. rewrite (sync_one_unknown _ _ Hunknown).
    by rewrite bool_decide_eq_false_2. }
  split; [by intros f Hf; apply Hresult; right|].
  split.
  { intros Hsome. destruct fetched as [|f fetched']; [done|]. cbn [fst].
    apply (sort_by_sorted AppMessages.older_first);
      unfold AppMessages.older_first.
    - intros a b Hle. by apply Z.leb_le in Hle.
    - intros a b Hle. apply Z.leb_gt in Hle. lia.
    - intros a b c ? ?. lia. }
  intros Hroom. unfold AppMessages.saveMessages, truthy.
  rewrite bool_decide_eq_false_2 by done. cbn [negb].
  destruct fetched as [|f fetched']; [|done]. cbn [fst snd].
  destruct (existsb _ cached) eqn:Hdirty; [done|].
  unfold kept. rewrite (sync_clean _ _ Hdirty).
  destruct roomData; [done|]. done.
Qed.

(** C8, witness: the cache holds m10 (SAVED), m11 (SAVED) and m12 (SENT),
    the server knows m10 and m13.  After the pass m10 is there, m11 is
    gone, m13 was fetched, m12 is kept, in ascending order of timestamp. *)
Lemma loadRoomMessages_reconciles_witness :
  let result :=
    (AppMessages.loadRoomMessages Fixtures.gs_server_mode 5000
       Fixtures.http_m10_m13 "r1"
       (Some [Fixtures.m10; Fixtures.m11; Fixtures.m12])).1 in
  chatSaveToServer Fixtures.gs_server_mode = true
  ∧ AppMessages.get_message_ids Fixtures.http_m10_m13 = Some ["m10"; "m13"]
  ∧ set_state SAVED Fixtures.m10 ∈ result
  ∧ (Fixtures.m11 ∉ result)
  ∧ Fixtures.m12 ∈ result
  ∧ Fixtures.m13 ∈ result
  ∧ oldest_first result.
Proof.
  cbn zeta. split; [reflexivity|]. split; [reflexivity|].
  destruct (loadRoomMessages_reconciles Fixtures.gs_server_mode 5000
              Fixtures.http_m10_m13 "r1"
              (Some [Fixtures.m10; Fixtures.m11; Fixtures.m12])
              ["m10"; "m13"] [Fixtures.m13])
    as (Hknown & Hgone & Hkept & Hfetched & Hsorted & _).
  - reflexivity.
  - reflexivity.
  - discriminate.
  - intros _. vm_compute. reflexivity.
  - vm_compute. discriminate.
  - split; [|split; [|split; [|split]]].
    + apply Hknown.
      * vm_compute. apply elem_of_cons. by left.
      * apply elem_of_cons. by left.
    + apply Hgone.
      * vm_compute. apply elem_of_cons. right. apply elem_of_cons. by left.
      * intros Hin. vm_compute in Hin.
        apply elem_of_cons in Hin as [Heq|Hin]; [discriminate Heq|].
        apply list_elem_of_singleton in Hin. discriminate Hin.
      * reflexivity.
      * intros f Hf. apply list_elem_of_singleton in Hf as ->.
        apply elem_of_cons. right. apply elem_of_cons. by left.
    + apply Hkept.
      * vm_compute. do 2 (apply elem_of_cons; right). apply elem_of_cons. by left.
      * intros Hin. vm_compute in Hin.
        apply elem_of_cons in Hin as [Heq|Hin]; [discriminate Heq|].
        apply list_elem_of_singleton in Hin. discriminate Hin.
      * discriminate.
    + apply Hfetched. by apply list_elem_of_singleton.
    + apply Hsorted. discriminate.
Defined.

(** C8, counterexample.  (1) The server's id list is empty: the pass
    returns at once, and m11, SAVED locally and absent from the server,
    stays in the result and in the cache.  (2) The cache holds m11 before
    m10 and the server knows both: nothing is fetched, and the result is
    not in ascending order of timestamp. *)
Lemma loadRoomMessages_keeps_saved_and_order :
  (chatSaveToServer Fixtures.gs_server_mode = true
   ∧ AppMessages.get_message_ids Fixtures.http_empty = Some []
   ∧ msg_state Fixtures.m11 = Some SAVED
   ∧ AppMessages.loadRoomMessages Fixtures.gs_server_mode 5000
       Fixtures.http_empty "r1" (Some [Fixtures.m11])
     = ([Fixtures.m11], Some [Fixtures.m11]))
  ∧ (AppMessages.get_message_ids Fixtures.http_m10_m11 = Some ["m10"; "m11"]
     ∧ (AppMessages.loadRoomMessages Fixtures.gs_server_mode 5000
          Fixtures.http_m10_m11 "r1" (Some [Fixtures.m11; Fixtures.m10])).1
       = [Fixtures.m11; Fixtures.m10]
     ∧ msg_timestamp <$> [Fixtures.m11; Fixtures.m10] = [2000; 1000]).
Proof. vm_compute. done. Qed.


(** A batch that the store turns away: the second message carries an
    attachment whose size, 2^31, is outside [INTEGER].  [saveMessages]
    throws, and the row of the first message is not kept. *)
Example saveMessages_rejected_batch_rolls_back :
  let oversized := mkFileBase64 "big.bin" "application/octet-stream" 2147483648 "" in
  let r :=
    @DBMessages.saveMessages Fixtures.decoder "r1"
      [Fixtures.message "m4" 2000 Fixtures.alice "first";
       Fixtures.with_attachments [oversized]
         (Fixtures.message "m5" 3000 Fixtures.alice "second")]
      Fixtures.db_m3 in
  r.2 = Throws
  ∧ messages r.1 = messages Fixtures.db_m3
  ∧ attachments r.1 = attachments Fixtures.db_m3.
Proof. by vm_compute. Qed.

(** C7, witness: the page of r1 in the store with three equal timestamps
    is a window of an ordering of the room's rows, newest first. *)
Lemma getMessagesForRoom_newest_first_witness :
  DBRoom.select_room_by_name "r1" Fixtures.db_ties = Some (mkRoomRow 1 "r1")
  ∧ ∃ ordered,
      ordered ≡ₚ filter (λ r, m_room_id r = 1) (messages Fixtures.db_ties)
      ∧ newest_first ordered
      ∧ DBMessages.getMessagesForRoom "r1" 2 1 Fixtures.db_ties
        = DBMessages.hydrate Fixtures.db_ties <$> take 2 (drop 1 ordered).
Proof.
  split; [reflexivity|].
  destruct (getMessagesForRoom_newest_first "r1" 2 1 Fixtures.db_ties)
    as (_ & Hwindow & _).
  apply (Hwindow (mkRoomRow 1 "r1")); [reflexivity|lia|lia].
Defined.

(** ** Scenarios of the specification, run on the model *)

(** Joining: Alice gets an empty participant list, Bob gets Alice. *)
Example scenario_join :
  (@WebRTCServer.onJoin Fixtures.joinCrypto 1
     (WebRTCServer.mkJoin "r1" Fixtures.alice (Some "sig:join"))
     (WebRTCServer.connect 1 WebRTCServer.emptyHub)).2
  = [(1%nat, WebRTCServer.FRoomInfo "r1" [])]
  ∧ (@WebRTCServer.onJoin Fixtures.joinCrypto 2
       (WebRTCServer.mkJoin "r1" Fixtures.bob (Some "sig:join"))
       (WebRTCServer.connect 2
          (Fixtures.join 1 "r1" Fixtures.alice WebRTCServer.emptyHub))).2
    = [(2%nat, WebRTCServer.FRoomInfo "r1" [Fixtures.alice])].
Proof. vm_compute. done. Qed.

(** Two peers, one message, relay mode: Bob receives the full frame with
    the message in state SAVED, Alice the ack, and the store has the row. *)
Example scenario_relay :
  let r :=
    @WebRTCServer.onBroadcast Fixtures.crypto Fixtures.decoder Fixtures.users 1
      (WebRTCServer.mkBroadcast "r1"
         (Fixtures.message "m1" 1000 Fixtures.alice "hi") None)
      Fixtures.hub_r1 emptyDB in
  r.2 = [(1%nat, WebRTCServer.FAck "m1");
         (2%nat,
          WebRTCServer.FBroadcast
            (WebRTCServer.mkBroadcast "r1"
               (Fixtures.saved (Fixtures.message "m1" 1000 Fixtures.alice "hi"))
               (Some Fixtures.alice)))]
  ∧ messages r.1
    = [mkMessageRow "m1" 1 1000 "alice" "hi" (Some "keyA") (Some "sig:m1")
         (Some SAVED)]
  ∧ rooms r.1 = [mkRoomRow 1 "r1"].
Proof. vm_compute. done. Qed.

(** Signaling within one room: Bob, in r1 with Alice, receives her offer;
    Carol, also in r1, does not. *)
Example scenario_signaling :
  recipients
    (WebRTCServer.onSignaling 1 Fixtures.offer_to_bob
       (Fixtures.join 3 "r1" Fixtures.carol Fixtures.hub_r1))
  = [2%nat].
Proof. vm_compute. done. Qed.

(** Attachment lifecycle: the bytes of the data URL are stored, come back
    as the same data URL, and go away with the message. *)
Example scenario_attachment :
  a_data <$> attachments Fixtures.db_m3 = [Some [x68; x69]]
  ∧ (∃ msgs,
       DBMessages.getMessagesByIds ["m3"] "r1" Fixtures.db_m3 = Returns msgs
       ∧ (λ m, fb_data <$> msg_attachments m) <$> msgs
         = [["data:text/plain;base64,aGk="]])
  ∧ attachments (DBMessages.deleteMessage "m3" "keyA" None Fixtures.db_m3).1 = [].
Proof.
  split; [by vm_compute|]. split; [|by vm_compute].
  eexists. split; [vm_compute; reflexivity|by vm_compute].
Qed.

(** Delete by the admin: the row of Alice's m3 is removed for the admin
    key. *)
Example scenario_admin_delete :
  DBMessages.deleteMessage "m3" "keyAdmin" (Some "keyAdmin") Fixtures.db_m3
  = (mkDB [mkRoomRow 1 "r1"] 1 [] [] 1 [], true).
Proof. vm_compute. done. Qed.

(** The data URL pattern: letters, [-], [+] and [/] only in the type. *)
Example scenario_data_url :
  DataUrl.payload "data:image/png;base64,aGk=" = Some "aGk="
  ∧ DataUrl.payload "data:video/mp4;base64,aGk=" = None
  ∧ DataUrl.payload "data:image/png;base64," = None
  ∧ Base64.encode [x4d; x61; x6e] = "TWFu"
  ∧ Base64.encode [x4d; x61] = "TWE="
  ∧ Base64.encode [x4d] = "TQ==".
Proof. vm_compute. done. Qed.

(** * Further properties of the store *)

Lemma store_consistent_empty : store_consistent emptyDB.
Proof.
  split; cbn; try apply NoDup_nil_2; try done;
    by intros ? Hin; apply elem_of_nil in Hin.
Qed.

Lemma NoDup_fmap_filter {A B} (f : A → B) (P : A → Prop)
    `{!∀ x, Decision (P x)} (l : list A) :
  NoDup (f <$> l) → NoDup (f <$> filter P l).
Proof.
  intros Hl. eapply sublist_NoDup; [exact Hl|]. apply fmap_sublist, sublist_filter.
Qed.

Lemma select_room_by_name_Some (roomName : string) (db : DB) (room : RoomRow) :
  DBRoom.select_room_by_name roomName db = Some room →
  room ∈ rooms db ∧ room_name room = roomName.
Proof.
  intros Hin%head_Some_elem_of. by apply list_elem_of_filter in Hin as [? ?].
Qed.

Lemma select_room_by_name_None (roomName : string) (db : DB) :
  DBRoom.select_room_by_name roomName db = None →
  roomName ∉ (room_name <$> rooms db).
Proof.
  intros Hnone%head_None Hin.
  apply list_elem_of_fmap in Hin as (room & -> & Hroom).
  by apply (filter_nil_not_elem_of _ _ room) in Hnone.
Qed.

(** With unique room names, the lookup by name finds the one room of that
    name. *)
Lemma select_room_by_name_unique (db : DB) (room : RoomRow) :
  NoDup (room_name <$> rooms db) → room ∈ rooms db →
  DBRoom.select_room_by_name (room_name room) db = Some room.
Proof.
  unfold DBRoom.select_room_by_name. generalize (rooms db). intros l.
  induction l as [|r l IH]; intros Hnd Hin; [by apply elem_of_nil in Hin|].
  cbn in Hnd. apply NoDup_cons in Hnd as [Hr Hnd].
  rewrite filter_cons. destruct (decide (room_name r = room_name room)) as [Heq|Hne].
  - apply elem_of_cons in Hin as [->|Hin]; [done|].
    exfalso. apply Hr. rewrite Heq. by apply list_elem_of_fmap_2.
  - apply elem_of_cons in Hin as [->|Hin]; [done|]. by apply IH.
Qed.

(** X1.  Asking twice for the same room gives the same id and changes
    nothing the second time; afterwards the room is found by its name. *)
Theorem getOrCreateRoom_idempotent (roomName : string) (db : DB) :
  let r := DBRoom.getOrCreateRoom roomName db in
  DBRoom.getOrCreateRoom roomName r.1 = r
  ∧ ∃ room, DBRoom.select_room_by_name roomName r.1 = Some room
            ∧ room_pk room = r.2 ∧ room_name room = roomName.
Proof.
  cbn zeta. unfold DBRoom.getOrCreateRoom.
  destruct (DBRoom.select_room_by_name roomName db) as [room|] eqn:Hsel.
  - cbn [fst snd]. rewrite Hsel. split; [done|]. exists room.
    by apply select_room_by_name_Some in Hsel as [_ ?].
  - assert (Hnew : DBRoom.select_room_by_name roomName
                     (DBRoom.insert_room roomName db).1
                   = Some (mkRoomRow (rooms_seq db + 1) roomName)).
    { unfold DBRoom.select_room_by_name in *. cbn.
      apply head_None in Hsel. by rewrite filter_app, Hsel, filter_cons_True. }
    rewrite Hnew. split; [done|]. by eexists.
Qed.

Lemma getOrCreateRoom_consistent (roomName : string) (db db' : DB) (rid : Z) :
  store_consistent db →
  DBRoom.getOrCreateRoom roomName db = (db', rid) →
  store_consistent db' ∧ rid ∈ (room_pk <$> rooms db').
Proof.
  intros Hc. unfold DBRoom.getOrCreateRoom, DBRoom.insert_room.
  destruct (DBRoom.select_room_by_name roomName db) as [room|] eqn:Hsel;
    intros [= <- <-].
  - split; [done|]. apply select_room_by_name_Some in Hsel as [? _].
    by apply list_elem_of_fmap_2.
  - apply select_room_by_name_None in Hsel. destruct Hc.
    split; [|cbn; rewrite fmap_app; apply elem_of_app; right;
             by apply list_elem_of_singleton].
    split; cbn; try done.
    + rewrite fmap_app. apply NoDup_app. split; [done|]. split; [|apply NoDup_singleton].
      intros pk Hpk ->%list_elem_of_singleton.
      apply list_elem_of_fmap in Hpk as (room & Hpk & Hroom).
      apply rooms_serial0 in Hroom. cbn in *. lia.
    + rewrite fmap_app. apply NoDup_app. split; [done|]. split; [|apply NoDup_singleton].
      by intros name Hname ->%list_elem_of_singleton.
    + intros r Hr. rewrite fmap_app. apply elem_of_app. left. by apply messages_fk0.
    + intros room [Hroom| ->%list_elem_of_singleton]%elem_of_app; cbn; [|lia].
      apply rooms_serial0 in Hroom. cbn in *. lia.
    + lia.
Qed.

(** A transaction that does not commit keeps the constraints: the tables
    are the earlier ones, and the sequences have not gone back. *)
Lemma rolled_back_consistent (before now : DB) :
  store_consistent before →
  rooms_seq before ≤ rooms_seq now →
  attachments_seq before ≤ attachments_seq now →
  store_consistent (rolled_back before now).
Proof.
  intros [] Hrooms Hatts. split; cbn; try done.
  - intros room Hroom. apply rooms_serial0 in Hroom. lia.
  - intros a Ha. apply attachments_serial0 in Ha. lia.
  - lia.
Qed.

Lemma getOrCreateRoom_sequences (roomName : string) (db : DB) :
  rooms_seq db ≤ rooms_seq (DBRoom.getOrCreateRoom roomName db).1
  ∧ attachments_seq (DBRoom.getOrCreateRoom roomName db).1 = attachments_seq db.
Proof.
  unfold DBRoom.getOrCreateRoom, DBRoom.insert_room.
  destruct (DBRoom.select_room_by_name roomName db); cbn; split; (done || lia).
Qed.

Section ConsistentPersist.
Context `{BufferDecoder}.

Lemma insert_attachment_consistent (mid : string) (att : FileBase64) (db : DB) :
  store_consistent db →
  store_consistent (DBMessages.insert_attachment mid att db).1.
Proof.
  intros Hc. unfold DBMessages.insert_attachment.
  destruct (negb _); [done|]. cbn zeta. destruct Hc.
  case_bool_decide as Hmid; split; cbn; try done.
  - rewrite fmap_app. apply NoDup_app. split; [done|]. split; [|apply NoDup_singleton].
    intros id Hid ->%list_elem_of_singleton.
    apply list_elem_of_fmap in Hid as (a & Hid & Ha).
    apply attachments_serial0 in Ha. cbn in *. lia.
  - by intros a [Ha| ->%list_elem_of_singleton]%elem_of_app; [apply attachments_fk0|].
  - intros a [Ha| ->%list_elem_of_singleton]%elem_of_app; cbn; [|lia].
    apply attachments_serial0 in Ha. cbn in *. lia.
  - lia.
  - intros a Ha. apply attachments_serial0 in Ha. lia.
  - lia.
Qed.

Lemma insert_attachments_consistent (mid : string) (atts : list FileBase64)
    (db : DB) :
  store_consistent db →
  store_consistent (DBMessages.insert_attachments mid atts db).1.
Proof.
  revert db. induction atts as [|a atts IH]; intros db Hc; [done|].
  cbn [DBMessages.insert_attachments].
  pose proof (insert_attachment_consistent mid a db Hc) as Hc1.
  destruct (DBMessages.insert_attachment mid a db) as [db1 accepted].
  destruct accepted; [by apply IH|done].
Qed.

Lemma insert_message_consistent (row : MessageRow) (db db1 : DB) (rowCount : Z) :
  store_consistent db →
  DBMessages.insert_message row db = Returns (db1, rowCount) →
  store_consistent db1.
Proof.
  intros Hc Hins. apply insert_message_returns in Hins
    as (_ & _ & [(-> & -> & Hin)|(-> & Hnew & Hfk & ->)]); [done|].
  destruct Hc. split; cbn; try done.
  - rewrite fmap_app. apply NoDup_app. split; [done|].
    split; [|apply NoDup_singleton].
    by intros id Hid ->%list_elem_of_singleton.
  - by intros r [Hr| ->%list_elem_of_singleton]%elem_of_app;
      [apply messages_fk0|].
  - intros a Ha. rewrite fmap_app. apply elem_of_app. left.
    by apply attachments_fk0.
Qed.

Lemma persistMessageToRoomId_consistent (roomId : Z) (m : ChatMessage) (db : DB) :
  store_consistent db →
  store_consistent (DBMessages.persistMessageToRoomId roomId m db).1.1.
Proof.
  intros Hc. unfold DBMessages.persistMessageToRoomId. cbn zeta.
  destruct (DBMessages.insert_message _ db) as [[db1 rowCount]|] eqn:Hins;
    [|done].
  apply insert_message_consistent in Hins; [|done].
  case_bool_decide; [done|].
  pose proof (insert_attachments_consistent (msg_id (set_state SAVED m))
                (msg_attachments (set_state SAVED m)) db1 Hins) as Hc2.
  by destruct (DBMessages.insert_attachments _ _ db1).
Qed.

Lemma saveMessages_loop_consistent (roomId : Z) (msgs : list ChatMessage)
    (db : DB) (n : Try Z) :
  store_consistent db →
  store_consistent (foldl (DBMessages.saveMessages_step roomId) (db, n) msgs).1.
Proof.
  revert db n. induction msgs as [|m msgs IH]; intros db n Hc; [done|].
  cbn [foldl]. destruct n as [n|]; [|by apply IH].
  cbn [DBMessages.saveMessages_step].
  pose proof (persistMessageToRoomId_consistent roomId m db Hc) as Hc1.
  destruct (DBMessages.persistMessageToRoomId roomId m db) as [[db1 m1] r].
  cbn [fst] in Hc1. destruct r as [b|]; [destruct (negb b)|]; by apply IH.
Qed.

Lemma saveMessages_consistent (roomName : string) (msgs : list ChatMessage)
    (db : DB) :
  store_consistent db →
  store_consistent (DBMessages.saveMessages roomName msgs db).1.
Proof.
  intros Hc. unfold DBMessages.saveMessages.
  destruct (getOrCreateRoom_sequences roomName db) as [Hrs Has].
  destruct (DBRoom.getOrCreateRoom roomName db) as [db1 roomId] eqn:Hroom.
  apply getOrCreateRoom_consistent in Hroom as [Hc1 _]; [|done].
  pose proof (saveMessages_loop_consistent roomId msgs db1 (Returns 0) Hc1)
    as Hc2.
  destruct (foldl _ (db1, Returns 0) msgs) as [db2 k] eqn:Hloop.
  destruct k as [k|]; [done|].
  apply saveMessages_loop_frame in Hloop as (_ & Hrs2 & _ & Has2 & _).
  cbn [fst] in *. apply rolled_back_consistent; [done|lia|lia].
Qed.

(** X2.  [saveMessages] keeps the constraints of the schema: no second row
    for a message id, room id or room name, every message in an existing
    room, every attachment on an existing message. *)
Theorem saveMessages_keeps_constraints (roomName : string)
    (msgs : list ChatMessage) (db : DB) :
  store_consistent db →
  store_consistent (DBMessages.saveMessages roomName msgs db).1.
Proof. apply saveMessages_consistent. Qed.

End ConsistentPersist.

Lemma db_m3_consistent : store_consistent Fixtures.db_m3.
Proof.
  apply (@saveMessages_consistent Fixtures.decoder), store_consistent_empty.
Qed.

Lemma db_two_rooms_consistent : store_consistent Fixtures.db_two_rooms.
Proof.
  do 2 apply (@saveMessages_consistent Fixtures.decoder).
  apply store_consistent_empty.
Qed.

(** X2, witness: a batch with attachments and a repeated id, saved into
    the empty store. *)
Lemma saveMessages_keeps_constraints_witness :
  store_consistent emptyDB
  ∧ store_consistent
      (@DBMessages.saveMessages Fixtures.decoder "r1"
         [Fixtures.with_attachments [Fixtures.picture; Fixtures.picture]
            (Fixtures.message "m1" 1000 Fixtures.alice "one");
          Fixtures.message "m2" 2000 Fixtures.bob "two";
          Fixtures.message "m1" 3000 Fixtures.bob "again"] emptyDB).1.
Proof.
  split; [apply store_consistent_empty|].
  apply (@saveMessages_keeps_constraints Fixtures.decoder).
  apply store_consistent_empty.
Defined.

Lemma filter_all {A} (P : A → Prop) `{!∀ x, Decision (P x)} (l : list A) :
  (∀ x, x ∈ l → P x) → filter P l = l.
Proof.
  induction l as [|x l IH]; intros Hall; [done|].
  rewrite filter_cons_True by (apply Hall, elem_of_cons; by left).
  f_equal. apply IH. intros y Hy. apply Hall, elem_of_cons. by right.
Qed.

Lemma filter_none {A} (P : A → Prop) `{!∀ x, Decision (P x)} (l : list A) :
  (∀ x, x ∈ l → ¬ P x) → filter P l = [].
Proof.
  induction l as [|x l IH]; intros Hnone; [done|].
  rewrite filter_cons_False by (apply Hnone, elem_of_cons; by left).
  apply IH. intros y Hy. apply Hnone, elem_of_cons. by right.
Qed.

(** A column without duplicates identifies its row. *)
Lemma NoDup_fmap_eq {A B} (f : A → B) (l : list A) (x y : A) :
  NoDup (f <$> l) → x ∈ l → y ∈ l → f x = f y → x = y.
Proof.
  induction l as [|z l IH]; intros Hnd Hx Hy Hf; [by apply elem_of_nil in Hx|].
  cbn in Hnd. apply NoDup_cons in Hnd as [Hz Hnd].
  apply elem_of_cons in Hx as [->|Hx], Hy as [->|Hy]; [done|..].
  - exfalso. apply Hz. rewrite Hf. by apply list_elem_of_fmap_2.
  - exfalso. apply Hz. rewrite <- Hf. by apply list_elem_of_fmap_2.
  - by apply IH.
Qed.

Lemma select_room_by_name_absent (roomName : string) (db : DB) :
  roomName ∉ (room_name <$> rooms db) →
  DBRoom.select_room_by_name roomName db = None.
Proof.
  intros Hno. apply head_None, filter_none. intros room Hroom Hname.
  apply Hno. rewrite <- Hname. by apply list_elem_of_fmap_2.
Qed.

(** ** Deleting messages and rooms *)

Lemma delete_message_rows_consistent (mid : string) (db : DB) :
  store_consistent db →
  store_consistent
    (DBMessages.delete_messages_by_id mid
       (DBMessages.delete_attachments_of mid db).1).1.
Proof.
  intros []. split; cbn; try done.
  - by apply NoDup_fmap_filter.
  - by apply NoDup_fmap_filter.
  - intros r [_ Hr]%list_elem_of_filter. by apply messages_fk0.
  - intros a [Hne Ha]%list_elem_of_filter.
    apply attachments_fk0, list_elem_of_fmap in Ha as (r & Hid & Hr).
    apply list_elem_of_fmap. exists r. split; [done|].
    apply list_elem_of_filter. split; [congruence|done].
  - intros a [_ Ha]%list_elem_of_filter. by apply attachments_serial0.
Qed.

(** X3.  [deleteMessage] keeps the constraints of the schema whatever it
    answers; in particular no attachment is left behind without its
    message. *)
Theorem deleteMessage_keeps_constraints (messageId publicKey : string)
    (adminPubKey : option string) (db : DB) :
  store_consistent db →
  store_consistent
    (DBMessages.deleteMessage messageId publicKey adminPubKey db).1.
Proof.
  intros Hc.
  destruct (head (DBMessages.select_messages_by_id messageId db)) as [r|] eqn:Hhd.
  - destruct (decide (m_public_key r = Some publicKey ∨ Some publicKey = adminPubKey))
      as [Hauth|Hno].
    + rewrite (deleteMessage_granted _ _ _ _ r Hhd Hauth).
      by apply delete_message_rows_consistent.
    + assert (m_public_key r ≠ Some publicKey ∧ Some publicKey ≠ adminPubKey)
        as [Hk Ha] by (split; intros ?; apply Hno; auto).
      by rewrite (deleteMessage_refused _ _ _ _ r Hhd Hk Ha).
  - by rewrite (deleteMessage_missing _ _ _ _ Hhd).
Qed.

(** X3, witness: Alice deletes her message m3 and its attachment. *)
Lemma deleteMessage_keeps_constraints_witness :
  store_consistent Fixtures.db_m3
  ∧ store_consistent
      (DBMessages.deleteMessage "m3" "keyA" None Fixtures.db_m3).1.
Proof.
  split; [exact db_m3_consistent|].
  apply deleteMessage_keeps_constraints, db_m3_consistent.
Defined.

(** What is left after the attachments and the messages of a room are
    deleted. *)
Lemma delete_room_content_rows (roomId : Z) (db : DB) :
  (DBRoom.delete_room_content roomId db).1
  = mkDB (rooms db) (rooms_seq db)
      (filter (λ r, m_room_id r ≠ roomId) (messages db))
      (filter (λ a, a_message_id a ∉ DBRoom.select_message_ids_of_room roomId db)
         (attachments db))
      (attachments_seq db) (blocked_keys db).
Proof.
  unfold DBRoom.delete_room_content.
  destruct (DBRoom.select_message_ids_of_room roomId db) as [|i ids] eqn:Hids;
    cbn; [|done].
  rewrite (filter_all (λ a, a_message_id a ∉ [])); [done|].
  intros a _ Hin. by apply elem_of_nil in Hin.
Qed.

Lemma delete_room_content_consistent (roomId : Z) (db : DB) :
  store_consistent db →
  store_consistent (DBRoom.delete_room_content roomId db).1.
Proof.
  intros []. rewrite delete_room_content_rows. split; cbn; try done.
  - by apply NoDup_fmap_filter.
  - by apply NoDup_fmap_filter.
  - intros r [_ Hr]%list_elem_of_filter. by apply messages_fk0.
  - intros a [Hout Ha]%list_elem_of_filter.
    apply attachments_fk0, list_elem_of_fmap in Ha as (r & Hid & Hr).
    apply list_elem_of_fmap. exists r. split; [done|].
    apply list_elem_of_filter. split; [|done]. intros Hroom. apply Hout.
    rewrite Hid. apply list_elem_of_fmap_2, list_elem_of_filter. done.
  - intros a [_ Ha]%list_elem_of_filter. by apply attachments_serial0.
Qed.

(** The rows of the other rooms survive the deletion of a room's content:
    their messages, and the attachments of those. *)
Lemma delete_room_content_others (roomId : Z) (db : DB) :
  store_consistent db →
  (∀ m, m ∈ messages db → m_room_id m ≠ roomId →
        m ∈ messages (DBRoom.delete_room_content roomId db).1)
  ∧ (∀ a m, a ∈ attachments db → m ∈ messages db →
            a_message_id a = m_id m → m_room_id m ≠ roomId →
            a ∈ attachments (DBRoom.delete_room_content roomId db).1).
Proof.
  intros Hc. rewrite delete_room_content_rows. cbn. split.
  - intros m Hm Hroom. by apply list_elem_of_filter.
  - intros a m Ha Hm Hid Hroom. apply list_elem_of_filter. split; [|done].
    intros Hin. unfold DBRoom.select_message_ids_of_room in Hin.
    apply list_elem_of_fmap in Hin as (m' & Hid' & Hm').
    apply list_elem_of_filter in Hm' as [Hroom' Hm'].
    assert (m = m'); [|congruence].
    apply (NoDup_fmap_eq m_id (messages db)); [by destruct Hc|done|done|congruence].
Qed.

Lemma deleteRoom_absent (roomName : string) (db : DB) :
  DBRoom.select_room_by_name roomName db = None →
  DBRoom.deleteRoom roomName db = (db, false).
Proof. intros Hsel. unfold DBRoom.deleteRoom. by rewrite Hsel. Qed.

Lemma deleteRoom_present (roomName : string) (db : DB) (room : RoomRow) :
  DBRoom.select_room_by_name roomName db = Some room →
  DBRoom.deleteRoom roomName db
  = (mkDB (filter (λ r, room_pk r ≠ room_pk room) (rooms db)) (rooms_seq db)
       (filter (λ r, m_room_id r ≠ room_pk room) (messages db))
       (filter (λ a, a_message_id a
                     ∉ DBRoom.select_message_ids_of_room (room_pk room) db)
          (attachments db))
       (attachments_seq db) (blocked_keys db),
     true).
Proof.
  intros Hsel. unfold DBRoom.deleteRoom. rewrite Hsel.
  pose proof (delete_room_content_rows (room_pk room) db) as Hrows.
  destruct (DBRoom.delete_room_content (room_pk room) db) as [db2 n].
  cbn [fst] in Hrows. subst db2. cbn. f_equal.
  apply bool_decide_eq_true_2.
  apply select_room_by_name_Some in Hsel as [Hroom _].
  assert (Hin : room ∈ filter (λ r, room_pk r = room_pk room) (rooms db))
    by by apply list_elem_of_filter.
  destruct (filter _ (rooms db)); [by apply elem_of_nil in Hin|cbn; lia].
Qed.

(** X4.  [deleteRoom] answers true exactly when a room of that name
    exists; afterwards there is no room of that name, the constraints of
    the schema still hold (no message or attachment of the room is left),
    the other rooms keep their rows, their messages and the attachments of
    those, and a second call answers false and changes nothing. *)
Theorem deleteRoom_removes_room_and_content (roomName : string) (db : DB) :
  store_consistent db →
  let r := DBRoom.deleteRoom roomName db in
  (r.2 = true ↔ roomName ∈ (room_name <$> rooms db))
  ∧ (r.2 = false → r.1 = db)
  ∧ store_consistent r.1
  ∧ (roomName ∉ (room_name <$> rooms r.1))
  ∧ (∀ room, room ∈ rooms db → room_name room ≠ roomName →
       room ∈ rooms r.1
       ∧ ∀ m, m ∈ messages db → m_room_id m = room_pk room →
           m ∈ messages r.1
           ∧ ∀ a, a ∈ attachments db → a_message_id a = m_id m →
               a ∈ attachments r.1)
  ∧ DBRoom.deleteRoom roomName r.1 = (r.1, false).
Proof.
  intros Hc. cbn zeta.
  destruct (DBRoom.select_room_by_name roomName db) as [room|] eqn:Hsel.
  2:{ pose proof (select_room_by_name_None _ _ Hsel) as Hno.
      rewrite (deleteRoom_absent _ _ Hsel). cbn [fst snd].
      split; [by split|]. do 3 (split; [done|]).
      split; [|by apply deleteRoom_absent].
      intros room Hroom _. split; [done|]. intros m Hm _. by split. }
  rewrite (deleteRoom_present _ _ room Hsel). cbn [fst snd].
  apply select_room_by_name_Some in Hsel as [Hroom Hname].
  pose proof (delete_room_content_consistent (room_pk room) db Hc) as Hc2.
  pose proof (delete_room_content_others (room_pk room) db Hc) as [Hmsgs Hatts].
  rewrite delete_room_content_rows in Hc2, Hmsgs, Hatts. cbn in Hmsgs, Hatts.
  assert (Hgone : roomName ∉ (room_name
                    <$> filter (λ r, room_pk r ≠ room_pk room) (rooms db))).
  { intros Hin. apply list_elem_of_fmap in Hin as (room' & Hname' & Hroom').
    apply list_elem_of_filter in Hroom' as [Hpk Hroom']. apply Hpk. f_equal.
    apply (NoDup_fmap_eq room_name (rooms db)); [by destruct Hc|done|done|congruence]. }
  split; [split; [intros _; rewrite <- Hname; by apply list_elem_of_fmap_2|done]|].
  split; [done|]. split.
  { destruct Hc2. cbn in *. split; cbn; try done.
    - by apply NoDup_fmap_filter.
    - by apply NoDup_fmap_filter.
    - intros m Hm. pose proof (messages_fk0 m Hm) as Hfk.
      apply list_elem_of_fmap in Hfk as (room' & Hpk & Hroom').
      apply list_elem_of_fmap. exists room'. split; [done|].
      apply list_elem_of_filter. split; [|done].
      rewrite <- Hpk. by apply list_elem_of_filter in Hm as [? _].
    - intros room' [_ Hroom']%list_elem_of_filter. by apply rooms_serial0. }
  split; [done|]. split.
  { intros room' Hroom' Hname'.
    assert (Hpk : room_pk room' ≠ room_pk room).
    { intros Hpk. apply Hname'. rewrite <- Hname. f_equal.
      apply (NoDup_fmap_eq room_pk (rooms db)); [by destruct Hc|done|done|done]. }
    split; [by apply list_elem_of_filter|].
    intros m Hm Hmroom. split; [apply Hmsgs; [done|congruence]|].
    intros a Ha Hid. apply (Hatts a m); [done|done|done|congruence]. }
  apply deleteRoom_absent. by apply select_room_by_name_absent.
Qed.

(** X4, witness: with r1 and r2 stored, deleting r1 answers true, and
    deleting it again answers false. *)
Lemma deleteRoom_removes_room_and_content_witness :
  store_consistent Fixtures.db_two_rooms
  ∧ (DBRoom.deleteRoom "r1" Fixtures.db_two_rooms).2 = true
  ∧ DBRoom.deleteRoom "r1" (DBRoom.deleteRoom "r1" Fixtures.db_two_rooms).1
    = ((DBRoom.deleteRoom "r1" Fixtures.db_two_rooms).1, false).
Proof.
  split; [exact db_two_rooms_consistent|].
  destruct (deleteRoom_removes_room_and_content "r1" Fixtures.db_two_rooms
              db_two_rooms_consistent)
    as (Htrue & _ & _ & _ & _ & Hagain).
  split; [|exact Hagain].
  apply Htrue. vm_compute. apply elem_of_cons. by left.
Defined.

(** X5.  [wipeRoom] keeps the room row and removes the room's messages
    and their attachments; the constraints of the schema still hold, the
    messages of the other rooms and their attachments are untouched, and
    wiping again changes nothing. *)
Theorem wipeRoom_empties_the_room (roomName : string) (db : DB) :
  store_consistent db →
  let db' := DBRoom.wipeRoom roomName db in
  rooms db' = rooms db
  ∧ store_consistent db'
  ∧ (∀ room m, DBRoom.select_room_by_name roomName db = Some room →
       m ∈ messages db' → m_room_id m ≠ room_pk room)
  ∧ (∀ m, m ∈ messages db →
       (∀ room, DBRoom.select_room_by_name roomName db = Some room →
                m_room_id m ≠ room_pk room) →
       m ∈ messages db'
       ∧ ∀ a, a ∈ attachments db → a_message_id a = m_id m → a ∈ attachments db')
  ∧ DBRoom.wipeRoom roomName db' = db'.
Proof.
  intros Hc. cbn zeta. unfold DBRoom.wipeRoom.
  destruct (DBRoom.select_room_by_name roomName db) as [room|] eqn:Hsel.
  2:{ rewrite Hsel. do 3 (split; [done|]). split; [|done].
      intros m Hm _. by split. }
  pose proof (delete_room_content_consistent (room_pk room) db Hc) as Hc2.
  pose proof (delete_room_content_others (room_pk room) db Hc) as [Hmsgs Hatts].
  pose proof (delete_room_content_rows (room_pk room) db) as Hrows.
  set (db' := (DBRoom.delete_room_content (room_pk room) db).1) in *.
  assert (Hrooms : rooms db' = rooms db) by by rewrite Hrows.
  assert (Hnone : ∀ m, m ∈ messages db' → m_room_id m ≠ room_pk room).
  { rewrite Hrows. cbn. by intros m [? _]%list_elem_of_filter. }
  split; [done|]. split; [done|]. split; [by intros room' m [= <-]; apply Hnone|].
  split.
  { intros m Hm Hother. specialize (Hother room eq_refl).
    split; [by apply Hmsgs|]. intros a Ha Hid. by apply (Hatts a m). }
  assert (DBRoom.select_room_by_name roomName db' = Some room) as ->.
  { unfold DBRoom.select_room_by_name in *. by rewrite Hrooms. }
  rewrite delete_room_content_rows.
  assert (DBRoom.select_message_ids_of_room (room_pk room) db' = []) as ->.
  { unfold DBRoom.select_message_ids_of_room. rewrite filter_none; [done|].
    intros m Hm Hroom. by apply (Hnone m). }
  rewrite (filter_all (λ r, m_room_id r ≠ room_pk room)) by done.
  rewrite (filter_all (λ a, a_message_id a ∉ []));
    [by destruct db'|]. intros a _ Hin. by apply elem_of_nil in Hin.
Qed.

(** X5, witness: wiping r1 in the store with two rooms keeps both room
    rows. *)
Lemma wipeRoom_empties_the_room_witness :
  store_consistent Fixtures.db_two_rooms
  ∧ rooms (DBRoom.wipeRoom "r1" Fixtures.db_two_rooms)
    = rooms Fixtures.db_two_rooms.
Proof.
  split; [exact db_two_rooms_consistent|].
  apply (wipeRoom_empties_the_room "r1" Fixtures.db_two_rooms
           db_two_rooms_consistent).
Defined.

(** ** Persist, then read *)



Section RoundTrip.
Context `{BufferDecoder}.












End RoundTrip.


(** ** Listing a room and fetching what was listed *)




(** ** Attachments *)

(** A column without duplicates selects one row. *)
Lemma filter_key_unique {A B} `{EqDecision B} (f : A → B) (l : list A) (x : A) :
  NoDup (f <$> l) → x ∈ l → filter (λ y, f y = f x) l = [x].
Proof.
  induction l as [|z l IH]; intros Hnd Hx; [by apply elem_of_nil in Hx|].
  cbn in Hnd. apply NoDup_cons in Hnd as [Hz Hnd].
  destruct (decide (f z = f x)) as [Heq|Hne].
  - rewrite filter_cons_True by done.
    assert (z = x) as ->.
    { apply elem_of_cons in Hx as [->|Hx]; [done|].
      exfalso. apply Hz. rewrite Heq. by apply list_elem_of_fmap_2. }
    f_equal. apply filter_none. intros y Hy Hfy. apply Hz. rewrite <- Hfy.
    by apply list_elem_of_fmap_2.
  - rewrite filter_cons_False by done.
    apply elem_of_cons in Hx as [->|Hx]; [done|]. by apply IH.
Qed.

(** X8.  [deleteAttachmentById] answers true exactly when a row has the
    id; afterwards no attachment has that id, every other attachment is
    read as before, messages and rooms are untouched and the constraints
    of the schema still hold.  An id that is not positive names no row. *)
Theorem deleteAttachmentById_removes_the_row (id : Z) (db : DB) :
  store_consistent db →
  ((DBAttachments.deleteAttachmentById id db).2 = true
   ↔ id ∈ (a_id <$> attachments db))
  ∧ DBAttachments.getAttachmentById id
      (DBAttachments.deleteAttachmentById id db).1 = None
  ∧ (∀ id', id' ≠ id →
       DBAttachments.getAttachmentById id'
         (DBAttachments.deleteAttachmentById id db).1
       = DBAttachments.getAttachmentById id' db)
  ∧ messages (DBAttachments.deleteAttachmentById id db).1 = messages db
  ∧ rooms (DBAttachments.deleteAttachmentById id db).1 = rooms db
  ∧ store_consistent (DBAttachments.deleteAttachmentById id db).1.
Proof.
  intros Hc.
  assert (Habsent : id ∉ (a_id <$> attachments db) →
            filter (λ a, a_id a = id) (attachments db) = []).
  { intros Hno. apply filter_none. intros a Ha Hid. apply Hno. rewrite <- Hid.
    by apply list_elem_of_fmap_2. }
  unfold DBAttachments.deleteAttachmentById.
  case_bool_decide as Hpos.
  { assert (Hno : id ∉ (a_id <$> attachments db)).
    { intros (a & -> & Ha)%list_elem_of_fmap.
      destruct Hc. apply attachments_serial0 in Ha. lia. }
    cbn [fst snd]. split; [done|]. split; [|done].
    unfold DBAttachments.getAttachmentById, DBAttachments.select_attachment_by_id.
    by rewrite Habsent. }
  unfold DBAttachments.select_attachment_by_id.
  destruct (head (filter (λ a, a_id a = id) (attachments db))) as [a|] eqn:Hsel.
  2:{ apply head_None in Hsel. cbn [fst snd].
      split.
      { split; [done|]. intros (a & -> & Ha)%list_elem_of_fmap.
        by apply (filter_nil_not_elem_of _ _ a) in Hsel. }
      split; [|done].
      unfold DBAttachments.getAttachmentById,
        DBAttachments.select_attachment_by_id. by rewrite Hsel. }
  pose proof Hsel as Hin. apply head_Some_elem_of in Hin.
  apply list_elem_of_filter in Hin as [Hid Ha].
  unfold DBAttachments.delete_attachment_row. cbn [fst snd].
  apply head_Some in Hsel as (rest & Hsel).
  split.
  { rewrite Hsel. cbn [length]. split.
    - intros _. rewrite <- Hid. by apply list_elem_of_fmap_2.
    - intros _. apply bool_decide_eq_true_2. lia. }
  unfold DBAttachments.getAttachmentById, DBAttachments.select_attachment_by_id.
  cbn [attachments messages rooms].
  split.
  { rewrite list_filter_filter, filter_none; [done|]. by intros x _ [? ?]. }
  split.
  { intros id' Hne. rewrite list_filter_filter.
    assert (filter (λ a, a_id a = id' ∧ a_id a ≠ id) (attachments db)
            = filter (λ a, a_id a = id') (attachments db)) as ->; [|done].
    apply list_filter_iff. intros x.
    split; [by intros [? _]|]. intros Hx. split; [done|congruence]. }
  split; [done|]. split; [done|].
  destruct Hc. split; cbn; try done.
  - by apply NoDup_fmap_filter.
  - intros x [_ Hx]%list_elem_of_filter. by apply attachments_fk0.
  - intros x [_ Hx]%list_elem_of_filter. by apply attachments_serial0.
Qed.

(** X8, witness: the one attachment of the store with m3 has id 1. *)
Lemma deleteAttachmentById_removes_the_row_witness :
  store_consistent Fixtures.db_m3
  ∧ (DBAttachments.deleteAttachmentById 1 Fixtures.db_m3).2 = true
  ∧ DBAttachments.getAttachmentById 1
      (DBAttachments.deleteAttachmentById 1 Fixtures.db_m3).1 = None.
Proof.
  split; [apply db_m3_consistent|].
  destruct (deleteAttachmentById_removes_the_row 1 Fixtures.db_m3
              db_m3_consistent) as (Hok & Hgone & _).
  split; [|exact Hgone]. apply Hok. vm_compute. constructor.
Defined.

Lemma recent_first_sorted (rows : list DBAttachments.RecentRow) :
  StronglySorted (λ x y, m_timestamp y.1.2 ≤ m_timestamp x.1.2)
    (sort_by DBAttachments.recent_first rows).
Proof.
  apply sort_by_sorted; unfold DBAttachments.recent_first.
  - intros a b Hle. by apply Z.leb_le in Hle.
  - intros a b Hle. apply Z.leb_gt in Hle. lia.
  - intros a b c ? ?. lia.
Qed.

Lemma join_attachment_rows (db : DB) (a : AttachmentRow)
    (row : DBAttachments.RecentRow) :
  row ∈ DBAttachments.join_attachment db a →
  row.1.1 = a ∧ row.1.2 ∈ messages db ∧ row.2 ∈ rooms db
  ∧ m_id row.1.2 = a_message_id a ∧ room_pk row.2 = m_room_id row.1.2.
Proof.
  unfold DBAttachments.join_attachment.
  intros (m & Hrow & Hm)%list_elem_of_bind.
  apply list_elem_of_bind in Hrow as (r & Hrow & Hr).
  apply list_elem_of_singleton in Hrow as ->.
  apply list_elem_of_filter in Hm as [? ?].
  by apply list_elem_of_filter in Hr as [? ?].
Qed.

(** X9.  [getRecentAttachments] returns at most [limit] entries, newest
    message first, and each entry describes an attachment of the store
    together with the message that carries it and the room of that
    message; a negative limit gives the empty list. *)
Theorem getRecentAttachments_newest_and_linked (limit : Z) (db : DB) :
  let result := DBAttachments.getRecentAttachments limit db in
  (Z.of_nat (length result) ≤ Z.max 0 limit)
  ∧ StronglySorted
      (λ x y, DBAttachments.ai_timestamp y ≤ DBAttachments.ai_timestamp x)
      result
  ∧ ∀ info, info ∈ result →
      ∃ a m r,
        a ∈ attachments db ∧ m ∈ messages db ∧ r ∈ rooms db
        ∧ a_message_id a = m_id m ∧ m_room_id m = room_pk r
        ∧ DBAttachments.ai_id info = a_id a
        ∧ DBAttachments.ai_name info = a_name a
        ∧ DBAttachments.ai_messageId info = m_id m
        ∧ DBAttachments.ai_sender info = m_sender m
        ∧ DBAttachments.ai_timestamp info = m_timestamp m
        ∧ DBAttachments.ai_roomName info = room_name r.
Proof.
  cbn zeta. unfold DBAttachments.getRecentAttachments.
  case_bool_decide as Hneg.
  { split; [cbn; lia|]. split; [constructor|].
    by intros info Hin; apply elem_of_nil in Hin. }
  set (rows := sort_by DBAttachments.recent_first
                 (attachments db ≫= DBAttachments.join_attachment db)).
  split.
  { rewrite length_fmap, length_take. lia. }
  split.
  { apply (StronglySorted_fmap _
             (λ x y : DBAttachments.RecentRow,
                m_timestamp y.1.2 ≤ m_timestamp x.1.2)).
    - by intros [[a m] r] [[a' m'] r'].
    - pose proof (recent_first_sorted
                    (attachments db ≫= DBAttachments.join_attachment db)) as Hs.
      fold rows in Hs. rewrite <- (take_drop (Z.to_nat limit) rows) in Hs.
      by apply StronglySorted_app_1_l in Hs. }
  intros info (row & -> & Hrow)%list_elem_of_fmap.
  apply subseteq_take, sort_by_elem_of in Hrow.
  apply list_elem_of_bind in Hrow as (a & Hrow & Ha).
  apply join_attachment_rows in Hrow as (Hfst & Hm & Hr & Hmid & Hrid).
  destruct row as [[a' m] r]. cbn in *. subst a'.
  exists a, m, r. by repeat split.
Qed.

Lemma join_attachment_one (db : DB) (a : AttachmentRow) :
  store_consistent db → a ∈ attachments db →
  ∃ m r, DBAttachments.join_attachment db a = [(a, m, r)].
Proof.
  intros Hc Ha. destruct Hc.
  apply attachments_fk0 in Ha as Hm.
  apply list_elem_of_fmap in Hm as (m & Hmid & Hm).
  apply messages_fk0 in Hm as Hr.
  apply list_elem_of_fmap in Hr as (r & Hrid & Hr).
  exists m, r. unfold DBAttachments.join_attachment.
  rewrite Hmid, (filter_key_unique m_id _ m) by done.
  cbn [mbind list_bind]. rewrite Hrid, (filter_key_unique room_pk _ r) by done.
  done.
Qed.

Lemma joined_attachment_ids (db : DB) (l : list AttachmentRow) :
  store_consistent db → (∀ a, a ∈ l → a ∈ attachments db) →
  (DBAttachments.ai_id ∘ DBAttachments.info_of_row)
    <$> (l ≫= DBAttachments.join_attachment db)
  = a_id <$> l.
Proof.
  intros Hc. induction l as [|a l IH]; intros Hl; [done|].
  destruct (join_attachment_one db a Hc) as (m & r & Hone);
    [apply Hl, elem_of_cons; by left|].
  rewrite bind_cons, Hone. cbn. f_equal. apply IH.
  intros a' Ha'. apply Hl, elem_of_cons. by right.
Qed.

(** X10.  Under the constraints of the schema the two inner joins of
    [getRecentAttachments] lose no row: with a limit of at least the
    number of attachments, every attachment is listed, once. *)
Theorem getRecentAttachments_lists_all (limit : Z) (db : DB) :
  store_consistent db →
  Z.of_nat (length (attachments db)) ≤ limit →
  DBAttachments.ai_id <$> DBAttachments.getRecentAttachments limit db
  ≡ₚ a_id <$> attachments db.
Proof.
  intros Hc Hlimit. unfold DBAttachments.getRecentAttachments.
  rewrite bool_decide_eq_false_2 by lia.
  set (rows := attachments db ≫= DBAttachments.join_attachment db).
  assert (Hids : (DBAttachments.ai_id ∘ DBAttachments.info_of_row) <$> rows
                 = a_id <$> attachments db)
    by by apply joined_attachment_ids.
  assert (Hlen : length rows = length (attachments db)).
  { by rewrite <- (length_fmap (DBAttachments.ai_id ∘ DBAttachments.info_of_row)),
      Hids, length_fmap. }
  rewrite take_ge.
  2:{ rewrite (Permutation_length (sort_by_Permutation _ _)), Hlen. lia. }
  rewrite <- list_fmap_compose, <- Hids.
  apply fmap_Permutation, sort_by_Permutation.
Qed.

(** X10, witness: the store with m3 and its one attachment, limit 100. *)
Lemma getRecentAttachments_lists_all_witness :
  store_consistent Fixtures.db_m3
  ∧ Z.of_nat (length (attachments Fixtures.db_m3)) ≤ 100
  ∧ DBAttachments.ai_id <$> DBAttachments.getRecentAttachments 100 Fixtures.db_m3
    ≡ₚ a_id <$> attachments Fixtures.db_m3.
Proof.
  split; [apply db_m3_consistent|]. split; [vm_compute; discriminate|].
  apply (getRecentAttachments_lists_all 100 Fixtures.db_m3).
  - apply db_m3_consistent.
  - vm_compute. discriminate.
Defined.

(** * Further properties of the hub *)
Section Registry.
Context `{WebRTCServer.JoinCrypto}.
Import WebRTCServer.

Lemma participants_set_elem (u : User) (ps : list User) (p : User) :
  p ∈ participants_set u ps → p = u ∨ p ∈ ps.
Proof.
  induction ps as [|q ps IH]; cbn.
  - intros ->%list_elem_of_singleton. by left.
  - case_bool_decide.
    + intros [->|Hp]%elem_of_cons; [by left|].
      right. apply elem_of_cons. by right.
    + intros [->|Hp]%elem_of_cons; [right; by apply elem_of_cons; left|].
      destruct (IH Hp) as [->|?]; [by left|].
      right. apply elem_of_cons. by right.
Qed.

Lemma participants_set_member (u : User) (ps : list User) :
  u ∈ participants_set u ps.
Proof.
  induction ps as [|q ps IH]; cbn; [by apply list_elem_of_singleton|].
  case_bool_decide; apply elem_of_cons; [by left|by right].
Qed.

(** [set] on the participants keeps the keys in their places and adds a
    new key at the end. *)
Lemma participants_set_keys (u : User) (ps : list User) :
  user_publicKey <$> participants_set u ps
  = if bool_decide (user_publicKey u ∈ (user_publicKey <$> ps))
    then user_publicKey <$> ps
    else (user_publicKey <$> ps) ++ [user_publicKey u].
Proof.
  induction ps as [|q ps IH]; cbn.
  - rewrite bool_decide_eq_false_2; [done|].
    by intros Hin; apply elem_of_nil in Hin.
  - destruct (decide (user_publicKey q = user_publicKey u)) as [Heq|Hne].
    + rewrite (bool_decide_eq_true_2 (user_publicKey q = user_publicKey u))
        by done.
      rewrite bool_decide_eq_true_2 by (apply elem_of_cons; by left).
      cbn. by rewrite Heq.
    + rewrite (bool_decide_eq_false_2 (user_publicKey q = user_publicKey u))
        by done.
      cbn. rewrite IH.
      destruct (decide (user_publicKey u ∈ (user_publicKey <$> ps))) as [Hin|Hno].
      * rewrite !bool_decide_eq_true_2; [done|by apply elem_of_cons; right|done].
      * rewrite !bool_decide_eq_false_2; [done| |done].
        intros [?|?]%elem_of_cons; [congruence|done].
Qed.

Lemma participants_set_NoDup (u : User) (ps : list User) :
  NoDup (user_publicKey <$> ps) →
  NoDup (user_publicKey <$> participants_set u ps).
Proof.
  intros Hnd. rewrite participants_set_keys. case_bool_decide; [done|].
  apply NoDup_app. split; [done|]. split; [|apply NoDup_singleton].
  by intros k Hk ->%list_elem_of_singleton.
Qed.

(** The others of a room are not touched by a [set]. *)
Lemma participants_set_others (u : User) (ps : list User) :
  filter (λ p, user_publicKey p ≠ user_publicKey u) (participants_set u ps)
  = filter (λ p, user_publicKey p ≠ user_publicKey u) ps.
Proof.
  induction ps as [|q ps IH]; cbn [participants_set].
  - by rewrite filter_cons_False by (by intros Hne).
  - case_bool_decide as Hq.
    + rewrite !filter_cons_False; [done|by intros Hne..].
    + by rewrite !filter_cons_True, IH by done.
Qed.

(** A join that passes both checks, as one equation. *)
Lemma onJoin_accepted (ws : nat) (msg : WebRTCJoin) (hub : Hub) :
  user_publicKey (join_user msg) ≠ "" → verifyJoinSignature msg = true →
  onJoin ws msg hub
  = (mkHub (wss_clients hub)
       (<[ws := mkClientInfo (join_room msg) (join_user msg)]> (clientsMap hub))
       (<[join_room msg :=
            participants_set (join_user msg) (participants_of hub (join_room msg))]>
          (roomsMap hub)),
     [(ws, FRoomInfo (join_room msg)
             (filter (λ p, user_publicKey p ≠ user_publicKey (join_user msg))
                (participants_of hub (join_room msg))))]).
Proof.
  intros Hkey Hsig. unfold onJoin, truthy, participants_of.
  rewrite bool_decide_eq_false_2 by done. cbn [negb]. rewrite Hsig. cbn [negb].
  unfold getOrCreateRoom. cbn [roomsMap clientsMap wss_clients].
  destruct (roomsMap hub !! join_room msg) as [ps|]; cbn.
  - by rewrite participants_set_others.
  - rewrite insert_insert_eq. by rewrite decide_False by (by intros Hne).
Qed.

Lemma onJoin_rejected (ws : nat) (msg : WebRTCJoin) (hub : Hub) :
  user_publicKey (join_user msg) = "" ∨ verifyJoinSignature msg = false →
  onJoin ws msg hub = (hub, []).
Proof.
  unfold onJoin, truthy. intros [Hkey|Hsig].
  - by rewrite bool_decide_eq_true_2.
  - case_bool_decide; [done|]. cbn [negb]. by rewrite Hsig.
Qed.

(** X11.  A join with a key and a good signature registers the connection
    under the room and user of the frame, lists the user in that room, and
    answers the joiner alone, with the participants the room had before
    other than those under the joiner's key; other connections and other
    rooms are as before.  A join without a key or with a bad signature
    changes nothing and gets no answer. *)
Theorem onJoin_answers_with_the_others (ws : nat) (msg : WebRTCJoin) (hub : Hub) :
  (user_publicKey (join_user msg) ≠ "" → verifyJoinSignature msg = true →
   (onJoin ws msg hub).2
   = [(ws, FRoomInfo (join_room msg)
             (filter (λ p, user_publicKey p ≠ user_publicKey (join_user msg))
                (participants_of hub (join_room msg))))]
   ∧ clientsMap (onJoin ws msg hub).1 !! ws
     = Some (mkClientInfo (join_room msg) (join_user msg))
   ∧ join_user msg ∈ participants_of (onJoin ws msg hub).1 (join_room msg)
   ∧ (∀ p, p ∈ participants_of hub (join_room msg) →
        user_publicKey p ≠ user_publicKey (join_user msg) →
        p ∈ participants_of (onJoin ws msg hub).1 (join_room msg))
   ∧ (∀ ws', ws' ≠ ws →
        clientsMap (onJoin ws msg hub).1 !! ws' = clientsMap hub !! ws')
   ∧ (∀ room, room ≠ join_room msg →
        roomsMap (onJoin ws msg hub).1 !! room = roomsMap hub !! room))
  ∧ (user_publicKey (join_user msg) = "" ∨ verifyJoinSignature msg = false →
     onJoin ws msg hub = (hub, [])).
Proof.
  split; [|apply onJoin_rejected].
  intros Hkey Hsig. rewrite (onJoin_accepted ws msg hub Hkey Hsig).
  unfold participants_of. cbn [fst snd clientsMap roomsMap].
  rewrite !lookup_insert_eq. cbn [default].
  split; [done|]. split; [done|].
  split; [apply participants_set_member|].
  split.
  { intros p Hp Hne.
    assert (Hin : p ∈ filter (λ p, user_publicKey p ≠ user_publicKey (join_user msg))
                    (participants_set (join_user msg)
                       (default [] (roomsMap hub !! join_room msg)))).
    { rewrite participants_set_others. by apply list_elem_of_filter. }
    by apply list_elem_of_filter in Hin as [_ ?]. }
  split.
  - intros ws' Hne. by rewrite lookup_insert_ne.
  - intros room Hne. by rewrite lookup_insert_ne.
Qed.

Lemma participants_delete_keys (key : string) (ps : list User) :
  user_publicKey <$> participants_delete key ps
  = filter (λ k, k ≠ key) (user_publicKey <$> ps).
Proof.
  unfold participants_delete. induction ps as [|p ps IH]; [done|].
  cbn [fmap list_fmap]. rewrite !filter_cons.
  destruct (decide (user_publicKey p ≠ key)); cbn; by rewrite IH.
Qed.

(** What [onClose] leaves in the rooms map for a registered connection. *)
Lemma onClose_rooms (ws : nat) (hub : Hub) (clientInfo : ClientInfo) :
  clientsMap hub !! ws = Some clientInfo →
  clientsMap (onClose ws hub).1 = delete ws (clientsMap hub)
  ∧ wss_clients (onClose ws hub).1 = wss_clients hub
  ∧ roomsMap (onClose ws hub).1
    = match roomsMap hub !! ci_room clientInfo with
      | Some roomInfo =>
          match participants_delete (user_publicKey (ci_user clientInfo)) roomInfo with
          | [] => delete (ci_room clientInfo) (roomsMap hub)
          | remaining => <[ci_room clientInfo := remaining]> (roomsMap hub)
          end
      | None => roomsMap hub
      end.
Proof.
  intros Hreg. unfold onClose. rewrite Hreg.
  destruct (roomsMap hub !! ci_room clientInfo) as [roomInfo|]; [|done].
  by destruct (participants_delete _ roomInfo).
Qed.

Lemma onClose_unknown (ws : nat) (hub : Hub) :
  clientsMap hub !! ws = None → onClose ws hub = (hub, []).
Proof. intros Hreg. unfold onClose. by rewrite Hreg. Qed.

Lemma onJoin_well_formed (ws : nat) (msg : WebRTCJoin) (hub : Hub) :
  registry_well_formed hub → registry_well_formed (onJoin ws msg hub).1.
Proof.
  intros [Hrooms Hclients].
  destruct (decide (user_publicKey (join_user msg) = "")) as [Hkey|Hkey].
  { rewrite onJoin_rejected by (by left). done. }
  destruct (verifyJoinSignature msg) eqn:Hsig.
  2:{ rewrite onJoin_rejected by (by right). done. }
  rewrite (onJoin_accepted ws msg hub Hkey Hsig). cbn [fst].
  split; cbn [roomsMap clientsMap].
  - intros room ps. destruct (decide (room = join_room msg)) as [->|Hne].
    + rewrite lookup_insert_eq. intros [= <-]. unfold participants_of.
      assert (Hold : NoDup (user_publicKey
                              <$> default [] (roomsMap hub !! join_room msg))
                     ∧ ∀ p, p ∈ default [] (roomsMap hub !! join_room msg) →
                            user_publicKey p ≠ "").
      { destruct (roomsMap hub !! join_room msg) as [ps|] eqn:Hps; cbn.
        - by destruct (Hrooms _ _ Hps) as (_ & ? & ?).
        - split; [apply NoDup_nil_2|]. by intros p Hp; apply elem_of_nil in Hp. }
      destruct Hold as [Hnd Hkeys]. split.
      { intros Hnil. pose proof (participants_set_member (join_user msg)
          (default [] (roomsMap hub !! join_room msg))) as Hin.
        rewrite Hnil in Hin. by apply elem_of_nil in Hin. }
      split; [by apply participants_set_NoDup|].
      intros p [->|Hp]%participants_set_elem; [done|by apply Hkeys].
    + rewrite lookup_insert_ne by done. apply Hrooms.
  - intros ws' clientInfo. destruct (decide (ws' = ws)) as [->|Hne].
    + rewrite lookup_insert_eq. by intros [= <-].
    + rewrite lookup_insert_ne by done. apply Hclients.
Qed.

Lemma onClose_well_formed (ws : nat) (hub : Hub) :
  registry_well_formed hub → registry_well_formed (onClose ws hub).1.
Proof.
  intros [Hrooms Hclients].
  destruct (clientsMap hub !! ws) as [clientInfo|] eqn:Hreg.
  2:{ by rewrite onClose_unknown. }
  destruct (onClose_rooms ws hub clientInfo Hreg) as (Hc & _ & Hr).
  split.
  - rewrite Hr. clear Hr Hc.
    destruct (roomsMap hub !! ci_room clientInfo) as [roomInfo|] eqn:Hroom;
      [|done].
    destruct (participants_delete _ roomInfo) as [|p rest] eqn:Hdel.
    + intros room ps [_ Hps]%lookup_delete_Some. by apply Hrooms in Hps.
    + intros room ps. destruct (decide (room = ci_room clientInfo)) as [->|Hne].
      * rewrite lookup_insert_eq. intros [= <-].
        destruct (Hrooms _ _ Hroom) as (_ & Hnd & Hkeys).
        split; [done|]. rewrite <- Hdel. split.
        -- unfold participants_delete. by apply NoDup_fmap_filter.
        -- intros q [_ Hq]%list_elem_of_filter. by apply Hkeys.
      * rewrite lookup_insert_ne by done. apply Hrooms.
  - rewrite Hc. intros ws' clientInfo' [_ Hc']%lookup_delete_Some.
    by apply Hclients in Hc'.
Qed.

Lemma hub_after_well_formed (hub : Hub) (events : list Event) :
  registry_well_formed hub →
  registry_well_formed (foldl hub_after hub events).
Proof.
  revert hub. induction events as [|e events IH]; intros hub Hwf; [done|].
  cbn [foldl]. apply IH.
  destruct e as [ws|ws msg|ws msg|ws msg|ws]; cbn [hub_after]; try done.
  - by apply onJoin_well_formed.
  - by apply onClose_well_formed.
Qed.

Lemma emptyHub_well_formed : registry_well_formed emptyHub.
Proof.
  unfold emptyHub.
  split; intros ? ? Hin; cbn [roomsMap clientsMap] in Hin;
    by rewrite lookup_empty in Hin.
Qed.

(** X12.  Whatever the connections do, the room registry stays well
    formed: after any sequence of connection events, frames and close
    events, starting from a hub without clients or rooms, no room is kept
    without participants, no room lists the same key twice, and no listed
    or registered key is empty. *)
Theorem registry_stays_well_formed (events : list Event) :
  registry_well_formed (foldl hub_after emptyHub events).
Proof. apply hub_after_well_formed, emptyHub_well_formed. Qed.

Lemma onClose_each_live (hub : Hub) (room : string) (payload : WebRTCUserLeft)
    (cws : WebSocket) :
  onClose_each hub room payload cws
  = if live_member hub room cws then Some (ws_id cws, payload) else None.
Proof.
  unfold onClose_each, live_member, registered_in.
  destruct (clientsMap hub !! ws_id cws) as [clientInfo|]; [done|].
  by rewrite andb_false_r.
Qed.

Lemma onClose_participants (ws : nat) (hub : Hub) (clientInfo : ClientInfo) :
  clientsMap hub !! ws = Some clientInfo →
  participants_of (onClose ws hub).1 (ci_room clientInfo)
  = participants_delete (user_publicKey (ci_user clientInfo))
      (participants_of hub (ci_room clientInfo)).
Proof.
  intros Hreg. destruct (onClose_rooms ws hub clientInfo Hreg) as (_ & _ & Hr).
  unfold participants_of. rewrite Hr.
  destruct (roomsMap hub !! ci_room clientInfo) as [roomInfo|] eqn:Hroom; cbn.
  - destruct (participants_delete _ roomInfo) as [|p rest] eqn:Hdel.
    + by rewrite lookup_delete_eq.
    + by rewrite lookup_insert_eq.
  - by rewrite Hroom.
Qed.

(** X13.  When a registered connection closes, its entry is removed, its
    user's key is taken out of the participants of its room, and, unless
    that leaves the room without participants, every live member of the
    room is sent the user-left frame; other connections and other rooms
    are as before.  The close of a connection that never joined changes
    nothing. *)
Theorem onClose_notifies_those_left (ws : nat) (hub : Hub) :
  (∀ clientInfo, clientsMap hub !! ws = Some clientInfo →
     clientsMap (onClose ws hub).1 !! ws = None
     ∧ (∀ ws', ws' ≠ ws →
          clientsMap (onClose ws hub).1 !! ws' = clientsMap hub !! ws')
     ∧ participants_of (onClose ws hub).1 (ci_room clientInfo)
       = filter (λ p, user_publicKey p ≠ user_publicKey (ci_user clientInfo))
           (participants_of hub (ci_room clientInfo))
     ∧ (∀ room, room ≠ ci_room clientInfo →
          roomsMap (onClose ws hub).1 !! room = roomsMap hub !! room)
     ∧ (onClose ws hub).2
       = match participants_of (onClose ws hub).1 (ci_room clientInfo) with
         | [] => []
         | _ =>
             (λ cws, (ws_id cws,
                      mkUserLeft (ci_user clientInfo) (ci_room clientInfo)))
               <$> filter (λ cws, live_member hub (ci_room clientInfo) cws)
                     (wss_clients hub)
         end)
  ∧ (clientsMap hub !! ws = None → onClose ws hub = (hub, [])).
Proof.
  split; [|apply onClose_unknown].
  intros clientInfo Hreg.
  destruct (onClose_rooms ws hub clientInfo Hreg) as (Hc & _ & Hr).
  split; [by rewrite Hc, lookup_delete_eq|].
  split; [by intros ws' Hne; rewrite Hc, lookup_delete_ne|].
  split; [by apply onClose_participants|].
  split.
  { intros room Hne. rewrite Hr.
    destruct (roomsMap hub !! ci_room clientInfo) as [roomInfo|]; [|done].
    destruct (participants_delete _ roomInfo).
    - by rewrite lookup_delete_ne.
    - by rewrite lookup_insert_ne. }
  rewrite (onClose_participants ws hub clientInfo Hreg).
  clear Hc Hr. unfold onClose, participants_of. rewrite Hreg.
  destruct (roomsMap hub !! ci_room clientInfo) as [roomInfo|]; [|done].
  change (default [] (Some roomInfo)) with roomInfo.
  destruct (participants_delete _ roomInfo) as [|p rest]; [done|].
  cbn [snd].
  rewrite (omap_guard _ (live_member hub (ci_room clientInfo))
             (λ cws, (ws_id cws,
                      mkUserLeft (ci_user clientInfo) (ci_room clientInfo)))).
  - done.
  - intros cws. apply onClose_each_live.
Qed.

Lemma participants_set_new (u : User) (ps : list User) :
  user_publicKey u ∉ (user_publicKey <$> ps) →
  participants_set u ps = ps ++ [u].
Proof.
  induction ps as [|q ps IH]; intros Hnew; [done|].
  cbn [participants_set]. rewrite bool_decide_eq_false_2.
  - cbn. rewrite IH; [done|]. intros Hin. apply Hnew. cbn.
    apply elem_of_cons. by right.
  - intros Heq. apply Hnew. cbn. apply elem_of_cons. by left.
Qed.

(** X14.  Join, then close: when the hub is well formed, the connection
    was not registered and the room does not list the joiner's key, the
    close that follows an accepted join gives back the hub as it was
    before the join. *)
Theorem join_then_close_restores (ws : nat) (msg : WebRTCJoin) (hub : Hub) :
  user_publicKey (join_user msg) ≠ "" → verifyJoinSignature msg = true →
  registry_well_formed hub →
  clientsMap hub !! ws = None →
  user_publicKey (join_user msg)
    ∉ (user_publicKey <$> participants_of hub (join_room msg)) →
  (onClose ws (onJoin ws msg hub).1).1 = hub.
Proof.
  intros Hkey Hsig [Hrooms _] Hfree Hnew.
  rewrite (onJoin_accepted ws msg hub Hkey Hsig). cbn [fst].
  rewrite (participants_set_new _ _ Hnew).
  set (hub1 := mkHub _ _ _).
  assert (Hreg : clientsMap hub1 !! ws
                 = Some (mkClientInfo (join_room msg) (join_user msg)))
    by apply lookup_insert_eq.
  destruct (onClose_rooms ws hub1 _ Hreg) as (Hc & Hw & Hr).
  destruct (onClose ws hub1).1 as [w' c' r']. cbn in Hc, Hw, Hr.
  destruct hub as [w c r]. cbn in *. subst w' c'. f_equal.
  { by apply delete_insert_id. }
  rewrite Hr, lookup_insert_eq. unfold participants_of, participants_delete in *.
  cbn in *. rewrite filter_app, filter_cons_False, filter_nil, app_nil_r
    by (by intros Hne).
  rewrite filter_all.
  2:{ intros p Hp Heq. apply Hnew. rewrite <- Heq.
      by apply list_elem_of_fmap_2. }
  destruct (r !! join_room msg) as [ps|] eqn:Hps; cbn.
  - destruct ps as [|p rest]; [by destruct (Hrooms _ _ Hps) as [? _]|].
    by rewrite insert_insert_eq, insert_id.
  - by apply delete_insert_id.
Qed.

(** X15.  A second join on the same connection, to another room, does not
    take the user out of the first room: after the connection has closed
    it is registered nowhere, and the first room still lists its user. *)
Theorem rejoin_leaves_the_first_room_listed (ws : nat) (msg1 msg2 : WebRTCJoin)
    (hub : Hub) :
  user_publicKey (join_user msg1) ≠ "" → verifyJoinSignature msg1 = true →
  user_publicKey (join_user msg2) ≠ "" → verifyJoinSignature msg2 = true →
  join_room msg1 ≠ join_room msg2 →
  clientsMap (onClose ws (onJoin ws msg2 (onJoin ws msg1 hub).1).1).1 !! ws
  = None
  ∧ join_user msg1
    ∈ participants_of (onClose ws (onJoin ws msg2 (onJoin ws msg1 hub).1).1).1
        (join_room msg1).
Proof.
  intros Hkey1 Hsig1 Hkey2 Hsig2 Hne.
  rewrite (onJoin_accepted ws msg1 hub Hkey1 Hsig1). cbn [fst].
  set (hub1 := mkHub _ _ _).
  rewrite (onJoin_accepted ws msg2 hub1 Hkey2 Hsig2). cbn [fst].
  set (hub2 := mkHub _ _ _).
  assert (Hreg : clientsMap hub2 !! ws
                 = Some (mkClientInfo (join_room msg2) (join_user msg2)))
    by apply lookup_insert_eq.
  destruct (onClose_rooms ws hub2 _ Hreg) as (Hc & _ & Hr).
  split; [by rewrite Hc, lookup_delete_eq|].
  unfold participants_of. rewrite Hr. cbn [ci_room ci_user].
  assert (Hfirst : ∀ rooms' : gmap string (list User),
            rooms' !! join_room msg1 = roomsMap hub2 !! join_room msg1 →
            join_user msg1 ∈ default [] (rooms' !! join_room msg1)).
  { intros rooms' ->. unfold hub2, hub1. cbn [roomsMap].
    rewrite lookup_insert_ne, lookup_insert_eq by done. cbn [default].
    apply participants_set_member. }
  destruct (roomsMap hub2 !! join_room msg2) as [roomInfo|]; [|by apply Hfirst].
  destruct (participants_delete _ roomInfo); apply Hfirst.
  - by apply lookup_delete_ne.
  - by apply lookup_insert_ne.
Qed.

(** X16.  A signaling frame is forwarded with the user and room its
    connection joined with, whatever sender and room the frame named, and
    only to open connections registered under the target's key; a frame
    without a target, or from a connection that has not joined, is
    dropped. *)
Theorem onSignaling_stamps_the_sender (ws : nat) (msg : WebRTCSignal) (hub : Hub) :
  (∀ p, p ∈ onSignaling ws msg hub →
     ∃ fromClientInfo target cws,
       clientsMap hub !! ws = Some fromClientInfo
       ∧ sig_target msg = Some target
       ∧ cws ∈ wss_clients hub ∧ ws_id cws = p.1 ∧ is_open cws = true
       ∧ key_of hub cws = Some (user_publicKey target)
       ∧ p.2 = FSignal (mkSignal (sig_type msg) (sig_id msg) (sig_body msg)
                          (sig_target msg) (ci_room fromClientInfo)
                          (Some (ci_user fromClientInfo))
                          (sig_publicKey msg) (sig_signature msg)))
  ∧ (sig_target msg = None → onSignaling ws msg hub = [])
  ∧ (clientsMap hub !! ws = None → onSignaling ws msg hub = []).
Proof.
  unfold onSignaling. split; [|split].
  - destruct (sig_target msg) as [target|];
      [|by intros p Hp; apply elem_of_nil in Hp].
    destruct (clientsMap hub !! ws) as [fromClientInfo|];
      [|by intros p Hp; apply elem_of_nil in Hp].
    intros p (cws & Hcws & Hsent)%list_elem_of_omap.
    exists fromClientInfo, target, cws. unfold key_of.
    destruct (clientsMap hub !! ws_id cws) as [clientInfo|]; [|done].
    destruct (is_open cws) eqn:Hopen; [|done].
    unfold signaling_match in Hsent. cbn [andb] in Hsent.
    rewrite (bool_decide_eq_true_2 (ci_room clientInfo = ci_room clientInfo))
      in Hsent by done.
    cbn [andb] in Hsent. case_bool_decide as Hkey; [|done].
    injection Hsent as <-. cbn. by rewrite Hkey.
  - by intros ->.
  - intros ->. by destruct (sig_target msg).
Qed.

End Registry.

(** X11, witness: Bob joins r1, where Alice is. *)
Lemma onJoin_answers_with_the_others_witness :
  user_publicKey Fixtures.bob ≠ ""
  ∧ (@WebRTCServer.onJoin Fixtures.joinCrypto 2
       (WebRTCServer.mkJoin "r1" Fixtures.bob (Some "sig:join"))
       (WebRTCServer.connect 2
          (Fixtures.join 1 "r1" Fixtures.alice WebRTCServer.emptyHub))).2
    = [(2%nat, WebRTCServer.FRoomInfo "r1" [Fixtures.alice])].
Proof.
  split; [done|].
  destruct (@onJoin_answers_with_the_others Fixtures.joinCrypto 2
              (WebRTCServer.mkJoin "r1" Fixtures.bob (Some "sig:join"))
              (WebRTCServer.connect 2
                 (Fixtures.join 1 "r1" Fixtures.alice WebRTCServer.emptyHub)))
    as [Haccepted _].
  destruct Haccepted as (Hsent & _); [done|reflexivity|].
  rewrite Hsent. reflexivity.
Defined.

(** X13, witness: Alice's connection closes and Bob is told. *)
Lemma onClose_notifies_those_left_witness :
  WebRTCServer.clientsMap (WebRTCServer.mark_closed 1 Fixtures.hub_r1) !! 1%nat
  = Some (WebRTCServer.mkClientInfo "r1" Fixtures.alice)
  ∧ (WebRTCServer.onClose 1 (WebRTCServer.mark_closed 1 Fixtures.hub_r1)).2
    = [(2%nat, WebRTCServer.mkUserLeft Fixtures.alice "r1")].
Proof.
  split; [reflexivity|].
  destruct (onClose_notifies_those_left 1
              (WebRTCServer.mark_closed 1 Fixtures.hub_r1)) as [Hregistered _].
  destruct (Hregistered (WebRTCServer.mkClientInfo "r1" Fixtures.alice) eq_refl)
    as (_ & _ & _ & _ & Hsent).
  rewrite Hsent. reflexivity.
Defined.

(** X14, witness: Bob joins r1, where Alice is, and leaves again. *)
Lemma join_then_close_restores_witness :
  registry_well_formed
    (WebRTCServer.connect 2
       (Fixtures.join 1 "r1" Fixtures.alice WebRTCServer.emptyHub))
  ∧ (WebRTCServer.onClose 2
       (@WebRTCServer.onJoin Fixtures.joinCrypto 2
          (WebRTCServer.mkJoin "r1" Fixtures.bob (Some "sig:join"))
          (WebRTCServer.connect 2
             (Fixtures.join 1 "r1" Fixtures.alice WebRTCServer.emptyHub))).1).1
    = WebRTCServer.connect 2
        (Fixtures.join 1 "r1" Fixtures.alice WebRTCServer.emptyHub).
Proof.
  assert (Hwf : registry_well_formed
                  (WebRTCServer.connect 2
                     (Fixtures.join 1 "r1" Fixtures.alice WebRTCServer.emptyHub))).
  { exact (@hub_after_well_formed Fixtures.joinCrypto WebRTCServer.emptyHub
             [WebRTCServer.Connection 1;
              WebRTCServer.JoinFrame 1
                (WebRTCServer.mkJoin "r1" Fixtures.alice (Some "sig:join"));
              WebRTCServer.Connection 2]
             emptyHub_well_formed). }
  split; [exact Hwf|].
  apply (@join_then_close_restores Fixtures.joinCrypto 2
           (WebRTCServer.mkJoin "r1" Fixtures.bob (Some "sig:join"))
           (WebRTCServer.connect 2
              (Fixtures.join 1 "r1" Fixtures.alice WebRTCServer.emptyHub))).
  - done.
  - reflexivity.
  - exact Hwf.
  - reflexivity.
  - intros Hin. vm_compute in Hin.
    apply list_elem_of_singleton in Hin. discriminate Hin.
Defined.

(** X15, witness: Alice joins r1 and then r2 on one connection, which
    then closes. *)
Lemma rejoin_leaves_the_first_room_listed_witness :
  Fixtures.alice
  ∈ participants_of
      (WebRTCServer.onClose 1
         (@WebRTCServer.onJoin Fixtures.joinCrypto 1
            (WebRTCServer.mkJoin "r2" Fixtures.alice (Some "sig:join"))
            (@WebRTCServer.onJoin Fixtures.joinCrypto 1
               (WebRTCServer.mkJoin "r1" Fixtures.alice (Some "sig:join"))
               (WebRTCServer.connect 1 WebRTCServer.emptyHub)).1).1).1
      "r1".
Proof.
  destruct (@rejoin_leaves_the_first_room_listed Fixtures.joinCrypto 1
              (WebRTCServer.mkJoin "r1" Fixtures.alice (Some "sig:join"))
              (WebRTCServer.mkJoin "r2" Fixtures.alice (Some "sig:join"))
              (WebRTCServer.connect 1 WebRTCServer.emptyHub))
    as [_ Hlisted]; [done|reflexivity|done|reflexivity|done|].
  exact Hlisted.
Defined.

(** X16, witness: on Alice's connection, an offer to Bob's key that names
    room r9 and Carol as its sender reaches Bob's connection as an offer
    from Alice in r1. *)
Lemma onSignaling_stamps_the_sender_witness :
  (2%nat,
   WebRTCServer.FSignal
     (WebRTCServer.mkSignal WebRTCServer.offer "o1" "sdp" (Some Fixtures.bob)
        "r1" (Some Fixtures.alice) None None))
  ∈ WebRTCServer.onSignaling 1
      (WebRTCServer.mkSignal WebRTCServer.offer "o1" "sdp" (Some Fixtures.bob)
         "r9" (Some Fixtures.carol) None None)
      Fixtures.hub_r1
  ∧ ∃ fromClientInfo,
      WebRTCServer.clientsMap Fixtures.hub_r1 !! 1%nat = Some fromClientInfo
      ∧ WebRTCServer.ci_user fromClientInfo = Fixtures.alice.
Proof.
  assert (Hin :
    (2%nat,
     WebRTCServer.FSignal
       (WebRTCServer.mkSignal WebRTCServer.offer "o1" "sdp" (Some Fixtures.bob)
          "r1" (Some Fixtures.alice) None None))
    ∈ WebRTCServer.onSignaling 1
        (WebRTCServer.mkSignal WebRTCServer.offer "o1" "sdp" (Some Fixtures.bob)
           "r9" (Some Fixtures.carol) None None)
        Fixtures.hub_r1).
  { vm_compute. constructor. }
  split; [exact Hin|].
  destruct (onSignaling_stamps_the_sender 1
              (WebRTCServer.mkSignal WebRTCServer.offer "o1" "sdp"
                 (Some Fixtures.bob) "r9" (Some Fixtures.carol) None None)
              Fixtures.hub_r1) as (Hsent & _).
  destruct (Hsent _ Hin)
    as (fromClientInfo & target & cws & Hfrom & _ & _ & _ & _ & _ & Hframe).
  exists fromClientInfo. split; [exact Hfrom|].
  apply (f_equal (λ frame, match frame with
                           | WebRTCServer.FSignal s => WebRTCServer.sig_sender s
                           | _ => None
                           end)) in Hframe.
  cbn in Hframe. by injection Hframe as <-.
Defined.

(** ** The broadcast pipeline, accepted frames *)
Section AcceptedBroadcast.
Context `{Crypto} `{BufferDecoder} `{DBUsers}.
Import WebRTCServer.




End AcceptedBroadcast.


(** A frame that is acknowledged and relayed although nothing is stored:
    the timestamp of Alice's message is 2^63, outside [BIGINT]. *)
Example onBroadcast_unstorable_acked_and_relayed :
  @WebRTCServer.onBroadcast Fixtures.crypto Fixtures.decoder Fixtures.users 1
    (WebRTCServer.mkBroadcast "r1"
       (Fixtures.message "m1" 9223372036854775808 Fixtures.alice "hi") None)
    Fixtures.hub_r1 emptyDB
  = (mkDB [] 1 [] [] 0 [],
     [(1%nat, WebRTCServer.FAck "m1");
      (2%nat,
       WebRTCServer.FBroadcast
         (WebRTCServer.mkBroadcast "r1"
            (Fixtures.saved
               (Fixtures.message "m1" 9223372036854775808 Fixtures.alice "hi"))
            (Some Fixtures.alice)))]).
Proof. by vm_compute. Qed.


(** * Further properties of the client *)

(** ** The retention window *)

Lemma retention_days_at_least_two (gs : ChatGlobalState) :
  2 ≤ AppRooms.retention_days gs.
Proof. unfold AppRooms.retention_days. repeat case_bool_decide; lia. Qed.

Lemma cleanRoomMessages_window (gs : ChatGlobalState) (now : Z)
    (roomMessages : list ChatMessage) :
  (AppRooms.cleanRoomMessages gs now roomMessages).1
  = filter (λ msg, now - msg_timestamp msg
                   < AppRooms.retention_days gs * 24 * 60 * 60 * 1000)
      roomMessages.
Proof.
  unfold AppRooms.cleanRoomMessages. cbn zeta.
  case_bool_decide as Hold; [done|].
  cbn [fst]. symmetry. apply filter_all. intros msg Hmsg.
  destruct (decide (now - msg_timestamp msg
                    < AppRooms.retention_days gs * 24 * 60 * 60 * 1000))
    as [|Hge]; [done|].
  exfalso. apply Hold, Exists_exists. exists msg. split; [done|lia].
Qed.

Lemma cleanRoomMessages_again (gs : ChatGlobalState) (now : Z)
    (roomMessages : list ChatMessage) :
  AppRooms.cleanRoomMessages gs now
    (AppRooms.cleanRoomMessages gs now roomMessages).1
  = ((AppRooms.cleanRoomMessages gs now roomMessages).1, false).
Proof.
  rewrite cleanRoomMessages_window. unfold AppRooms.cleanRoomMessages. cbn zeta.
  rewrite bool_decide_eq_false_2; [done|].
  intros (msg & Hmsg & Hge)%Exists_exists.
  apply list_elem_of_filter in Hmsg as [Hlt _]. lia.
Qed.

(** X18.  [cleanRoomMessages] keeps exactly the messages younger than the
    retention window, in their order; it reports true exactly when it
    removed something; a message younger than two days is kept whatever
    the setting; and cleaning again at the same time removes nothing. *)
Theorem cleanRoomMessages_keeps_the_window (gs : ChatGlobalState) (now : Z)
    (roomMessages : list ChatMessage) :
  (AppRooms.cleanRoomMessages gs now roomMessages).1
  = filter (λ msg, now - msg_timestamp msg
                   < AppRooms.retention_days gs * 24 * 60 * 60 * 1000)
      roomMessages
  ∧ ((AppRooms.cleanRoomMessages gs now roomMessages).2 = true
     ↔ (AppRooms.cleanRoomMessages gs now roomMessages).1 ≠ roomMessages)
  ∧ (∀ msg, msg ∈ roomMessages →
       now - msg_timestamp msg < 2 * 24 * 60 * 60 * 1000 →
       msg ∈ (AppRooms.cleanRoomMessages gs now roomMessages).1)
  ∧ AppRooms.cleanRoomMessages gs now
      (AppRooms.cleanRoomMessages gs now roomMessages).1
    = ((AppRooms.cleanRoomMessages gs now roomMessages).1, false).
Proof.
  split; [apply cleanRoomMessages_window|].
  split; [|split; [|apply cleanRoomMessages_again]].
  - unfold AppRooms.cleanRoomMessages. cbn zeta.
    case_bool_decide as Hold; cbn [fst snd].
    + split; [intros _|done]. intros Heq.
      apply Exists_exists in Hold as (msg & Hmsg & Hge).
      rewrite <- Heq in Hmsg. apply list_elem_of_filter in Hmsg as [Hlt _]. lia.
    + split; [done|]. by intros Hne.
  - rewrite cleanRoomMessages_window. intros msg Hmsg Hyoung.
    apply list_elem_of_filter. split; [|done].
    pose proof (retention_days_at_least_two gs). lia.
Qed.

(** X19.  [runRoomCleanup] keeps every stored room and leaves in each the
    messages younger than the retention window; a second run at the same
    time changes nothing. *)
Theorem runRoomCleanup_cleans_every_room (gs : ChatGlobalState) (now : Z)
    (idb : gmap string (list ChatMessage)) :
  (∀ room,
     AppRooms.runRoomCleanup gs now idb !! room
     = filter (λ msg, now - msg_timestamp msg
                      < AppRooms.retention_days gs * 24 * 60 * 60 * 1000)
         <$> idb !! room)
  ∧ AppRooms.runRoomCleanup gs now (AppRooms.runRoomCleanup gs now idb)
    = AppRooms.runRoomCleanup gs now idb.
Proof.
  unfold AppRooms.runRoomCleanup. split.
  - intros room. rewrite lookup_fmap.
    destruct (idb !! room) as [roomMessages|]; [|done].
    cbn. by rewrite cleanRoomMessages_window.
  - rewrite <- map_fmap_compose. apply map_fmap_ext. intros room roomMessages _.
    cbn. by rewrite cleanRoomMessages_again.
Qed.

(** ** The local store and the message list *)

Lemma saveMessages_idb_lookup (roomName : string) (msgs : list ChatMessage)
    (idb : gmap string (list ChatMessage)) :
  (roomName ≠ "" →
   AppMessages.saveMessages_idb roomName msgs idb !! roomName = Some msgs)
  ∧ (∀ room, room ≠ roomName →
       AppMessages.saveMessages_idb roomName msgs idb !! room = idb !! room).
Proof.
  unfold AppMessages.saveMessages_idb, AppMessages.saveMessages, truthy. split.
  - intros Hname. rewrite lookup_partial_alter, decide_True by done.
    by rewrite bool_decide_eq_false_2.
  - intros room Hne. by rewrite lookup_partial_alter, decide_False.
Qed.

Lemma fmap_id_on {A} (f : A → A) (l : list A) :
  (∀ x, x ∈ l → f x = x) → f <$> l = l.
Proof.
  induction l as [|x l IH]; intros Hf; [done|]. cbn. f_equal.
  - apply Hf, elem_of_cons. by left.
  - apply IH. intros y Hy. apply Hf, elem_of_cons. by right.
Qed.

Lemma fmap_ext_on {A B} (f g : A → B) (l : list A) :
  (∀ x, x ∈ l → f x = g x) → f <$> l = g <$> l.
Proof.
  induction l as [|x l IH]; intros Hf; [done|]. cbn. f_equal.
  - apply Hf, elem_of_cons. by left.
  - apply IH. intros y Hy. apply Hf, elem_of_cons. by right.
Qed.

Lemma mark_saved_found (id : string) (msgs : list ChatMessage) :
  id ∈ (msg_id <$> msgs) →
  ∃ before m after,
    msgs = before ++ m :: after ∧ msg_id m = id
    ∧ (id ∉ (msg_id <$> before))
    ∧ AppMessages.mark_saved id msgs
      = Some (before ++ set_state SAVED m :: after).
Proof.
  induction msgs as [|a msgs IH]; intros Hin; [by apply elem_of_nil in Hin|].
  cbn [AppMessages.mark_saved].
  destruct (decide (msg_id a = id)) as [Heq|Hne].
  - rewrite bool_decide_eq_true_2 by done. exists [], a, msgs.
    split; [done|]. split; [done|]. split; [|done].
    by intros Hnil; apply elem_of_nil in Hnil.
  - rewrite bool_decide_eq_false_2 by done.
    cbn in Hin. apply elem_of_cons in Hin as [?|Hin]; [congruence|].
    destruct (IH Hin) as (before & m & after & -> & Hid & Hbefore & ->).
    exists (a :: before), m, after. split; [done|]. split; [done|].
    split; [|done]. cbn. intros [?|?]%elem_of_cons; [congruence|done].
Qed.

Lemma mark_saved_missing (id : string) (msgs : list ChatMessage) :
  id ∉ (msg_id <$> msgs) → AppMessages.mark_saved id msgs = None.
Proof.
  induction msgs as [|a msgs IH]; intros Hno; [done|].
  cbn [AppMessages.mark_saved]. rewrite bool_decide_eq_false_2.
  - rewrite IH; [done|]. intros Hin. apply Hno. cbn. apply elem_of_cons.
    by right.
  - intros Heq. apply Hno. cbn. apply elem_of_cons. by left.
Qed.

(** X20.  An ack for an id marks the first message of the list with that
    id as SAVED, leaves every other message and the order as they are, and
    writes the list to the local store under the current room; an ack for
    an id that no message has, or without a list, changes nothing. *)
Theorem acknowledgeMessage_marks_the_message (id : string)
    (view : AppMessages.ChatView) (idb : gmap string (list ChatMessage)) :
  (∀ msgs, AppMessages.chatMessages view = Some msgs →
     id ∈ (msg_id <$> msgs) →
     ∃ before m after,
       msgs = before ++ m :: after ∧ msg_id m = id
       ∧ (id ∉ (msg_id <$> before))
       ∧ (AppMessages.acknowledgeMessage id view idb).1
         = AppMessages.mkChatView (AppMessages.chatRoom view)
             (Some (before ++ set_state SAVED m :: after))
       ∧ (AppMessages.chatRoom view ≠ "" →
          (AppMessages.acknowledgeMessage id view idb).2
            !! AppMessages.chatRoom view
          = Some (before ++ set_state SAVED m :: after))
       ∧ ∀ room, room ≠ AppMessages.chatRoom view →
           (AppMessages.acknowledgeMessage id view idb).2 !! room = idb !! room)
  ∧ (AppMessages.chatMessages view = None
     ∨ (∃ msgs, AppMessages.chatMessages view = Some msgs
                ∧ id ∉ (msg_id <$> msgs)) →
     AppMessages.acknowledgeMessage id view idb = (view, idb)).
Proof.
  unfold AppMessages.acknowledgeMessage. split.
  - intros msgs -> Hin.
    destruct (mark_saved_found id msgs Hin)
      as (before & m & after & Hsplit & Hid & Hbefore & ->).
    exists before, m, after. cbn [fst snd].
    destruct (saveMessages_idb_lookup (AppMessages.chatRoom view)
                (before ++ set_state SAVED m :: after) idb) as [Hsame Hother].
    by repeat split.
  - intros [->|(msgs & -> & Hno)]; [done|]. by rewrite mark_saved_missing.
Qed.

Lemma remove_message_filter (id : string) (msgs : list ChatMessage) :
  NoDup (msg_id <$> msgs) →
  default msgs (AppMessages.remove_message id msgs)
  = filter (λ m, msg_id m ≠ id) msgs.
Proof.
  induction msgs as [|a msgs IH]; intros Hnd; [done|].
  cbn in Hnd. apply NoDup_cons in Hnd as [Ha Hnd].
  cbn [AppMessages.remove_message].
  destruct (decide (msg_id a = id)) as [Heq|Hne].
  - rewrite bool_decide_eq_true_2 by done. cbn [default].
    rewrite filter_cons_False by (by intros Hne).
    symmetry. apply filter_all. intros m Hm Hid. apply Ha.
    rewrite Heq, <- Hid. by apply list_elem_of_fmap_2.
  - rewrite bool_decide_eq_false_2 by done.
    rewrite filter_cons_True by done. rewrite <- (IH Hnd).
    by destruct (AppMessages.remove_message id msgs).
Qed.

Lemma remove_message_missing (id : string) (msgs : list ChatMessage) :
  id ∉ (msg_id <$> msgs) → AppMessages.remove_message id msgs = None.
Proof.
  induction msgs as [|a msgs IH]; intros Hno; [done|].
  cbn [AppMessages.remove_message]. rewrite bool_decide_eq_false_2.
  - rewrite IH; [done|]. intros Hin. apply Hno. cbn. apply elem_of_cons.
    by right.
  - intros Heq. apply Hno. cbn. apply elem_of_cons. by left.
Qed.

Lemma remove_message_found (id : string) (msgs : list ChatMessage) :
  id ∈ (msg_id <$> msgs) → is_Some (AppMessages.remove_message id msgs).
Proof.
  induction msgs as [|a msgs IH]; intros Hin; [by apply elem_of_nil in Hin|].
  cbn [AppMessages.remove_message]. case_bool_decide as Heq; [done|].
  cbn in Hin. apply elem_of_cons in Hin as [?|Hin]; [congruence|].
  destruct (IH Hin) as [msgs' ->]. done.
Qed.

(** X21.  An inbound delete for the current room takes the message out of
    the list on screen and writes that list to the local store; for
    another room it takes the message out of that room's stored list and
    leaves the screen alone; no other room's stored list is touched, and
    a delete for an id that is not there changes nothing.  The lists are
    taken to hold no id twice. *)
Theorem inboundDeleteMessage_removes_the_message (roomName messageId : string)
    (view : AppMessages.ChatView) (idb : gmap string (list ChatMessage)) :
  (roomName = AppMessages.chatRoom view →
   ∀ msgs, AppMessages.chatMessages view = Some msgs →
     NoDup (msg_id <$> msgs) →
     AppMessages.chatMessages
       (AppMessages.inboundDeleteMessage roomName messageId view idb).1
     = Some (filter (λ m, msg_id m ≠ messageId) msgs)
     ∧ (roomName ≠ "" → messageId ∈ (msg_id <$> msgs) →
        (AppMessages.inboundDeleteMessage roomName messageId view idb).2
          !! roomName
        = Some (filter (λ m, msg_id m ≠ messageId) msgs))
     ∧ (messageId ∉ (msg_id <$> msgs) →
        AppMessages.inboundDeleteMessage roomName messageId view idb
        = (view, idb)))
  ∧ (roomName ≠ AppMessages.chatRoom view →
     (AppMessages.inboundDeleteMessage roomName messageId view idb).1 = view
     ∧ ∀ msgs, idb !! roomName = Some msgs → NoDup (msg_id <$> msgs) →
         roomName ≠ "" →
         (AppMessages.inboundDeleteMessage roomName messageId view idb).2
           !! roomName
         = Some (filter (λ m, msg_id m ≠ messageId) msgs))
  ∧ (∀ room, room ≠ roomName →
       (AppMessages.inboundDeleteMessage roomName messageId view idb).2 !! room
       = idb !! room).
Proof.
  unfold AppMessages.inboundDeleteMessage. split; [|split].
  - intros Hroom msgs Hmsgs Hnd.
    rewrite bool_decide_eq_true_2, Hmsgs by done.
    pose proof (remove_message_filter messageId msgs Hnd) as Hfilter.
    destruct (AppMessages.remove_message messageId msgs) as [msgs'|] eqn:Hrm;
      cbn [default from_option id] in Hfilter; cbn [fst snd].
    + subst msgs'. split; [done|]. split.
      * intros Hname _.
        by destruct (saveMessages_idb_lookup roomName
                       (filter (λ m, msg_id m ≠ messageId) msgs) idb) as [-> _].
      * intros Hno. by rewrite remove_message_missing in Hrm.
    + rewrite <- Hfilter. split; [done|]. split; [|done].
      intros _ Hin. apply remove_message_found in Hin as [? Hin]. congruence.
  - intros Hroom. rewrite bool_decide_eq_false_2 by done. split.
    + destruct (idb !! roomName) as [msgs|]; [|done].
      by destruct (AppMessages.remove_message messageId msgs).
    + intros msgs Hmsgs Hnd Hname. rewrite Hmsgs.
      pose proof (remove_message_filter messageId msgs Hnd) as Hfilter.
      destruct (AppMessages.remove_message messageId msgs) as [msgs'|];
        cbn [default from_option id] in Hfilter; cbn [snd].
      * subst msgs'.
        by destruct (saveMessages_idb_lookup roomName
                       (filter (λ m, msg_id m ≠ messageId) msgs) idb) as [-> _].
      * by rewrite <- Hfilter.
  - intros room Hne.
    assert (Hsave : ∀ msgs',
      AppMessages.saveMessages_idb roomName msgs' idb !! room = idb !! room).
    { intros msgs'.
      destruct (saveMessages_idb_lookup roomName msgs' idb) as [_ Hother].
      by apply Hother. }
    case_bool_decide.
    + destruct (AppMessages.chatMessages view) as [msgs|]; [|done].
      destruct (AppMessages.remove_message messageId msgs); [apply Hsave|done].
    + destruct (idb !! roomName) as [msgs|]; [|done].
      destruct (AppMessages.remove_message messageId msgs); [apply Hsave|done].
Qed.

(** ** Resending *)

Lemma set_state_saved_again (m : ChatMessage) :
  set_state SAVED (set_state SAVED m) = set_state SAVED m.
Proof. done. Qed.

(** With no id twice in the list, marking by id marks every message with
    that id. *)
Lemma mark_saved_map (mid : string) (msgs : list ChatMessage) :
  NoDup (msg_id <$> msgs) →
  default msgs (AppMessages.mark_saved mid msgs)
  = (λ m, if decide (msg_id m = mid) then set_state SAVED m else m) <$> msgs.
Proof.
  induction msgs as [|a msgs IH]; intros Hnd; [done|].
  cbn in Hnd. apply NoDup_cons in Hnd as [Ha Hnd].
  cbn [AppMessages.mark_saved fmap list_fmap].
  destruct (decide (msg_id a = mid)) as [Heq|Hne].
  - rewrite bool_decide_eq_true_2 by done. cbn [default from_option id].
    f_equal. symmetry. apply fmap_id_on. intros m Hm.
    rewrite decide_False; [done|]. intros Hid. apply Ha.
    rewrite Heq, <- Hid. by apply list_elem_of_fmap_2.
  - rewrite bool_decide_eq_false_2 by done. rewrite <- (IH Hnd).
    by destruct (AppMessages.mark_saved mid msgs).
Qed.

Lemma mark_all_saved_map (sent msgs : list ChatMessage) :
  NoDup (msg_id <$> msgs) →
  AppMessages.mark_all_saved sent msgs
  = (λ m, if decide (msg_id m ∈ (msg_id <$> sent)) then set_state SAVED m else m)
      <$> msgs.
Proof.
  unfold AppMessages.mark_all_saved. revert msgs.
  induction sent as [|s sent IH]; intros msgs Hnd.
  - cbn [foldl]. symmetry. apply fmap_id_on. intros m _.
    rewrite decide_False; [done|]. by intros Hin; apply elem_of_nil in Hin.
  - cbn [foldl]. rewrite (mark_saved_map _ _ Hnd), IH.
    2:{ rewrite <- list_fmap_compose.
        rewrite (fmap_ext_on _ msg_id); [done|].
        intros m _. cbn. by destruct (decide (msg_id m = msg_id s)). }
    rewrite <- list_fmap_compose. apply fmap_ext_on. intros m _. cbn.
    destruct (decide (msg_id m = msg_id s)) as [Heq|Hne].
    + rewrite (decide_True (P := msg_id m ∈ msg_id s :: (msg_id <$> sent)))
        by (apply elem_of_cons; by left).
      by destruct (decide _).
    + destruct (decide (msg_id m ∈ (msg_id <$> sent))) as [Hin|Hno].
      * by rewrite decide_True by (apply elem_of_cons; by right).
      * rewrite decide_False; [done|].
        intros [?|?]%elem_of_cons; [congruence|done].
Qed.

(** The resend after a good answer. *)
Lemma resendFailedMessages_accepted (gs : ChatGlobalState)
    (myKey : option string) (post : list ChatMessage → option bool)
    (roomName : string) (msgs : list ChatMessage)
    (idb : gmap string (list ChatMessage)) :
  chatSaveToServer gs = true → roomName ≠ "" →
  NoDup (msg_id <$> msgs) →
  post (AppMessages.messagesToSend myKey msgs) = Some true →
  (AppMessages.resendFailedMessages gs myKey post roomName msgs idb).1
  = (λ m, if decide (msg_publicKey m = myKey ∧ msg_state m ≠ Some SAVED)
          then set_state SAVED m else m) <$> msgs
  ∧ AppMessages.messagesToSend myKey
      (AppMessages.resendFailedMessages gs myKey post roomName msgs idb).1
    = []
  ∧ (AppMessages.messagesToSend myKey msgs ≠ [] →
     (AppMessages.resendFailedMessages gs myKey post roomName msgs idb).2
       !! roomName
     = Some (AppMessages.resendFailedMessages gs myKey post roomName msgs idb).1).
Proof.
  unfold AppMessages.resendFailedMessages, truthy.
  intros -> Hname Hnd Hpost. cbn [negb].
  rewrite bool_decide_eq_false_2 by done. cbn [negb].
  set (own := λ m : ChatMessage,
                msg_publicKey m = myKey ∧ msg_state m ≠ Some SAVED).
  assert (Hmarked :
    AppMessages.mark_all_saved (AppMessages.messagesToSend myKey msgs) msgs
    = (λ m, if decide (own m) then set_state SAVED m else m) <$> msgs).
  { rewrite (mark_all_saved_map _ _ Hnd). apply fmap_ext_on. intros m Hm.
    destruct (decide (own m)) as [Hown|Hnot].
    - rewrite decide_True; [done|]. apply list_elem_of_fmap_2.
      by apply list_elem_of_filter.
    - rewrite decide_False; [done|].
      intros (m' & Hid & Hm')%list_elem_of_fmap.
      apply list_elem_of_filter in Hm' as [Hown' Hm'].
      by rewrite (NoDup_fmap_eq msg_id msgs m m' Hnd Hm Hm' Hid) in Hnot. }
  assert (Hnone : AppMessages.messagesToSend myKey
                    ((λ m, if decide (own m) then set_state SAVED m else m)
                       <$> msgs) = []).
  { apply filter_none. intros m' (m & -> & Hm)%list_elem_of_fmap.
    destruct (decide (own m)) as [Hown|Hnot]; [|done].
    by intros [_ Hstate]. }
  destruct (AppMessages.messagesToSend myKey msgs) as [|m0 toSend] eqn:Hsend.
  - cbn [fst snd]. split; [|split; [|done]].
    + symmetry. apply fmap_id_on. intros m Hm.
      rewrite decide_False; [done|]. intros Hown.
      assert (Hin : m ∈ AppMessages.messagesToSend myKey msgs)
        by by apply list_elem_of_filter.
      rewrite Hsend in Hin. by apply elem_of_nil in Hin.
    + rewrite <- Hnone. f_equal. symmetry. apply fmap_id_on. intros m Hm.
      rewrite decide_False; [done|]. intros Hown.
      assert (Hin : m ∈ AppMessages.messagesToSend myKey msgs)
        by by apply list_elem_of_filter.
      rewrite Hsend in Hin. by apply elem_of_nil in Hin.
  - rewrite Hpost. cbn [fst snd]. rewrite Hmarked.
    split; [done|]. split; [done|]. intros _.
    by destruct (saveMessages_idb_lookup roomName
                   ((λ m, if decide (own m) then set_state SAVED m else m)
                      <$> msgs) idb) as [-> _].
Qed.

(** X22.  [resendFailedMessages], when the server answers that all were
    saved, marks as SAVED exactly the user's own messages that were not
    (the list holding no id twice), so that nothing is left to resend,
    and writes the list to the local store; when sync is off, the room
    name is empty or the request fails or is not all saved, the list and
    the store stay as they are. *)
Theorem resendFailedMessages_marks_own_unsaved (gs : ChatGlobalState)
    (myKey : option string) (post : list ChatMessage → option bool)
    (roomName : string) (msgs : list ChatMessage)
    (idb : gmap string (list ChatMessage)) :
  (chatSaveToServer gs = true → roomName ≠ "" →
   NoDup (msg_id <$> msgs) →
   post (AppMessages.messagesToSend myKey msgs) = Some true →
   (AppMessages.resendFailedMessages gs myKey post roomName msgs idb).1
   = (λ m, if decide (msg_publicKey m = myKey ∧ msg_state m ≠ Some SAVED)
           then set_state SAVED m else m) <$> msgs
   ∧ AppMessages.messagesToSend myKey
       (AppMessages.resendFailedMessages gs myKey post roomName msgs idb).1
     = []
   ∧ (AppMessages.messagesToSend myKey msgs ≠ [] →
      (AppMessages.resendFailedMessages gs myKey post roomName msgs idb).2
        !! roomName
      = Some (AppMessages.resendFailedMessages gs myKey post roomName msgs idb).1))
  ∧ (chatSaveToServer gs = false ∨ roomName = ""
     ∨ post (AppMessages.messagesToSend myKey msgs) ≠ Some true →
     AppMessages.resendFailedMessages gs myKey post roomName msgs idb
     = (msgs, idb)).
Proof.
  split; [apply resendFailedMessages_accepted|].
  unfold AppMessages.resendFailedMessages, truthy.
  intros [->|[->|Hpost]]; [done|..].
  - by destruct (chatSaveToServer gs).
  - destruct (chatSaveToServer gs); [|done]. cbn [negb].
    case_bool_decide; [done|]. cbn [negb].
    destruct (AppMessages.messagesToSend myKey msgs) as [|m0 toSend]; [done|].
    by destruct (post (m0 :: toSend)) as [[]|].
Qed.

(** ** The list of visited rooms *)

(** X23.  [updateRoomHistory] lists the room afterwards, keeps the earlier
    entries in their places, adds nothing for a room already listed, and
    keeps a list without repetitions free of them. *)
Theorem updateRoomHistory_lists_once (roomName : string)
    (chatRoomHistory : list string) :
  roomName ∈ AppRooms.updateRoomHistory roomName chatRoomHistory
  ∧ chatRoomHistory `prefix_of` AppRooms.updateRoomHistory roomName chatRoomHistory
  ∧ AppRooms.updateRoomHistory roomName
      (AppRooms.updateRoomHistory roomName chatRoomHistory)
    = AppRooms.updateRoomHistory roomName chatRoomHistory
  ∧ (NoDup chatRoomHistory →
     NoDup (AppRooms.updateRoomHistory roomName chatRoomHistory)).
Proof.
  unfold AppRooms.updateRoomHistory.
  case_bool_decide as Hlisted.
  - apply Exists_exists in Hlisted as (item & Hitem & ->).
    split; [done|]. split; [done|]. split; [|done].
    rewrite bool_decide_eq_true_2; [done|].
    apply Exists_exists. by exists roomName.
  - assert (Hnew : roomName ∉ chatRoomHistory).
    { intros Hin. apply Hlisted, Exists_exists. by exists roomName. }
    split; [apply elem_of_app; right; by apply list_elem_of_singleton|].
    split; [by apply prefix_app_r|]. split.
    + rewrite bool_decide_eq_true_2; [done|].
      apply Exists_exists. exists roomName. split; [|done].
      apply elem_of_app. right. by apply list_elem_of_singleton.
    + intros Hnd. apply NoDup_app. split; [done|].
      split; [|apply NoDup_singleton].
      by intros item Hitem ->%list_elem_of_singleton.
Qed.

Lemma splice_first_filter (roomName : string) (l : list string) :
  NoDup l →
  AppRooms.splice_first (λ item, bool_decide (item = roomName)) l
  = filter (λ item, item ≠ roomName) l.
Proof.
  induction l as [|x l IH]; intros Hnd; [done|].
  apply NoDup_cons in Hnd as [Hx Hnd]. cbn [AppRooms.splice_first].
  case_bool_decide as Heq.
  - rewrite filter_cons_False by (by intros Hne). symmetry.
    apply filter_all. intros item Hitem ->. by subst.
  - rewrite filter_cons_True by done. by rewrite IH.
Qed.

(** X24.  [forgetRoom], once confirmed, takes the room out of the list of
    visited rooms (which holds no room twice), keeps the other rooms in
    their order, removes the room's stored messages and leaves the other
    rooms' stored messages alone; forgetting a room right after it was
    first listed gives back the list as it was. *)
Theorem forgetRoom_forgets_the_room (roomName : string)
    (chatRoomHistory : list string) (idb : gmap string (list ChatMessage)) :
  NoDup chatRoomHistory →
  (AppRooms.forgetRoom roomName chatRoomHistory idb).1
  = filter (λ item, item ≠ roomName) chatRoomHistory
  ∧ (AppRooms.forgetRoom roomName chatRoomHistory idb).2 !! roomName = None
  ∧ (∀ room, room ≠ roomName →
       (AppRooms.forgetRoom roomName chatRoomHistory idb).2 !! room
       = idb !! room)
  ∧ (roomName ∉ chatRoomHistory →
     (AppRooms.forgetRoom roomName
        (AppRooms.updateRoomHistory roomName chatRoomHistory) idb).1
     = chatRoomHistory).
Proof.
  intros Hnd. unfold AppRooms.forgetRoom. cbn [fst snd].
  split; [by apply splice_first_filter|].
  split; [apply lookup_delete_eq|].
  split; [by intros room Hne; apply lookup_delete_ne|].
  intros Hnew. unfold AppRooms.updateRoomHistory.
  rewrite bool_decide_eq_false_2.
  2:{ intros (item & Hitem & ->)%Exists_exists. done. }
  rewrite splice_first_filter.
  2:{ apply NoDup_app. split; [done|]. split; [|apply NoDup_singleton].
      by intros item Hitem ->%list_elem_of_singleton. }
  rewrite filter_app, filter_cons_False, filter_nil, app_nil_r
    by (by intros Hne).
  apply filter_all. by intros item Hitem ->.
Qed.

(** ** Loading without the server *)

(** X25.  [loadRoomMessages] falls back to the local store: with sync
    switched off, with a failing request for the id list, or with an
    empty id list from the server, it returns the stored messages of the
    room that are within the retention window, removes none of them for
    being unknown to the server, and the store holds that list. *)
Theorem loadRoomMessages_falls_back_to_the_store (gs : ChatGlobalState)
    (now : Z) (http : AppMessages.Http) (roomId : string)
    (roomData : option (list ChatMessage)) :
  chatSaveToServer gs = false
  ∨ AppMessages.get_message_ids http = None
  ∨ AppMessages.get_message_ids http = Some [] →
  AppMessages.loadRoomMessages gs now http roomId roomData
  = (retained gs now roomData,
     match roomData with
     | Some _ => Some (retained gs now roomData)
     | None => None
     end).
Proof.
  intros Hoff. unfold AppMessages.loadRoomMessages, retained.
  assert (Hsame : ∀ r : list ChatMessage * option (list ChatMessage),
            (if chatSaveToServer gs
             then match AppMessages.get_message_ids http with
                  | None => r
                  | Some [] => r
                  | Some serverMessageIds =>
                      AppMessages.synchronize http roomId serverMessageIds r.1 r.2
                  end
             else r) = r).
  { intros r. destruct Hoff as [->|[->| ->]]; [done|..];
      by destruct (chatSaveToServer gs). }
  destruct roomData as [roomMessages|].
  - destruct (AppRooms.cleanRoomMessages gs now roomMessages) as [cleaned flag].
    apply (Hsame (cleaned, Some cleaned)).
  - apply (Hsame ([], None)).
Qed.

(** ** Witnesses of the client properties *)

(** X20, witness: the ack for m12, which is on screen after m10. *)
Lemma acknowledgeMessage_marks_the_message_witness :
  ∃ before m after,
    [Fixtures.m10; Fixtures.m12] = before ++ m :: after
    ∧ msg_id m = "m12"
    ∧ AppMessages.chatMessages
        (AppMessages.acknowledgeMessage "m12"
           (AppMessages.mkChatView "r1" (Some [Fixtures.m10; Fixtures.m12]))
           ∅).1
      = Some (before ++ set_state SAVED m :: after).
Proof.
  destruct (acknowledgeMessage_marks_the_message "m12"
              (AppMessages.mkChatView "r1" (Some [Fixtures.m10; Fixtures.m12]))
              ∅) as [Hfound _].
  destruct (Hfound [Fixtures.m10; Fixtures.m12] eq_refl)
    as (before & m & after & Hsplit & Hid & _ & Hview & _).
  { vm_compute. right. left. }
  exists before, m, after. split; [exact Hsplit|]. split; [exact Hid|].
  rewrite Hview. reflexivity.
Defined.

(** X21, witness: a delete for m11 of r1 while r2 is on screen. *)
Lemma inboundDeleteMessage_removes_the_message_witness :
  (AppMessages.inboundDeleteMessage "r1" "m11"
     (AppMessages.mkChatView "r2" None)
     {["r1" := [Fixtures.m10; Fixtures.m11]]}).2 !! "r1"
  = Some [Fixtures.m10].
Proof.
  destruct (inboundDeleteMessage_removes_the_message "r1" "m11"
              (AppMessages.mkChatView "r2" None)
              {["r1" := [Fixtures.m10; Fixtures.m11]]}) as (_ & Hother & _).
  destruct Hother as [_ Hstore]; [done|].
  rewrite (Hstore [Fixtures.m10; Fixtures.m11]).
  - reflexivity.
  - reflexivity.
  - refine (bool_decide_unpack _ _). vm_compute. exact I.
  - done.
Defined.

(** X22, witness: Alice's m12 was sent but not acknowledged; the server
    takes the resend. *)
Lemma resendFailedMessages_marks_own_unsaved_witness :
  AppMessages.messagesToSend (Some "keyA")
    (AppMessages.resendFailedMessages Fixtures.gs_server_mode (Some "keyA")
       (λ _, Some true) "r1" [Fixtures.m10; Fixtures.m12] ∅).1
  = [].
Proof.
  destruct (resendFailedMessages_marks_own_unsaved Fixtures.gs_server_mode
              (Some "keyA") (λ _, Some true) "r1"
              [Fixtures.m10; Fixtures.m12] ∅) as [Hsaved _].
  destruct Hsaved as (_ & Hnone & _).
  - reflexivity.
  - done.
  - refine (bool_decide_unpack _ _). vm_compute. exact I.
  - reflexivity.
  - exact Hnone.
Defined.

(** X24, witness: r2 is forgotten out of three rooms. *)
Lemma forgetRoom_forgets_the_room_witness :
  NoDup ["r1"; "r2"; "r3"]
  ∧ (AppRooms.forgetRoom "r2" ["r1"; "r2"; "r3"] ∅).1 = ["r1"; "r3"].
Proof.
  assert (Hnd : NoDup ["r1"; "r2"; "r3"]).
  { refine (bool_decide_unpack _ _). vm_compute. exact I. }
  split; [exact Hnd|].
  destruct (forgetRoom_forgets_the_room "r2" ["r1"; "r2"; "r3"] ∅ Hnd)
    as (Hlist & _).
  rewrite Hlist. reflexivity.
Defined.

(** X25, witness: the server's id list for the room is empty, and the
    stored m10, though SAVED, is kept. *)
Lemma loadRoomMessages_falls_back_to_the_store_witness :
  AppMessages.get_message_ids Fixtures.http_empty = Some []
  ∧ (AppMessages.loadRoomMessages Fixtures.gs_server_mode 5000
       Fixtures.http_empty "r1" (Some [Fixtures.m10; Fixtures.m12])).1
    = [Fixtures.m10; Fixtures.m12].
Proof.
  split; [reflexivity|].
  rewrite (loadRoomMessages_falls_back_to_the_store Fixtures.gs_server_mode
             5000 Fixtures.http_empty "r1"
             (Some [Fixtures.m10; Fixtures.m12])).
  - reflexivity.
  - right. right. reflexivity.
Defined.

(** * Further properties of the request handlers *)

(** X26.  The message-ids request with an explicit day count lists the
    ids of the messages of the room that are no older than that many
    days, and never fewer than the last two days whatever the count; a
    request without a room id is answered with status 400.  (Day counts
    up to 10^8, where the handler's arithmetic is exact.)  Without a day
    count, or with the count 0, the request for a room that exists is
    answered with status 500: the cutoff is outside [BIGINT].  So is the
    request for a key of digits whose number is outside [INTEGER]. *)
Theorem getMessageIdsForRoom_at_least_two_days (currentTime : Z)
    (roomId : string) (d : Z) (db : DB) :
  (roomId = "" →
   ChatService.getMessageIdsForRoom currentTime roomId (Some d) db
   = ChatService.Fail 400 "Room ID is required")
  ∧ (roomId ≠ "" → d ≠ 0 → d ≤ 100000000 →
     0 ≤ currentTime ≤ ChatService.MAX_SAFE_INTEGER →
     ∀ room, DBMessages.resolve_room roomId db = Returns (Some room) →
     ∃ ids,
       ChatService.getMessageIdsForRoom currentTime roomId (Some d) db
       = ChatService.Ok ids
       ∧ (∀ i, i ∈ ids ↔
            ∃ r, r ∈ messages db ∧ m_id r = i ∧ m_room_id r = room_pk room
                 ∧ currentTime - Z.max 2 d * 86400000 ≤ m_timestamp r)
       ∧ (∀ r, r ∈ messages db → m_room_id r = room_pk room →
            currentTime - m_timestamp r ≤ 2 * 86400000 → m_id r ∈ ids))
  ∧ (roomId ≠ "" → 0 ≤ currentTime ≤ ChatService.MAX_SAFE_INTEGER →
     ∀ room, DBMessages.resolve_room roomId db = Returns (Some room) →
     ChatService.getMessageIdsForRoom currentTime roomId None db
     = ChatService.Fail 500 "Failed to retrieve message IDs"
     ∧ ChatService.getMessageIdsForRoom currentTime roomId (Some 0) db
       = ChatService.Fail 500 "Failed to retrieve message IDs")
  ∧ (roomId ≠ "" → DBMessages.resolve_room roomId db = Throws →
     ChatService.getMessageIdsForRoom currentTime roomId (Some d) db
     = ChatService.Fail 500 "Failed to retrieve message IDs").
Proof.
  unfold ChatService.getMessageIdsForRoom, truthy. split.
  { intros ->. done. }
  split; [|split].
  - intros Hroom Hd Hmax Hnow room Hresolve.
    rewrite bool_decide_eq_false_2 by done. cbn [negb]. cbn zeta.
    unfold DBMessages.getMessageIdsForRoomWithDateFilter. rewrite Hresolve.
    assert (Hdays : ChatService.historyDays (Some d) = Z.max 2 d).
    { unfold ChatService.historyDays. cbn zeta.
      rewrite (bool_decide_eq_false_2 (d = 0)) by done.
      case_bool_decide; lia. }
    rewrite Hdays. rewrite bool_decide_eq_true_2.
    2:{ unfold int8, ChatService.MAX_SAFE_INTEGER in *. lia. }
    eexists. split; [reflexivity|]. split.
    + intros i. rewrite list_elem_of_fmap. split.
      * intros (r & -> & [[Hrid Hts] Hr]%list_elem_of_filter).
        exists r. repeat split; [done..|lia].
      * intros (r & Hr & <- & Hrid & Hts). exists r. split; [done|].
        apply list_elem_of_filter. repeat split; [done|lia|done].
    + intros r Hr Hrid Hyoung. apply list_elem_of_fmap_2, list_elem_of_filter.
      repeat split; [done|lia|done].
  - intros Hroom Hnow room Hresolve.
    rewrite bool_decide_eq_false_2 by done. cbn [negb]. cbn zeta.
    unfold DBMessages.getMessageIdsForRoomWithDateFilter. rewrite Hresolve.
    assert (ChatService.historyDays (Some 0) = ChatService.MAX_SAFE_INTEGER
            ∧ ChatService.historyDays None = ChatService.MAX_SAFE_INTEGER)
      as [-> ->] by done.
    rewrite bool_decide_eq_false_2; [done|].
    unfold int8, ChatService.MAX_SAFE_INTEGER in *. lia.
  - intros Hroom Hresolve.
    rewrite bool_decide_eq_false_2 by done. cbn [negb]. cbn zeta.
    unfold DBMessages.getMessageIdsForRoomWithDateFilter. by rewrite Hresolve.
Qed.

Section SendMessages.
Context `{BufferDecoder}.






End SendMessages.

(** X26, witness: the store with m3 (timestamp 1000), asked at time 2000
    for one day of r1. *)
Lemma getMessageIdsForRoom_at_least_two_days_witness :
  ChatService.getMessageIdsForRoom 2000 "r1" (Some 1) Fixtures.db_m3
  = ChatService.Ok ["m3"].
Proof.
  destruct (getMessageIdsForRoom_at_least_two_days 2000 "r1" 1 Fixtures.db_m3)
    as (_ & Hlisted & _).
  destruct (Hlisted ltac:(done) ltac:(done) ltac:(lia)
              ltac:(unfold ChatService.MAX_SAFE_INTEGER; lia)
              (mkRoomRow 1 "r1") eq_refl)
    as (ids & Hanswer & _).
  rewrite Hanswer. f_equal. injection Hanswer as <-. reflexivity.
Defined.


(** A batch the handler turns away: the attachment of m5 has the size
    2^31.  The answer is status 500, and m4, first in the batch, is not
    stored either. *)
Example sendMessages_rejected_batch :
  let oversized := mkFileBase64 "big.bin" "application/octet-stream" 2147483648 "" in
  let r :=
    @ChatService.sendMessages Fixtures.decoder "r1"
      [Fixtures.message "m4" 2000 Fixtures.alice "first";
       Fixtures.with_attachments [oversized]
         (Fixtures.message "m5" 3000 Fixtures.alice "second")]
      Fixtures.db_m3 in
  r.2 = ChatService.Fail 500 "Failed to save messages"
  ∧ messages r.1 = messages Fixtures.db_m3
  ∧ attachments r.1 = attachments Fixtures.db_m3.
Proof. by vm_compute. Qed.


(** * Further properties of the attachment data *)

Lemma append_cons (a : ascii) (s t : string) :
  String a s +:+ t = String a (s +:+ t).
Proof. done. Qed.

Lemma strip_prefix_app (p s : string) :
  DataUrl.strip_prefix p (p +:+ s) = Some s.
Proof.
  induction p as [|a p IH]; [done|].
  rewrite append_cons. cbn [DataUrl.strip_prefix].
  by rewrite bool_decide_eq_true_2.
Qed.

Lemma strip_prefix_Some (p s t : string) :
  DataUrl.strip_prefix p s = Some t → s = p +:+ t.
Proof.
  revert s. induction p as [|a p IH]; intros s; cbn [DataUrl.strip_prefix].
  - by intros [= ->].
  - destruct s as [|b s]; [done|]. case_bool_decide as Heq; [|done].
    intros Hs%IH. rewrite append_cons. by subst.
Qed.

(** What [drop_while] skipped passes the test. *)
Lemma drop_while_split (f : ascii → bool) (s : string) :
  ∃ skipped, s = skipped +:+ DataUrl.drop_while f s
             ∧ DataUrl.all_chars f skipped = true.
Proof.
  induction s as [|c s (skipped & Hs & Hall)]; [by exists ""|].
  cbn [DataUrl.drop_while]. destruct (f c) eqn:Hc.
  - exists (String c skipped). rewrite append_cons.
    cbn [DataUrl.all_chars]. rewrite Hc, Hall. split; [|done].
    by rewrite <- Hs.
  - by exists "".
Qed.

Lemma drop_while_stops (f : ascii → bool) (skipped : string) (c : ascii)
    (rest : string) :
  DataUrl.all_chars f skipped = true → f c = false →
  DataUrl.drop_while f (skipped +:+ String c rest) = String c rest.
Proof.
  intros Hall Hc. induction skipped as [|a skipped IH].
  - change ("" +:+ String c rest) with (String c rest).
    cbn [DataUrl.drop_while]. by rewrite Hc.
  - cbn [DataUrl.all_chars] in Hall.
    apply andb_true_iff in Hall as [Ha Hall].
    rewrite append_cons. cbn [DataUrl.drop_while]. rewrite Ha. by apply IH.
Qed.

Lemma starts_with_spec (t s : string) :
  DataUrl.starts_with t s = true ↔ ∃ after, s = t +:+ after.
Proof.
  unfold DataUrl.starts_with. split.
  - destruct (DataUrl.strip_prefix t s) as [after|] eqn:Hs; [|done].
    intros _. exists after. by apply strip_prefix_Some.
  - intros [after ->]. by rewrite strip_prefix_app.
Qed.

Lemma line_terminators_nonempty (t : string) :
  t ∈ DataUrl.line_terminators → t ≠ "".
Proof.
  unfold DataUrl.line_terminators. intros Hin ->.
  repeat (apply elem_of_cons in Hin as [Hin|Hin]; [done|]).
  by apply elem_of_nil in Hin.
Qed.

(** The scan for line terminators finds every occurrence of one. *)
Lemma no_line_terminator_spec (s : string) :
  DataUrl.no_line_terminator s = true
  ↔ ∀ t, t ∈ DataUrl.line_terminators → ¬ occurs_in t s.
Proof.
  induction s as [|c s IH].
  - split; [|done]. intros _ t Ht (before & after & Hs).
    apply line_terminators_nonempty in Ht.
    destruct before as [|b before]; [|by rewrite append_cons in Hs].
    change ("" +:+ t +:+ after) with (t +:+ after) in Hs.
    destruct t as [|a t]; [done|]. by rewrite append_cons in Hs.
  - cbn [DataUrl.no_line_terminator].
    rewrite andb_true_iff, negb_true_iff, IH. split.
    + intros [Hhead Htail] t Ht (before & after & Hs).
      destruct before as [|b before].
      * change ("" +:+ t +:+ after) with (t +:+ after) in Hs.
        apply not_true_iff_false in Hhead. apply Hhead.
        apply existsb_exists. exists t. split; [by apply list_elem_of_In|].
        apply starts_with_spec. by exists after.
      * rewrite append_cons in Hs. injection Hs as _ ->.
        apply (Htail t Ht). by exists before, after.
    + intros Hno. split.
      * apply not_true_iff_false.
        intros (t & Ht%list_elem_of_In & Hstart)%existsb_exists.
        apply starts_with_spec in Hstart as [after Hs].
        apply (Hno t Ht). by exists "", after.
      * intros t Ht (before & after & ->). apply (Hno t Ht).
        exists (String c before), after. by rewrite append_cons.
Qed.

(** X29.  The matcher of data URLs accepts exactly the strings of the
    pattern [^data:([A-Za-z-+/]+);base64,(.+)$]: the text "data:", a type
    of one or more letters, "-", "+" or "/", the text ";base64,", and a
    payload of one or more characters in which no line terminator occurs:
    no line feed, no carriage return, no U+2028 and no U+2029 (in the
    bytes of the string, E2 80 A8 and E2 80 A9); its result is the
    payload. *)
Theorem payload_matches_the_pattern (url p : string) :
  DataUrl.payload url = Some p
  ↔ ∃ mime,
      url = "data:" +:+ mime +:+ ";base64," +:+ p
      ∧ mime ≠ "" ∧ DataUrl.all_chars DataUrl.is_mime_char mime = true
      ∧ p ≠ ""
      ∧ ∀ t, t ∈ [String "010" ""; String "013" "";
                  String "226" (String "128" (String "168" ""));
                  String "226" (String "128" (String "169" ""))] →
             ¬ occurs_in t p.
Proof.
  change [String "010" ""; String "013" "";
          String "226" (String "128" (String "168" ""));
          String "226" (String "128" (String "169" ""))]
    with DataUrl.line_terminators.
  unfold DataUrl.payload. split.
  - destruct (DataUrl.strip_prefix "data:" url) as [s1|] eqn:Hdata; [|done].
    apply strip_prefix_Some in Hdata as ->.
    destruct s1 as [|c s1]; [done|].
    destruct (DataUrl.is_mime_char c) eqn:Hc; [|done].
    destruct (drop_while_split DataUrl.is_mime_char (String c s1))
      as (mime & Hsplit & Hmime).
    destruct (DataUrl.strip_prefix ";base64,"
                (DataUrl.drop_while DataUrl.is_mime_char (String c s1)))
      as [[|d rest]|] eqn:Hbase; [done| |done].
    destruct (DataUrl.no_line_terminator (String d rest)) eqn:Hdot; [|done].
    pose proof (proj1 (no_line_terminator_spec _) Hdot) as Hnone.
    intros [= <-]. apply strip_prefix_Some in Hbase.
    rewrite Hbase in Hsplit. exists mime. rewrite Hsplit.
    split; [done|]. split; [|done].
    intros ->. cbn in Hsplit. injection Hsplit as -> _. done.
  - intros (mime & -> & Hne & Hmime & Hp & Hnone).
    pose proof (proj2 (no_line_terminator_spec _) Hnone) as Hdot.
    rewrite strip_prefix_app.
    destruct mime as [|c mime]; [done|].
    cbn in Hmime. apply andb_true_iff in Hmime as [Hc Hmime].
    change (String c mime +:+ ";base64," +:+ p)
      with (String c (mime +:+ ";base64," +:+ p)).
    cbv iota beta. rewrite Hc.
    change (String c (mime +:+ ";base64," +:+ p))
      with (String c mime +:+ String ";" ("base64," +:+ p)).
    rewrite drop_while_stops; [|by cbn; rewrite Hc, Hmime|done].
    change (String ";" ("base64," +:+ p)) with (";base64," +:+ p).
    rewrite strip_prefix_app.
    destruct p as [|d rest]; [done|]. by rewrite Hdot.
Qed.

Section AttachmentData.
Context `{BufferDecoder}.

(** X30.  An attachment whose data URL names a type with a character
    outside letters, "-", "+" and "/" (a digit, a dot) is stored without
    its bytes, and is read back with empty data. *)
Theorem binaryData_null_for_other_types (att : FileBase64) (mime : string)
    (c : ascii) (rest : string) :
  fb_data att = "data:" +:+ mime +:+ String c rest →
  DataUrl.all_chars DataUrl.is_mime_char mime = true →
  DataUrl.is_mime_char c = false → c ≠ ";"%char →
  DBMessages.binaryData att = None ∧ fb_data (as_stored att) = "".
Proof.
  intros Hdata Hmime Hc Hsemi.
  assert (Hnone : DBMessages.binaryData att = None).
  { unfold DBMessages.binaryData. rewrite Hdata.
    destruct (truthy _); [|done].
    unfold DataUrl.payload. rewrite strip_prefix_app.
    destruct mime as [|a mime].
    - change ("" +:+ String c rest) with (String c rest).
      cbv iota beta. by rewrite Hc.
    - cbn in Hmime. apply andb_true_iff in Hmime as [Ha Hmime].
      change (String a mime +:+ String c rest)
        with (String a (mime +:+ String c rest)).
      cbv iota beta. rewrite Ha.
      change (String a (mime +:+ String c rest))
        with (String a mime +:+ String c rest).
      rewrite drop_while_stops; [|by cbn; rewrite Ha, Hmime|done].
      cbn. by rewrite bool_decide_eq_false_2 by congruence. }
  split; [done|]. unfold as_stored. cbn. by rewrite Hnone.
Qed.

End AttachmentData.

(** X29, witness: the data URL of the picture. *)
Lemma payload_matches_the_pattern_witness :
  DataUrl.payload "data:text/plain;base64,aGk=" = Some "aGk=".
Proof.
  apply (payload_matches_the_pattern "data:text/plain;base64,aGk=" "aGk=").
  exists "text/plain". do 4 (split; [done|]).
  apply no_line_terminator_spec. reflexivity.
Defined.

(** A payload with U+2028 in it is not matched: the attachment is stored
    without its bytes and read back with empty data. *)
Example payload_with_line_separator :
  let url :=
    "data:text/plain;base64,aG"
    +:+ String "226" (String "128" (String "168" "k=")) in
  DataUrl.payload url = None
  ∧ @DBMessages.binaryData Fixtures.decoder
      (mkFileBase64 "hi.txt" "text/plain" 2 url) = None
  ∧ fb_data (@as_stored Fixtures.decoder
               (mkFileBase64 "hi.txt" "text/plain" 2 url)) = "".
Proof. by vm_compute. Qed.

(** X30, witness: a video of type video/mp4. *)
Lemma binaryData_null_for_other_types_witness :
  @DBMessages.binaryData Fixtures.decoder
    (mkFileBase64 "clip.mp4" "video/mp4" 3 "data:video/mp4;base64,AAAA")
  = None.
Proof.
  destruct (@binaryData_null_for_other_types Fixtures.decoder
              (mkFileBase64 "clip.mp4" "video/mp4" 3 "data:video/mp4;base64,AAAA")
              "video/mp" "4"%char ";base64,AAAA") as [Hnull _];
    [reflexivity|reflexivity|reflexivity|done|].
  exact Hnull.
Defined.
